(** * The floor-plan overlay of [BuildingsLayer] (react-mapper)

    A shallow embedding of [src/components/Map/Layers/BuildingLayer.tsx]
    (the revision with the opacity slider and the footprint mask) and of
    the few Leaflet, lodash and browser operations it calls.  The
    revision before it, without slider and mask, is the module
    [Earlier]; the later one is shown to refine it.

    Conventions of the embedding.
    - A JavaScript [number] that is a coordinate, a zoom level, a scale
      or an opacity is the rational ([Q]) the binary64 value denotes.
      Each [+], [-], [*] and [/] of the source returns its exact result
      rounded to the nearest binary64 value ([fl], checked against the
      kernel's binary64 operations); what the statements measure
      (widths, midpoints, distances) is exact.  Whole pixels, the
      slider's rotation and times in milliseconds are integers ([Z]).
    - A React state hook is a field of [State]; a handler runs on the
      state committed by the latest render, which is also the state its
      closures captured.  The effects of the render that follows a
      handler are the function [commit].
    - What the component does to its surroundings is recorded in
      [World]: the calls of [URL.revokeObjectURL], the requests posted
      with axios, the lines written with [console.error], the inline
      style of the overlay's image element, the timer of the debounced
      fetch. *)

From Stdlib Require Import ZArith QArith Qminmax Qround Qabs Qpower.
From Stdlib Require Import String Ascii List Bool Lia Lqa.
From Stdlib Require Import DecimalString Floats.
From Stdlib Require Uint63.
Import ListNotations.

Local Open Scope Q_scope.

(* ------------------------------------------------------------------ *)
(** ** Exceptions *)

(** A computation that returns normally or throws. *)
Inductive Result (A : Type) : Type :=
| Ok (a : A)
| Throw (e : string).
Arguments Ok {A} a.
Arguments Throw {A} e.

Definition bind {A B : Type} (r : Result A) (k : A -> Result B) : Result B :=
  match r with
  | Ok a => k a
  | Throw e => Throw e
  end.

Notation "x <- r ;; k" := (bind r (fun x => k))
  (at level 61, r at next level, right associativity).

(** [try { body } catch (error) { handler(error) }] *)
Definition try_catch {A : Type} (body : Result A) (handler : string -> Result A)
  : Result A :=
  match body with
  | Ok a => Ok a
  | Throw e => handler e
  end.

(* ------------------------------------------------------------------ *)
(** ** JavaScript numbers

    A [number] is an IEEE 754 binary64 value.  A finite one is a
    rational [m * 2^e] with [|m| < 2^53] and [-1074 <= e]; an arithmetic
    operation returns the exact result rounded to the nearest such
    value, ties going to the even [m].  Results of magnitude [2^1024]
    and more (JavaScript's [Infinity]) are not modelled: the statements
    that depend on the arithmetic bound the coordinates ([noOverflow]). *)

(** The integer nearest to [x], the even one of two. *)
Definition roundHalfEven (x : Q) : Z :=
  let f := Qfloor x in
  match Qcompare (x - inject_Z f) (1 # 2) with
  | Lt => f
  | Gt => (f + 1)%Z
  | Eq => if Z.even f then f else (f + 1)%Z
  end.

(** The exponent [e] of the binary64 values next to [a > 0]:
    [2^52 <= a / 2^e < 2^53], or [-1074] for a subnormal [a]. *)
Definition exponentOf (a : Q) : Z :=
  let l := (Z.log2 (Qnum a) - Z.log2 (Zpos (Qden a)))%Z in
  let e := if Qle_bool (2 ^ 53) (a / 2 ^ (l - 53)) then (l - 52)%Z else (l - 53)%Z in
  Z.max e (-1074).

(** Rounding to binary64. *)
Definition fl (q : Q) : Q :=
  if Qeq_bool q 0 then 0
  else
    let a := Qabs q in
    let e := exponentOf a in
    let m := roundHalfEven (a / 2 ^ e) in
    Qred (inject_Z (Z.sgn (Qnum q) * m) * 2 ^ e).

(** JavaScript's [a + b], [a - b], [a * b] and [a / b]. *)
Definition fadd (a b : Q) : Q := fl (a + b).
Definition fsub (a b : Q) : Q := fl (a - b).
Definition fmul (a b : Q) : Q := fl (a * b).
Definition fdiv (a b : Q) : Q := fl (a / b).

Arguments fl : simpl never.
Arguments fadd : simpl never.
Arguments fsub : simpl never.
Arguments fmul : simpl never.
Arguments fdiv : simpl never.

(** The unit roundoff of binary64 and half its smallest positive value. *)
Definition roundoff : Q := 1 # 9007199254740992.
Definition underflow : Q := 2 ^ (-1075).

(** The rational a kernel float denotes, when it is finite. *)
Definition double (f : float) : option Q :=
  match Prim2SF f with
  | S754_zero _ => Some 0
  | S754_finite s m e =>
      Some (Qred (inject_Z (if s then Zneg m else Zpos m) * 2 ^ e))
  | _ => None
  end.

(* ------------------------------------------------------------------ *)
(** ** Leaflet geometry: [L.LatLng], [L.LatLngBounds], [L.Point] *)

Record LatLng : Type := { lat : Q; lng : Q }.

(** [L.LatLngBounds] keeps its south-west and north-east corners. *)
Record LatLngBounds : Type := { southWest : LatLng; northEast : LatLng }.

Definition getSouth (b : LatLngBounds) : Q := lat (southWest b).
Definition getWest (b : LatLngBounds) : Q := lng (southWest b).
Definition getNorth (b : LatLngBounds) : Q := lat (northEast b).
Definition getEast (b : LatLngBounds) : Q := lng (northEast b).

(** [getCenter]:
    [new LatLng((sw.lat + ne.lat) / 2, (sw.lng + ne.lng) / 2)]. *)
Definition getCenter (b : LatLngBounds) : LatLng :=
  {| lat := fdiv (fadd (getSouth b) (getNorth b)) 2;
     lng := fdiv (fadd (getWest b) (getEast b)) 2 |}.

(** [L.latLngBounds(corner1, corner2)] extends an empty box by the two
    corners, so the stored corners are the componentwise minimum and
    maximum. *)
Definition latLngBounds (corner1 corner2 : LatLng) : LatLngBounds :=
  {| southWest := {| lat := Qmin (lat corner1) (lat corner2);
                     lng := Qmin (lng corner1) (lng corner2) |};
     northEast := {| lat := Qmax (lat corner1) (lat corner2);
                     lng := Qmax (lng corner1) (lng corner2) |} |}.

(** The invariant of every [L.LatLngBounds] Leaflet hands out. *)
Definition valid_bounds (b : LatLngBounds) : Prop :=
  getSouth b <= getNorth b /\ getWest b <= getEast b.

(** A container point, in whole pixels. *)
Record Point : Type := { x : Z; y : Z }.

(** A footprint polygon on the map ([L.Polygon]): what the component
    reads from it is [getBounds()] and the outer ring [getLatLngs()[0]]. *)
Record Layer : Type := {
  layer_getBounds : LatLngBounds;
  layer_getLatLngs0 : list LatLng
}.

(** The Leaflet map as the component observes it: [getZoom()],
    [getBounds()], and the pixel origin that fixes the projection. *)
Record LeafletMap : Type := {
  map_getZoom : Q;
  map_getBounds : LatLngBounds;
  map_pixelOrigin : Point
}.

(* ------------------------------------------------------------------ *)
(** ** Strings *)

Local Open Scope string_scope.

(** [Number.prototype.toString] on an integer. *)
Definition string_of_Z (z : Z) : string := NilZero.string_of_int (Z.to_int z).

(** [Array.prototype.join]. *)
Fixpoint join (sep : string) (l : list string) : string :=
  match l with
  | [] => ""
  | [s] => s
  | s :: rest => s ++ sep ++ join sep rest
  end.

(** Number of occurrences of a character. *)
Fixpoint count_char (c : ascii) (s : string) : nat :=
  match s with
  | EmptyString => 0
  | String d rest => (if Ascii.eqb c d then 1 else 0) + count_char c rest
  end.

(** Does [s] start with [p]? *)
Fixpoint starts_with (p s : string) : bool :=
  match p, s with
  | EmptyString, _ => true
  | String a p', String b s' => Ascii.eqb a b && starts_with p' s'
  | String _ _, EmptyString => false
  end.

(** Does [s] contain [p]?  ([String.prototype.includes]) *)
Fixpoint includes (p s : string) : bool :=
  starts_with p s ||
  match s with
  | EmptyString => false
  | String _ s' => includes p s'
  end.

(** The double-quote character. *)
Definition dquote : string := String (ascii_of_nat 34) EmptyString.

(** A line break inside a template literal. *)
Definition newline : string := String (ascii_of_nat 10) EmptyString.

(* ------------------------------------------------------------------ *)
(** ** The component's state *)

(** A URL made by [URL.createObjectURL]: the browser returns a new,
    non-empty [blob:] string at each call; it is identified here by the
    serial number of the call. *)
Definition ObjectURL : Type := nat.

(** [interface FloorMapState] *)
Record FloorMapState : Type := {
  url : ObjectURL;
  bounds : LatLngBounds;
  scale : Q;
  rotation : Z;
  masked : bool
}.

(** What [osmtogeojson] returns: the rings of the building polygons. *)
Record GeoJsonObject : Type := { features : list (list LatLng) }.

(** The hooks of [BuildingsLayer]: five [useState] cells and the
    [selectedBuildingRef] reference. *)
Record State : Type := {
  geojsonData : option GeoJsonObject;
  selectedBuildingRef : option Layer;
  floorMap : option FloorMapState;
  showControls : bool;
  opacity : Q;
  clipPath : string
}.

Definition setGeojsonData (v : option GeoJsonObject) (s : State) : State :=
  {| geojsonData := v; selectedBuildingRef := selectedBuildingRef s;
     floorMap := floorMap s; showControls := showControls s;
     opacity := opacity s; clipPath := clipPath s |}.

Definition setSelectedBuildingRef (v : option Layer) (s : State) : State :=
  {| geojsonData := geojsonData s; selectedBuildingRef := v;
     floorMap := floorMap s; showControls := showControls s;
     opacity := opacity s; clipPath := clipPath s |}.

Definition setFloorMap (v : option FloorMapState) (s : State) : State :=
  {| geojsonData := geojsonData s; selectedBuildingRef := selectedBuildingRef s;
     floorMap := v; showControls := showControls s;
     opacity := opacity s; clipPath := clipPath s |}.

Definition setShowControls (v : bool) (s : State) : State :=
  {| geojsonData := geojsonData s; selectedBuildingRef := selectedBuildingRef s;
     floorMap := floorMap s; showControls := v;
     opacity := opacity s; clipPath := clipPath s |}.

Definition setOpacity (v : Q) (s : State) : State :=
  {| geojsonData := geojsonData s; selectedBuildingRef := selectedBuildingRef s;
     floorMap := floorMap s; showControls := showControls s;
     opacity := v; clipPath := clipPath s |}.

Definition setClipPath (v : string) (s : State) : State :=
  {| geojsonData := geojsonData s; selectedBuildingRef := selectedBuildingRef s;
     floorMap := floorMap s; showControls := showControls s;
     opacity := opacity s; clipPath := v |}.

(** [floorMap?.masked], as a condition. *)
Definition floorMap_masked (fm : option FloorMapState) : bool :=
  match fm with
  | Some f => masked f
  | None => false
  end.

(** [floorMap?.url] *)
Definition floorMap_url (fm : option FloorMapState) : option ObjectURL :=
  option_map url fm.

(* ------------------------------------------------------------------ *)
(** ** The surroundings *)

(** The inline style [RotatedImageOverlay] writes on the image element. *)
Record ElementStyle : Type := {
  style_transform : option Z;      (* rotate(<n>deg), when set *)
  style_transformOrigin : string;
  style_opacity : option Q;
  style_clipPath : string
}.

(** The element as Leaflet creates it: no inline style of ours yet. *)
Definition newElement : ElementStyle :=
  {| style_transform := None; style_transformOrigin := "";
     style_opacity := None; style_clipPath := "" |}.

(** A request posted with [axios.post]. *)
Record Request : Type := {
  req_url : string;
  req_data : string;
  req_contentType : string
}.

(** The state of lodash's [debounce(fetchBuildingData, 500)]. *)
Record Debounced : Type := {
  lastCallTime : option Z;
  lastArgs : bool;          (* a call is waiting for the trailing edge *)
  timerId : option Z        (* the time at which the pending timer expires *)
}.

Record World : Type := {
  state : State;
  leaflet : LeafletMap;
  image : option ElementStyle;   (* the overlay's element, while it is mounted *)
  created : nat;                 (* calls of URL.createObjectURL so far *)
  revoked : list ObjectURL;      (* calls of URL.revokeObjectURL, latest first *)
  posted : list Request;         (* calls of axios.post, latest first *)
  console : list string;         (* console.error lines, latest first *)
  debounced : Debounced;
  now : Z;                       (* milliseconds *)
  fetchCalls : list (Z * LeafletMap)
    (* when fetchBuildingData ran and the map it read, latest first *)
}.

Definition with_state (f : State -> State) (w : World) : World :=
  {| state := f (state w); leaflet := leaflet w; image := image w;
     created := created w; revoked := revoked w; posted := posted w;
     console := console w; debounced := debounced w; now := now w;
     fetchCalls := fetchCalls w |}.

Definition with_leaflet (m : LeafletMap) (w : World) : World :=
  {| state := state w; leaflet := m; image := image w;
     created := created w; revoked := revoked w; posted := posted w;
     console := console w; debounced := debounced w; now := now w;
     fetchCalls := fetchCalls w |}.

Definition with_image (i : option ElementStyle) (w : World) : World :=
  {| state := state w; leaflet := leaflet w; image := i;
     created := created w; revoked := revoked w; posted := posted w;
     console := console w; debounced := debounced w; now := now w;
     fetchCalls := fetchCalls w |}.

Definition with_debounced (d : Debounced) (w : World) : World :=
  {| state := state w; leaflet := leaflet w; image := image w;
     created := created w; revoked := revoked w; posted := posted w;
     console := console w; debounced := d; now := now w;
     fetchCalls := fetchCalls w |}.

Definition with_now (t : Z) (w : World) : World :=
  {| state := state w; leaflet := leaflet w; image := image w;
     created := created w; revoked := revoked w; posted := posted w;
     console := console w; debounced := debounced w; now := t;
     fetchCalls := fetchCalls w |}.

(** [URL.createObjectURL(file)] *)
Definition createObjectURL (w : World) : ObjectURL * World :=
  (created w,
   {| state := state w; leaflet := leaflet w; image := image w;
      created := S (created w); revoked := revoked w; posted := posted w;
      console := console w; debounced := debounced w; now := now w;
      fetchCalls := fetchCalls w |}).

(** [URL.revokeObjectURL(u)] *)
Definition revokeObjectURL (u : ObjectURL) (w : World) : World :=
  {| state := state w; leaflet := leaflet w; image := image w;
     created := created w; revoked := u :: revoked w; posted := posted w;
     console := console w; debounced := debounced w; now := now w;
     fetchCalls := fetchCalls w |}.

(** [axios.post(...)], up to the point where the request is sent. *)
Definition axios_post (r : Request) (w : World) : World :=
  {| state := state w; leaflet := leaflet w; image := image w;
     created := created w; revoked := revoked w; posted := r :: posted w;
     console := console w; debounced := debounced w; now := now w;
     fetchCalls := fetchCalls w |}.

(** [console.error(line, ...)] *)
Definition console_error (line : string) (w : World) : World :=
  {| state := state w; leaflet := leaflet w; image := image w;
     created := created w; revoked := revoked w; posted := posted w;
     console := line :: console w; debounced := debounced w; now := now w;
     fetchCalls := fetchCalls w |}.

(** A note that [fetchBuildingData] runs now, on the map as it is. *)
Definition note_fetchCall (w : World) : World :=
  {| state := state w; leaflet := leaflet w; image := image w;
     created := created w; revoked := revoked w; posted := posted w;
     console := console w; debounced := debounced w; now := now w;
     fetchCalls := (now w, leaflet w) :: fetchCalls w |}.

(** How often a URL has been revoked. *)
Definition releases (u : ObjectURL) (w : World) : nat :=
  count_occ Nat.eq_dec (revoked w) u.

(* ------------------------------------------------------------------ *)
(** ** The component *)

(** How [axios.post] settles: the promise is rejected (network failure,
    error status) or fulfilled with the response's [data]. *)
Inductive AxiosOutcome : Type :=
| Rejected (error : string)
| Fulfilled (data : string).

Section Component.

(** What the component calls and this repository does not define:
    Leaflet's projection [map.latLngToContainerPoint], the conversion of
    a number inside a template literal, [encodeURIComponent], and
    [osmtogeojson], which throws on data it cannot read. *)
Variable latLngToContainerPoint : LeafletMap -> LatLng -> Point.
Variable numberToString : Q -> string.
Variable encodeURIComponent : string -> string.
Variable osmtogeojson : string -> Result GeoJsonObject.

(** *** The clip silhouette *)

(** One vertex of the silhouette: [`${pixel.x}px ${pixel.y}px`]. *)
Definition clipPoint (m : LeafletMap) (point : LatLng) : string :=
  let pixel := latLngToContainerPoint m point in
  string_of_Z (x pixel) ++ "px " ++ string_of_Z (y pixel) ++ "px".

(** The CSS polygon of a ring under the map's current projection. *)
Definition polygonOf (m : LeafletMap) (points : list LatLng) : string :=
  let clipPoints := map (clipPoint m) points in
  "polygon(" ++ join ", " clipPoints ++ ")".

(** [updateClipPath].  The callback is made by [useCallback] with the
    dependencies [map] and [floorMap?.masked]: the [floorMap] it tests
    is the one of the render that made it ([rendered]), while
    [selectedBuildingRef.current] and the map are read when it runs. *)
Definition updateClipPath (rendered : option FloorMapState) (w : World) : World :=
  match selectedBuildingRef (state w) with
  | Some layer =>
      if floorMap_masked rendered then
        let points := layer_getLatLngs0 layer in
        with_state (setClipPath (polygonOf (leaflet w) points)) w
      else with_state (setClipPath "") w
  | None => with_state (setClipPath "") w
  end.

(** *** The footprint fetch *)

(** The Overpass query of [fetchBuildingData], split where the bounding
    box is spliced in. *)
Definition queryHead : string :=
  newline ++
  "      [out:json][timeout:25];" ++ newline ++
  "      (" ++ newline ++
  "        way[" ++ dquote ++ "building" ++ dquote ++ "]["
    ++ dquote ++ "building" ++ dquote ++ "~"
    ++ dquote ++ "^(residential|commercial|office|retail)$" ++ dquote ++ "]".

Definition queryTail : string :=
  ";" ++ newline ++
  "      );" ++ newline ++
  "      out body 500;" ++ newline ++
  "      >;" ++ newline ++
  "      out skel qt;" ++ newline ++
  "    ".

Definition bboxFilter (south west north east : Q) : string :=
  "(" ++ numberToString south ++ "," ++ numberToString west ++ ","
      ++ numberToString north ++ "," ++ numberToString east ++ ")".

Definition overpassQuery (south west north east : Q) : string :=
  queryHead ++ bboxFilter south west north east ++ queryTail.

Definition overpassEndpoint : string := "https://overpass-api.de/api/interpreter".

(** [fetchBuildingData], up to its [await]: the zoom gate, then the
    request. *)
Definition fetchBuildingData (w0 : World) : World :=
  let w := note_fetchCall w0 in
  if Qlt_le_dec (map_getZoom (leaflet w)) 15 then
    with_state (setGeojsonData None) w
  else
    let bounds := map_getBounds (leaflet w) in
    let south := getSouth bounds in
    let west := getWest bounds in
    let north := getNorth bounds in
    let east := getEast bounds in
    let query := overpassQuery south west north east in
    axios_post {| req_url := overpassEndpoint;
                  req_data := "data=" ++ encodeURIComponent query;
                  req_contentType := "application/x-www-form-urlencoded" |} w.

(** [fetchBuildingData], from the moment the request settles: the rest
    of the [try] block and its [catch]. *)
Definition fetchBuildingData_resume (outcome : AxiosOutcome) (w : World)
  : Result World :=
  try_catch
    (data <- match outcome with
             | Rejected error => Throw error
             | Fulfilled data => Ok data
             end ;;
     geoJson <- osmtogeojson data ;;
     Ok (with_state (setGeojsonData (Some geoJson)) w))
    (fun error =>
       Ok (console_error ("Error fetching building data: " ++ error) w)).

(** The request [fetchBuildingData] posts when the map is [m]. *)
Definition overpassRequest (m : LeafletMap) : Request :=
  {| req_url := overpassEndpoint;
     req_data :=
       "data=" ++ encodeURIComponent
                    (overpassQuery (getSouth (map_getBounds m))
                       (getWest (map_getBounds m))
                       (getNorth (map_getBounds m))
                       (getEast (map_getBounds m)));
     req_contentType := "application/x-www-form-urlencoded" |}.

(** The fetch fails: the request is rejected, or the response is one
    [osmtogeojson] throws on. *)
Definition fetchFailed (outcome : AxiosOutcome) : Prop :=
  match outcome with
  | Rejected _ => True
  | Fulfilled data => exists e, osmtogeojson data = Throw e
  end.

(** *** lodash's [debounce(fetchBuildingData, 500)]

    Neither [leading] nor [maxWait] is given: a call records its time
    and makes sure a timer is pending; the timer, when it expires,
    invokes the function if the last call is at least [wait] old and
    re-arms itself for the remainder otherwise. *)
Definition wait : Z := 500%Z.

Definition shouldInvoke (d : Debounced) (time : Z) : bool :=
  match lastCallTime d with
  | None => true
  | Some l =>
      let timeSinceLastCall := (time - l)%Z in
      (wait <=? timeSinceLastCall)%Z || (timeSinceLastCall <? 0)%Z
  end.

Definition remainingWait (d : Debounced) (time : Z) : Z :=
  match lastCallTime d with
  | Some l => (wait - (time - l))%Z
  | None => 0%Z
  end.

(** The debounced function, called at time [now w].  [useCallback]
    keeps the function made in the first render; the [fetchBuildingData]
    it wraps reads the map and [setGeojsonData] only, which are the same
    in every render. *)
Definition debouncedFetchBuildingData (w : World) : World :=
  let d := debounced w in
  let time := now w in
  let isInvoking := shouldInvoke d time in
  let startTimer :=
    {| lastCallTime := Some time; lastArgs := true;
       timerId := Some (time + wait)%Z |} in
  let called :=
    {| lastCallTime := Some time; lastArgs := true; timerId := timerId d |} in
  match timerId d with
  | None =>
      if isInvoking
      then with_debounced startTimer w      (* leadingEdge, leading = false *)
      else with_debounced startTimer w      (* setTimeout(timerExpired, wait) *)
  | Some _ => with_debounced called w
  end.

Definition trailingEdge (w : World) : World :=
  let d := debounced w in
  let w1 := with_debounced
              {| lastCallTime := lastCallTime d; lastArgs := false;
                 timerId := None |} w in
  if lastArgs d then fetchBuildingData w1 else w1.

(** [timerExpired], run at time [now w]. *)
Definition timerExpired (w : World) : World :=
  let d := debounced w in
  let time := now w in
  if shouldInvoke d time then trailingEdge w
  else with_debounced
         {| lastCallTime := lastCallTime d; lastArgs := lastArgs d;
            timerId := Some (time + remainingWait d time)%Z |} w.

(** Let the pending timer expire if it is due by [t]. *)
Definition runTimer (t : Z) (w : World) : World :=
  match timerId (debounced w) with
  | Some due =>
      if (due <=? t)%Z then timerExpired (with_now (Z.max due (now w)) w)
      else w
  | None => w
  end.

(** Let the clock reach [t].  A timer that re-arms itself is due again
    exactly [wait] after the last call, and then invokes: two rounds
    leave no timer due by [t] (lemma [advanceTo_quiet]). *)
Definition advanceTo (t : Z) (w : World) : World :=
  let w' := runTimer t (runTimer t w) in
  with_now (Z.max t (now w')) w'.

(** *** The overlay's handlers *)

(** [handleBuildingClick]: the clicked polygon becomes the selection
    (and its popup with the file input opens). *)
Definition handleBuildingClick (layer : Layer) (w : World) : World :=
  with_state (setSelectedBuildingRef (Some layer)) w.

(** [handleFileUpload]; [file] is [input.files[0]] when there is one.
    Its two [console.log] calls write to the console's log, which the
    model does not record ([console] holds the [console.error] lines). *)
Definition handleFileUpload (file : option string) (w : World) : World :=
  let currentSelectedBuilding := selectedBuildingRef (state w) in
  match file, currentSelectedBuilding with
  | Some _, Some building =>
      let (imageUrl, w1) := createObjectURL w in
      let bounds := layer_getBounds building in
      with_state
        (fun s =>
           setOpacity 1
             (setShowControls true
                (setFloorMap
                   (Some {| url := imageUrl; bounds := bounds; scale := 1;
                            rotation := 0; masked := false |}) s))) w1
  | _, _ => w
  end.

(** The updater [handleScaleChange] passes to [setFloorMap].  The read
    of [selectedBuildingRef.current.getBounds()] is not guarded: with no
    selection it throws a [TypeError]. *)
Definition scaleUpdater (current : option Layer) (scale : Q)
    (prev : option FloorMapState) : Result (option FloorMapState) :=
  match prev with
  | None => Ok None
  | Some prev =>
      let center := getCenter (bounds prev) in
      match current with
      | None => Throw "TypeError: Cannot read properties of null (reading 'getBounds')"
      | Some building =>
          let originalBounds := layer_getBounds building in
          let width := fsub (getEast originalBounds) (getWest originalBounds) in
          let height := fsub (getNorth originalBounds) (getSouth originalBounds) in
          let newBounds :=
            latLngBounds
              {| lat := fsub (lat center) (fdiv (fmul height scale) 2);
                 lng := fsub (lng center) (fdiv (fmul width scale) 2) |}
              {| lat := fadd (lat center) (fdiv (fmul height scale) 2);
                 lng := fadd (lng center) (fdiv (fmul width scale) 2) |} in
          Ok (Some {| url := url prev; bounds := newBounds; scale := scale;
                      rotation := rotation prev; masked := masked prev |})
      end
  end.

(** [handleScaleChange]; [value] is [parseFloat(e.target.value)]. *)
Definition handleScaleChange (value : Q) (w : World) : Result World :=
  match floorMap (state w) with
  | Some _ =>
      let scale := value in
      next <- scaleUpdater (selectedBuildingRef (state w)) scale
                (floorMap (state w)) ;;
      Ok (with_state (setFloorMap next) w)
  | None => Ok w
  end.

(** [handleRotationChange]; [value] is [parseInt(e.target.value)]. *)
Definition handleRotationChange (value : Z) (w : World) : World :=
  match floorMap (state w) with
  | Some _ =>
      let rotation := value in
      with_state
        (fun s =>
           setFloorMap
             (match floorMap s with
              | Some prev =>
                  Some {| url := url prev; bounds := bounds prev;
                          scale := scale prev; rotation := rotation;
                          masked := masked prev |}
              | None => None
              end) s) w
  | None => w
  end.

(** [handleOpacityChange] *)
Definition handleOpacityChange (value : Q) (w : World) : World :=
  let newOpacity := value in
  with_state (setOpacity newOpacity) w.

(** [toggleMask].  The [updateClipPath] it calls is the callback of the
    render in which the button was drawn, so it tests that render's
    [floorMap], not the value the updater is about to return. *)
Definition toggleMask (w : World) : World :=
  let rendered := floorMap (state w) in
  match floorMap (state w) with
  | None => with_state (setFloorMap None) w
  | Some prev =>
      let masked := negb (masked prev) in
      let w1 := if masked then updateClipPath rendered w
                else with_state (setClipPath "") w in
      with_state
        (setFloorMap
           (Some {| url := url prev; bounds := bounds prev;
                    scale := scale prev; rotation := rotation prev;
                    masked := masked |})) w1
  end.

(** The [onClick] of the button "Remove Floor Map". *)
Definition removeFloorMap (w : World) : World :=
  let w1 := match floorMap_url (floorMap (state w)) with
            | Some u => revokeObjectURL u w
            | None => w
            end in
  with_state
    (fun s => setClipPath "" (setShowControls false (setFloorMap None s))) w1.

(** The ["move"] listener of [RotatedImageOverlay]: the rotation pivot
    follows the projected centre of the [bounds] property. *)
Definition overlayMove (w : World) : World :=
  match image w, floorMap (state w) with
  | Some e, Some fm =>
      let center := getCenter (bounds fm) in
      let point := latLngToContainerPoint (leaflet w) center in
      with_image
        (Some {| style_transform := style_transform e;
                 style_transformOrigin :=
                   string_of_Z (x point) ++ "px " ++ string_of_Z (y point) ++ "px";
                 style_opacity := style_opacity e;
                 style_clipPath := style_clipPath e |}) w
  | _, _ => w
  end.

(** *** The effects of a render *)

(** The effect with the dependency [floorMap?.url]: when the URL of the
    new render differs from the one of the previous render, the cleanup
    of the previous render runs and revokes the URL it captured. *)
Definition urlCleanup (before after : World) : World :=
  match floorMap_url (floorMap (state before)),
        floorMap_url (floorMap (state after)) with
  | Some u, Some u' => if Nat.eqb u u' then after else revokeObjectURL u after
  | Some u, None => revokeObjectURL u after
  | None, _ => after
  end.

(** The body of the effect of [RotatedImageOverlay]: the clip path is
    written only when it is a non-empty string. *)
Definition styleEffect (fm : FloorMapState) (s : State) (e : ElementStyle)
  : ElementStyle :=
  {| style_transform := Some (rotation fm);
     style_transformOrigin := "center center";
     style_opacity := Some (opacity s);
     style_clipPath := if String.eqb (clipPath s) "" then style_clipPath e
                       else clipPath s |}.

(** [RotatedImageOverlay] is rendered while [floorMap] is set; its
    effect runs when it mounts and when [rotation], [opacity] or
    [clipPath] changed. *)
Definition imageEffect (before after : World) : World :=
  match floorMap (state after) with
  | None => with_image None after
  | Some fm =>
      match image after, floorMap (state before) with
      | Some e, Some fm0 =>
          if (rotation fm0 =? rotation fm)%Z
             && Qeq_bool (opacity (state before)) (opacity (state after))
             && String.eqb (clipPath (state before)) (clipPath (state after))
          then after
          else with_image (Some (styleEffect fm (state after) e)) after
      | _, _ => with_image (Some (styleEffect fm (state after) newElement)) after
      end
  end.

Definition commit (before after : World) : World :=
  imageEffect before (urlCleanup before after).

(** *** Events *)

Inductive Event : Type :=
| BuildingClick (layer : Layer)        (* a click on a footprint *)
| FileChosen (file : option string)    (* "change" on the file input *)
| ScaleInput (value : Q)
| RotationInput (value : Z)
| OpacityInput (value : Q)
| MaskClick                            (* the button Enable/Disable Mask *)
| RemoveClick                          (* the button Remove Floor Map *)
| MapMove (m : LeafletMap)             (* Leaflet's "move", the map now being m *)
| MapZoom (m : LeafletMap)             (* Leaflet's "zoom" *)
| MapMoveEnd                           (* Leaflet's "moveend" *)
| FetchSettled (outcome : AxiosOutcome).

Definition handle (ev : Event) (w : World) : Result World :=
  match ev with
  | BuildingClick layer => Ok (handleBuildingClick layer w)
  | FileChosen file => Ok (handleFileUpload file w)
  | ScaleInput value => handleScaleChange value w
  | RotationInput value => Ok (handleRotationChange value w)
  | OpacityInput value => Ok (handleOpacityChange value w)
  | MaskClick => Ok (toggleMask w)
  | RemoveClick => Ok (removeFloorMap w)
  | MapMove m =>
      Ok (updateClipPath (floorMap (state w)) (overlayMove (with_leaflet m w)))
  | MapZoom m => Ok (updateClipPath (floorMap (state w)) (with_leaflet m w))
  | MapMoveEnd => Ok (debouncedFetchBuildingData w)
  | FetchSettled outcome => fetchBuildingData_resume outcome w
  end.

(** An event, then the render it causes. *)
Definition dispatch (ev : Event) (w : World) : Result World :=
  w' <- handle ev w ;; Ok (commit w w').

(** Events without regard to time. *)
Fixpoint dispatchAll (evs : list Event) (w : World) : Result World :=
  match evs with
  | [] => Ok w
  | ev :: rest => w' <- dispatch ev w ;; dispatchAll rest w'
  end.

(** Events at given times: the clock first reaches the event's time. *)
Fixpoint run (trace : list (Z * Event)) (w : World) : Result World :=
  match trace with
  | [] => Ok w
  | (t, ev) :: rest => w' <- dispatch ev (advanceTo t w) ;; run rest w'
  end.

(** *** Mounting and unmounting *)

Definition initialState : State :=
  {| geojsonData := None; selectedBuildingRef := None; floorMap := None;
     showControls := false; opacity := 1; clipPath := "" |}.

(** The first render at time [t] on map [m]; its effect calls
    [fetchBuildingData] and subscribes the debounced fetch to
    ["moveend"]. *)
Definition mount (m : LeafletMap) (t : Z) : World :=
  fetchBuildingData
    {| state := initialState; leaflet := m; image := None;
       created := 0; revoked := []; posted := []; console := [];
       debounced := {| lastCallTime := None; lastArgs := false;
                       timerId := None |};
       now := t; fetchCalls := [] |}.

(** Unmounting runs the cleanup of the URL effect. *)
Definition unmount (w : World) : World :=
  with_image None
    match floorMap_url (floorMap (state w)) with
    | Some u => revokeObjectURL u w
    | None => w
    end.

(** The states the component can be in. *)
Inductive reachable : World -> Prop :=
| reachable_mount : forall m t, reachable (mount m t)
| reachable_step : forall w t ev w',
    reachable w -> dispatch ev (advanceTo t w) = Ok w' -> reachable w'.

End Component.

(* ------------------------------------------------------------------ *)
(** ** A concrete setting, for running the model *)

(** A projection in the manner of Leaflet's: scale the coordinates,
    round to whole pixels, subtract the pixel origin. *)
Definition gridProjection (m : LeafletMap) (p : LatLng) : Point :=
  {| x := (Qfloor (lng p * 100000 + (1 # 2)) - x (map_pixelOrigin m))%Z;
     y := (- Qfloor (lat p * 100000 + (1 # 2)) - y (map_pixelOrigin m))%Z |}.

(** A number printed as numerator/denominator. *)
Definition ratioToString (q : Q) : string :=
  string_of_Z (Qnum q) ++ "/" ++ string_of_Z (Zpos (Qden q)).

(** An encoder that leaves its argument alone. *)
Definition plainEncoding (s : string) : string := s.

(** A converter that reads only the empty element list. *)
Definition emptyOnly (data : string) : Result GeoJsonObject :=
  if String.eqb data "{elements:[]}" then Ok {| features := [] |}
  else Throw "TypeError: Cannot read properties of undefined (reading 'length')".

(** The binary64 value a decimal literal denotes. *)
Definition literal (q : Q) : Q := fl q.

(** The footprint of scenario B: corners (40.710, -74.010) and
    (40.712, -74.008). *)
Definition footprintB : Layer :=
  {| layer_getBounds :=
       {| southWest := {| lat := literal (40710 # 1000);
                          lng := literal (- (74010 # 1000)) |};
          northEast := {| lat := literal (40712 # 1000);
                          lng := literal (- (74008 # 1000)) |} |};
     layer_getLatLngs0 :=
       [ {| lat := literal (40710 # 1000); lng := literal (- (74010 # 1000)) |};
         {| lat := literal (40712 # 1000); lng := literal (- (74010 # 1000)) |};
         {| lat := literal (40712 # 1000); lng := literal (- (74008 # 1000)) |};
         {| lat := literal (40710 # 1000); lng := literal (- (74008 # 1000)) |} ] |}.

(** The map of scenario A, at a given zoom. *)
Definition mapA (zoom : Q) : LeafletMap :=
  {| map_getZoom := zoom;
     map_getBounds :=
       {| southWest := {| lat := 4070 # 100; lng := - (7402 # 100) |};
          northEast := {| lat := 4072 # 100; lng := - (7400 # 100) |} |};
     map_pixelOrigin := {| x := (-7402000)%Z; y := (-4072000)%Z |} |}.

(** The same map after a pan by (dx, dy) pixels. *)
Definition panned (dx dy : Z) (m : LeafletMap) : LeafletMap :=
  {| map_getZoom := map_getZoom m;
     map_getBounds := map_getBounds m;
     map_pixelOrigin := {| x := (x (map_pixelOrigin m) + dx)%Z;
                           y := (y (map_pixelOrigin m) + dy)%Z |} |}.

(** The page mounts the map at zoom 13 ([HomePage]). *)
Definition homeZoom : Q := 13.

(** Another footprint, two blocks away and of another size. *)
Definition footprintE : Layer :=
  {| layer_getBounds :=
       {| southWest := {| lat := literal (40713 # 1000);
                          lng := literal (- (74007 # 1000)) |};
          northEast := {| lat := literal (40716 # 1000);
                          lng := literal (- (74003 # 1000)) |} |};
     layer_getLatLngs0 :=
       [ {| lat := literal (40713 # 1000); lng := literal (- (74007 # 1000)) |};
         {| lat := literal (40716 # 1000); lng := literal (- (74007 # 1000)) |};
         {| lat := literal (40716 # 1000); lng := literal (- (74005 # 1000)) |};
         {| lat := literal (40715 # 1000); lng := literal (- (74003 # 1000)) |};
         {| lat := literal (40713 # 1000); lng := literal (- (74003 # 1000)) |} ] |}.

(** One axis of the scale formula of [handleScaleChange] on the
    kernel's binary64 numbers: the centre of the overlay's edges [cS]
    and [cN], the footprint's edges [S] and [N], the two new edges as
    [L.latLngBounds] orders them. *)
Definition axisBinary64 (cS cN S N s : float) : float * float :=
  let center := PrimFloat.div (PrimFloat.add cS cN) 2%float in
  let size := PrimFloat.sub N S in
  let c1 := PrimFloat.sub center (PrimFloat.div (PrimFloat.mul size s) 2%float) in
  let c2 := PrimFloat.add center (PrimFloat.div (PrimFloat.mul size s) 2%float) in
  (if PrimFloat.ltb c2 c1 then c2 else c1, if PrimFloat.ltb c1 c2 then c2 else c1).

(** The same axis in the model. *)
Definition axisModel (cS cN S N s : Q) : Q * Q :=
  let center := fdiv (fadd cS cN) 2 in
  let size := fsub N S in
  (Qmin (fsub center (fdiv (fmul size s) 2)) (fadd center (fdiv (fmul size s) 2)),
   Qmax (fsub center (fdiv (fmul size s) 2)) (fadd center (fdiv (fmul size s) 2))).

(** Do a pair of kernel numbers and a pair of rationals agree? *)
Definition agree (f : float * float) (q : Q * Q) : bool :=
  match double (fst f), double (snd f) with
  | Some a, Some b => Qeq_bool a (fst q) && Qeq_bool b (snd q)
  | _, _ => false
  end.

(** Sample numbers for comparing [fl] with the kernel: quotients of
    integers drawn by a linear congruential generator, as the kernel
    divides them and as [fl] rounds them. *)
Definition nextSeed (seed : Z) : Z :=
  ((seed * 6364136223846793005 + 1442695040888963407) mod 2 ^ 63)%Z.

Definition sampleNumber (seed : Z) : float * Q :=
  let a := (nextSeed seed mod 2 ^ 40 - 2 ^ 39)%Z in
  let b := (nextSeed (nextSeed seed) mod 2 ^ 20 + 1)%Z in
  let numerator :=
    if (a <? 0)%Z then PrimFloat.opp (PrimFloat.of_uint63 (Uint63.of_Z (- a)))
    else PrimFloat.of_uint63 (Uint63.of_Z a) in
  (PrimFloat.div numerator (PrimFloat.of_uint63 (Uint63.of_Z b)),
   fl (a # Z.to_pos b)).

(** Does the kernel's number denote [q]? *)
Definition denotes (f : float) (q : Q) : bool :=
  match double f with
  | Some a => Qeq_bool a q
  | None => false
  end.

(** The four operations on two sample numbers, by the kernel and by
    the model. *)
Definition operationsAgree (seed : Z) : bool :=
  let (fx, qx) := sampleNumber seed in
  let (fy, qy) := sampleNumber (nextSeed (nextSeed (nextSeed seed))) in
  denotes fx qx && denotes fy qy
  && denotes (PrimFloat.add fx fy) (fadd qx qy)
  && denotes (PrimFloat.sub fx fy) (fsub qx qy)
  && denotes (PrimFloat.mul fx fy) (fmul qx qy)
  && (Qeq_bool qy 0 || denotes (PrimFloat.div fx fy) (fdiv qx qy)).

Fixpoint operationsAgreeFrom (n : nat) (seed : Z) : bool :=
  match n with
  | O => true
  | S k =>
      operationsAgree seed
      && operationsAgreeFrom k (nextSeed (nextSeed (nextSeed (nextSeed (nextSeed seed)))))
  end.

(** The values of the scale slider, [parseFloat] of "0.1" to "2". *)
#[warnings="-inexact-float"]
Definition sliderValues : list (float * Q) :=
  [ (0.1%float, literal (1 # 10)); (0.2%float, literal (2 # 10));
    (0.3%float, literal (3 # 10)); (0.4%float, literal (4 # 10));
    (0.5%float, literal (5 # 10)); (0.6%float, literal (6 # 10));
    (0.7%float, literal (7 # 10)); (0.8%float, literal (8 # 10));
    (0.9%float, literal (9 # 10)); (1%float, literal 1);
    (1.1%float, literal (11 # 10)); (1.2%float, literal (12 # 10));
    (1.3%float, literal (13 # 10)); (1.4%float, literal (14 # 10));
    (1.5%float, literal (15 # 10)); (1.6%float, literal (16 # 10));
    (1.7%float, literal (17 # 10)); (1.8%float, literal (18 # 10));
    (1.9%float, literal (19 # 10)); (2%float, literal 2) ].

(** A footprint across the equator: corners (-0.005741, -77.986754) and
    (0.003664, -77.98597). *)
Definition footprintZ : Layer :=
  {| layer_getBounds :=
       {| southWest := {| lat := literal (- (5741 # 1000000));
                          lng := literal (- (77986754 # 1000000)) |};
          northEast := {| lat := literal (3664 # 1000000);
                          lng := literal (- (77985970 # 1000000)) |} |};
     layer_getLatLngs0 :=
       [ {| lat := literal (- (5741 # 1000000)); lng := literal (- (77986754 # 1000000)) |};
         {| lat := literal (3664 # 1000000); lng := literal (- (77986754 # 1000000)) |};
         {| lat := literal (3664 # 1000000); lng := literal (- (77985970 # 1000000)) |};
         {| lat := literal (- (5741 # 1000000)); lng := literal (- (77985970 # 1000000)) |} ] |}.

(** The overlay as scenario B attaches it. *)
Definition floorMapB : FloorMapState :=
  {| url := 0%nat; bounds := layer_getBounds footprintB; scale := 1;
     rotation := 0; masked := false |}.

(** The world a computation ends in, [d] if it threw. *)
Definition valueOr (r : Result World) (d : World) : World :=
  match r with
  | Ok w => w
  | Throw _ => d
  end.

(** The page's map just mounted, and scenario B on it. *)
Definition mountedHome : World := mount ratioToString plainEncoding (mapA homeZoom) 0.

(** An image attached to it, on the page's map. *)
Definition worldZ : World :=
  valueOr (dispatchAll gridProjection emptyOnly
             [BuildingClick footprintZ; FileChosen (Some "plan.png")] mountedHome)
          mountedHome.

Definition selectedB : World :=
  valueOr (dispatch gridProjection emptyOnly (BuildingClick footprintB)
             (advanceTo ratioToString plainEncoding 0 mountedHome))
          mountedHome.

Definition worldB : World :=
  valueOr (dispatch gridProjection emptyOnly (FileChosen (Some "plan.png"))
             (advanceTo ratioToString plainEncoding 0 selectedB))
          mountedHome.

(** Scenario B, and then a click on the other footprint: the overlay
    stays where it was attached, the selection moves on. *)
Definition reselectedB : World :=
  valueOr (dispatch gridProjection emptyOnly (BuildingClick footprintE)
             (advanceTo ratioToString plainEncoding 0 worldB))
          mountedHome.

(** Scenario D: scenario B with the mask switched on. *)
Definition maskedB : World :=
  valueOr (dispatch gridProjection emptyOnly MaskClick
             (advanceTo ratioToString plainEncoding 0 worldB))
          mountedHome.

(** The overlay of scenario B with the mask on. *)
Definition floorMapD : FloorMapState :=
  {| url := 0%nat; bounds := layer_getBounds footprintB; scale := 1;
     rotation := 0; masked := true |}.

(** Scenario A: the component mounted on the map at zoom 16. *)
Definition mountedA : World := mount ratioToString plainEncoding (mapA 16) 0.

(** A drag in three moves, 1000, 1200 and 1450 ms after mounting. *)
Definition dragStart (zoom : Q) : Z * LeafletMap := (1000%Z, panned 10 0 (mapA zoom)).

Definition dragRest (zoom : Q) : list (Z * LeafletMap) :=
  [(1200%Z, panned 20 0 (mapA zoom)); (1450%Z, panned 30 5 (mapA zoom))].

(** The image element of scenario B. *)
Definition elementB : ElementStyle :=
  {| style_transform := Some 0%Z; style_transformOrigin := "center center";
     style_opacity := Some 1; style_clipPath := "" |}.

(** The number of vertices of a CSS [polygon(...)] whose lengths are all
    in [px]: every vertex carries two lengths, and the letter x occurs
    nowhere else. *)
Definition polygonVertexCount (css : string) : nat :=
  Nat.div2 (count_char "x" css).

(** *** The silhouette, in the specification's words

    The selected footprint's ring of geographic vertices, each taken
    through the projection of the view, and that list of pixel vertices
    written as a CSS [polygon()]: every vertex as two lengths in [px],
    the vertices separated by a comma and a blank. *)
Definition projectedRing (project : LeafletMap -> LatLng -> Point)
    (m : LeafletMap) (ring : list LatLng) : list Point :=
  map (project m) ring.

Definition cssLength (z : Z) : string := string_of_Z z ++ "px".

Fixpoint cssVertices (vertices : list Point) : string :=
  match vertices with
  | [] => ""
  | [p] => cssLength (x p) ++ " " ++ cssLength (y p)
  | p :: rest => cssLength (x p) ++ " " ++ cssLength (y p) ++ ", " ++ cssVertices rest
  end.

Definition cssPolygon (vertices : list Point) : string :=
  "polygon(" ++ cssVertices vertices ++ ")".

(** Successive viewport changes: Leaflet fires ["move"] with the new
    view, then ["moveend"]. *)
Definition viewportChange (c : Z * LeafletMap) : list (Z * Event) :=
  [(fst c, MapMove (snd c)); (fst c, MapMoveEnd)].

Definition burstTrace (changes : list (Z * LeafletMap)) : list (Z * Event) :=
  flat_map viewportChange changes.

(** The changes come at non-decreasing times, none before [from] and
    all before [until]. *)
Fixpoint burstWithin (from until : Z) (changes : list (Z * LeafletMap)) : Prop :=
  match changes with
  | [] => True
  | c :: rest => (from <= fst c < until)%Z /\ burstWithin (fst c) until rest
  end.

(** The image element shows what the hooks say: it exists exactly while
    an overlay is attached, and a non-empty clip path is the one written
    on it. *)
Definition rendered (w : World) : Prop :=
  match floorMap (state w), image w with
  | Some _, Some e => clipPath (state w) <> "" -> style_clipPath e = clipPath (state w)
  | None, None => True
  | _, _ => False
  end.

(** The world a ["move"] or ["zoom"] to [m] leaves when the mask is on
    and [layer] is selected. *)
Definition clipSynced (m : LeafletMap) (fm : FloorMapState) (layer : Layer)
    (before after : World) : Prop :=
  leaflet after = m /\
  floorMap (state after) = Some fm /\
  selectedBuildingRef (state after) = Some layer /\
  (rendered before ->
   rendered after /\
   exists e, image after = Some e /\ style_clipPath e = clipPath (state after)).

(** An attached overlay has a selection. *)
Definition selection_kept (w : World) : Prop :=
  floorMap (state w) <> None -> selectedBuildingRef (state w) <> None.

(** The box of the selected footprint's width and height times [s],
    about the centre [c], as the scale slider computes it in binary64. *)
Definition scaledAbout (c : LatLng) (layer : Layer) (s : Q) : LatLngBounds :=
  latLngBounds
    {| lat := fsub (lat c)
                (fdiv (fmul (fsub (getNorth (layer_getBounds layer))
                                  (getSouth (layer_getBounds layer))) s) 2);
       lng := fsub (lng c)
                (fdiv (fmul (fsub (getEast (layer_getBounds layer))
                                  (getWest (layer_getBounds layer))) s) 2) |}
    {| lat := fadd (lat c)
                (fdiv (fmul (fsub (getNorth (layer_getBounds layer))
                                  (getSouth (layer_getBounds layer))) s) 2);
       lng := fadd (lng c)
                (fdiv (fmul (fsub (getEast (layer_getBounds layer))
                                  (getWest (layer_getBounds layer))) s) 2) |}.

(** *** Measuring boxes

    What the statements about the scale slider measure is exact: the
    width, the height and the midpoint of a box as rationals, and the
    distance between two numbers. *)

(** [a] and [b] differ by [tol] at most. *)
Definition within (tol a b : Q) : Prop := a - b <= tol /\ b - a <= tol.

Definition width (b : LatLngBounds) : Q := getEast b - getWest b.
Definition height (b : LatLngBounds) : Q := getNorth b - getSouth b.

(** The midpoint of a box, exactly. *)
Definition midpoint (b : LatLngBounds) : LatLng :=
  {| lat := (getSouth b + getNorth b) / 2;
     lng := (getWest b + getEast b) / 2 |}.

(** The box of [layer]'s width and height times [s] about [c], exactly:
    what the scale slider aims at. *)
Definition idealBox (c : LatLng) (layer : Layer) (s : Q) : LatLngBounds :=
  {| southWest := {| lat := lat c - height (layer_getBounds layer) * s / 2;
                     lng := lng c - width (layer_getBounds layer) * s / 2 |};
     northEast := {| lat := lat c + height (layer_getBounds layer) * s / 2;
                     lng := lng c + width (layer_getBounds layer) * s / 2 |} |}.

(** Two boxes whose corners differ by [tol] at most. *)
Definition close (tol : Q) (a b : LatLngBounds) : Prop :=
  within tol (getSouth a) (getSouth b) /\ within tol (getWest a) (getWest b) /\
  within tol (getNorth a) (getNorth b) /\ within tol (getEast a) (getEast b).

(** Two points that differ by [tol] at most in each coordinate. *)
Definition near (tol : Q) (p q : LatLng) : Prop :=
  within tol (lat p) (lat q) /\ within tol (lng p) (lng q).

(** The coordinates of a box are of magnitude [M] at most. *)
Definition bounded (M : Q) (b : LatLngBounds) : Prop :=
  (- M <= getSouth b /\ getSouth b <= M) /\ (- M <= getWest b /\ getWest b <= M) /\
  (- M <= getNorth b /\ getNorth b <= M) /\ (- M <= getEast b /\ getEast b <= M).

(** Coordinates of magnitude [M] at most are far from binary64's
    largest number (just under [2^1024]): no operation of the scale
    formula overflows on them, and [fl] is JavaScript's rounding. *)
Definition noOverflow (M : Q) : Prop := M <= 2 ^ 1000.

(** The floating tolerance for coordinates of magnitude [M] at most:
    [M * 2^-48] (thirty-two units of roundoff) and eight times the
    underflow threshold.  For [M = 180] it is below [6.4e-13] degrees. *)
Definition tolerance (M : Q) : Q := 32 * roundoff * M + 8 * underflow.

(** A value of the scale slider: [min="0.1"], [max="2"]. *)
Definition sliderValue (s : Q) : Prop := 1 # 10 <= s /\ s <= 2.

(** The overlay sits on the selected footprint [layer], its midpoint
    within [d] of the footprint's. *)
Definition centredOn (layer : Layer) (d : Q) (w : World) : Prop :=
  selectedBuildingRef (state w) = Some layer /\
  forall fm, floorMap (state w) = Some fm ->
             near d (midpoint (bounds fm)) (midpoint (layer_getBounds layer)).

(** [n] times [q]. *)
Definition times (n : nat) (q : Q) : Q := inject_Z (Z.of_nat n) * q.

(** An event that leaves the selected footprint alone: anything but a
    click on a footprint; the scale slider gives values of its range. *)
Definition keepsFootprint (ev : Event) : Prop :=
  match ev with
  | BuildingClick _ => False
  | ScaleInput value => sliderValue value
  | _ => True
  end.

(** The moves of the scale slider in a trace. *)
Fixpoint scaleInputs (trace : list (Z * Event)) : nat :=
  match trace with
  | [] => 0
  | (_, ScaleInput _) :: rest => S (scaleInputs rest)
  | _ :: rest => scaleInputs rest
  end.

(** A call of the debounced function is waiting: the timer is due at
    [due], the last call was at [l], no more than [wait] before; the
    map is [m]; nothing has been fetched since [w0]. *)
Definition armed (due l : Z) (m : LeafletMap) (w0 w : World) : Prop :=
  timerId (debounced w) = Some due /\
  lastCallTime (debounced w) = Some l /\
  lastArgs (debounced w) = true /\
  (l <= now w)%Z /\ (now w <= due)%Z /\ (due <= l + wait)%Z /\
  leaflet w = m /\
  fetchCalls w = fetchCalls w0 /\
  posted w = posted w0.

(** The URLs in use or revoked are URLs the browser has handed out. *)
Definition handles_known (w : World) : Prop :=
  (forall u, In u (revoked w) -> (u < created w)%nat) /\
  (forall fm, floorMap (state w) = Some fm -> (url fm < created w)%nat).

(** The life of an object URL: not yet created, it has never been
    revoked; created, it is either the overlay's and unrevoked, or no
    longer the overlay's and revoked once or twice. *)
Definition url_lifecycle (w : World) : Prop :=
  forall u : ObjectURL,
    ((created w <= u)%nat -> releases u w = 0%nat) /\
    ((u < created w)%nat ->
     (floorMap_url (floorMap (state w)) = Some u /\ releases u w = 0%nat) \/
     (floorMap_url (floorMap (state w)) <> Some u /\
      (1 <= releases u w)%nat /\ (releases u w <= 2)%nat)).

(** Scenario B with the overlay removed again. *)
Definition removedB : World :=
  valueOr (dispatch gridProjection emptyOnly RemoveClick
             (advanceTo ratioToString plainEncoding 0 worldB))
          mountedHome.

(** Viewport changes in a chain: each comes no earlier than the one
    before it and less than [wait] after it. *)
Fixpoint chained (prev : Z) (changes : list (Z * LeafletMap)) : Prop :=
  match changes with
  | [] => True
  | c :: rest => (prev <= fst c < prev + 500)%Z /\ chained (fst c) rest
  end.

(** A drag that goes on for more than a second, a move every 400 ms. *)
Definition longDrag (zoom : Q) : list (Z * LeafletMap) :=
  [(1400%Z, panned 20 0 (mapA zoom)); (1800%Z, panned 30 0 (mapA zoom));
   (2200%Z, panned 40 0 (mapA zoom)); (2600%Z, panned 50 5 (mapA zoom))].

(** The panel and the element go with the overlay: both are there
    exactly while an overlay is attached, and the element's inline
    opacity is the opacity hook. *)
Definition shown (w : World) : Prop :=
  match floorMap (state w), image w with
  | Some _, Some e =>
      showControls (state w) = true /\
      exists q, style_opacity e = Some q /\ q == opacity (state w)
  | None, None => showControls (state w) = false
  | _, _ => False
  end.

(** Scenario D after a pan: the silhouette is on the element. *)
Definition clippedB : World :=
  valueOr (dispatch gridProjection emptyOnly (MapMove (panned 5 5 (mapA homeZoom)))
             (advanceTo ratioToString plainEncoding 0 maskedB))
          mountedHome.

(** The image element of scenario D after the pan. *)
Definition elementD : ElementStyle :=
  {| style_transform := Some 0%Z; style_transformOrigin := "center center";
     style_opacity := Some 1;
     style_clipPath := polygonOf gridProjection (panned 5 5 (mapA homeZoom))
                         (layer_getLatLngs0 footprintB) |}.

(* ------------------------------------------------------------------ *)
(** ** The earlier revision of the component

    [src/components/Map/Layers/BuildingLayer.tsx]: the same component
    before the mask and the opacity slider were added.  Its overlay has
    no [masked] field, there are no [opacity] and [clipPath] hooks, the
    element's effect depends on [rotation] alone, and nothing listens to
    ["zoom"]. *)

Module Earlier.

(** [interface FloorMapState] *)
Record FloorMapState : Type := {
  url : ObjectURL;
  bounds : LatLngBounds;
  scale : Q;
  rotation : Z
}.

(** The hooks of [BuildingsLayer]: three [useState] cells and the
    [selectedBuildingRef] reference. *)
Record State : Type := {
  geojsonData : option GeoJsonObject;
  selectedBuildingRef : option Layer;
  floorMap : option FloorMapState;
  showControls : bool
}.

Definition setGeojsonData (v : option GeoJsonObject) (s : State) : State :=
  {| geojsonData := v; selectedBuildingRef := selectedBuildingRef s;
     floorMap := floorMap s; showControls := showControls s |}.

Definition setSelectedBuildingRef (v : option Layer) (s : State) : State :=
  {| geojsonData := geojsonData s; selectedBuildingRef := v;
     floorMap := floorMap s; showControls := showControls s |}.

Definition setFloorMap (v : option FloorMapState) (s : State) : State :=
  {| geojsonData := geojsonData s; selectedBuildingRef := selectedBuildingRef s;
     floorMap := v; showControls := showControls s |}.

Definition setShowControls (v : bool) (s : State) : State :=
  {| geojsonData := geojsonData s; selectedBuildingRef := selectedBuildingRef s;
     floorMap := floorMap s; showControls := v |}.

(** [floorMap?.url] *)
Definition floorMap_url (fm : option FloorMapState) : option ObjectURL :=
  option_map url fm.

(** The inline style [RotatedImageOverlay] writes on the image element. *)
Record ElementStyle : Type := {
  style_transform : option Z;
  style_transformOrigin : string
}.

Definition newElement : ElementStyle :=
  {| style_transform := None; style_transformOrigin := "" |}.

Record World : Type := {
  state : State;
  leaflet : LeafletMap;
  image : option ElementStyle;
  created : nat;
  revoked : list ObjectURL;
  posted : list Request;
  console : list string;
  debounced : Debounced;
  now : Z;
  fetchCalls : list (Z * LeafletMap)
}.

Definition with_state (f : State -> State) (w : World) : World :=
  {| state := f (state w); leaflet := leaflet w; image := image w;
     created := created w; revoked := revoked w; posted := posted w;
     console := console w; debounced := debounced w; now := now w;
     fetchCalls := fetchCalls w |}.

Definition with_leaflet (m : LeafletMap) (w : World) : World :=
  {| state := state w; leaflet := m; image := image w;
     created := created w; revoked := revoked w; posted := posted w;
     console := console w; debounced := debounced w; now := now w;
     fetchCalls := fetchCalls w |}.

Definition with_image (i : option ElementStyle) (w : World) : World :=
  {| state := state w; leaflet := leaflet w; image := i;
     created := created w; revoked := revoked w; posted := posted w;
     console := console w; debounced := debounced w; now := now w;
     fetchCalls := fetchCalls w |}.

Definition with_debounced (d : Debounced) (w : World) : World :=
  {| state := state w; leaflet := leaflet w; image := image w;
     created := created w; revoked := revoked w; posted := posted w;
     console := console w; debounced := d; now := now w;
     fetchCalls := fetchCalls w |}.

Definition with_now (t : Z) (w : World) : World :=
  {| state := state w; leaflet := leaflet w; image := image w;
     created := created w; revoked := revoked w; posted := posted w;
     console := console w; debounced := debounced w; now := t;
     fetchCalls := fetchCalls w |}.

(** [URL.createObjectURL(file)] *)
Definition createObjectURL (w : World) : ObjectURL * World :=
  (created w,
   {| state := state w; leaflet := leaflet w; image := image w;
      created := S (created w); revoked := revoked w; posted := posted w;
      console := console w; debounced := debounced w; now := now w;
      fetchCalls := fetchCalls w |}).

(** [URL.revokeObjectURL(u)] *)
Definition revokeObjectURL (u : ObjectURL) (w : World) : World :=
  {| state := state w; leaflet := leaflet w; image := image w;
     created := created w; revoked := u :: revoked w; posted := posted w;
     console := console w; debounced := debounced w; now := now w;
     fetchCalls := fetchCalls w |}.

(** [axios.post(...)], up to the point where the request is sent. *)
Definition axios_post (r : Request) (w : World) : World :=
  {| state := state w; leaflet := leaflet w; image := image w;
     created := created w; revoked := revoked w; posted := r :: posted w;
     console := console w; debounced := debounced w; now := now w;
     fetchCalls := fetchCalls w |}.

(** [console.error(line, ...)] *)
Definition console_error (line : string) (w : World) : World :=
  {| state := state w; leaflet := leaflet w; image := image w;
     created := created w; revoked := revoked w; posted := posted w;
     console := line :: console w; debounced := debounced w; now := now w;
     fetchCalls := fetchCalls w |}.

Definition note_fetchCall (w : World) : World :=
  {| state := state w; leaflet := leaflet w; image := image w;
     created := created w; revoked := revoked w; posted := posted w;
     console := console w; debounced := debounced w; now := now w;
     fetchCalls := (now w, leaflet w) :: fetchCalls w |}.

Section Component.

Variable latLngToContainerPoint : LeafletMap -> LatLng -> Point.
Variable numberToString : Q -> string.
Variable encodeURIComponent : string -> string.
Variable osmtogeojson : string -> Result GeoJsonObject.

(** [fetchBuildingData], up to its [await]; the query is the one of the
    later revision, character for character. *)
Definition fetchBuildingData (w0 : World) : World :=
  let w := note_fetchCall w0 in
  if Qlt_le_dec (map_getZoom (leaflet w)) 15 then
    with_state (setGeojsonData None) w
  else
    let bounds := map_getBounds (leaflet w) in
    let south := getSouth bounds in
    let west := getWest bounds in
    let north := getNorth bounds in
    let east := getEast bounds in
    let query := overpassQuery numberToString south west north east in
    axios_post {| req_url := overpassEndpoint;
                  req_data := "data=" ++ encodeURIComponent query;
                  req_contentType := "application/x-www-form-urlencoded" |} w.

(** [fetchBuildingData], from the moment the request settles. *)
Definition fetchBuildingData_resume (outcome : AxiosOutcome) (w : World)
  : Result World :=
  try_catch
    (data <- match outcome with
             | Rejected error => Throw error
             | Fulfilled data => Ok data
             end ;;
     geoJson <- osmtogeojson data ;;
     Ok (with_state (setGeojsonData (Some geoJson)) w))
    (fun error =>
       Ok (console_error ("Error fetching building data: " ++ error) w)).

(** lodash's [debounce(fetchBuildingData, 500)], as in the later
    revision. *)
Definition debouncedFetchBuildingData (w : World) : World :=
  let d := debounced w in
  let time := now w in
  let isInvoking := shouldInvoke d time in
  let startTimer :=
    {| lastCallTime := Some time; lastArgs := true;
       timerId := Some (time + wait)%Z |} in
  let called :=
    {| lastCallTime := Some time; lastArgs := true; timerId := timerId d |} in
  match timerId d with
  | None =>
      if isInvoking
      then with_debounced startTimer w
      else with_debounced startTimer w
  | Some _ => with_debounced called w
  end.

Definition trailingEdge (w : World) : World :=
  let d := debounced w in
  let w1 := with_debounced
              {| lastCallTime := lastCallTime d; lastArgs := false;
                 timerId := None |} w in
  if lastArgs d then fetchBuildingData w1 else w1.

Definition timerExpired (w : World) : World :=
  let d := debounced w in
  let time := now w in
  if shouldInvoke d time then trailingEdge w
  else with_debounced
         {| lastCallTime := lastCallTime d; lastArgs := lastArgs d;
            timerId := Some (time + remainingWait d time)%Z |} w.

Definition runTimer (t : Z) (w : World) : World :=
  match timerId (debounced w) with
  | Some due =>
      if (due <=? t)%Z then timerExpired (with_now (Z.max due (now w)) w)
      else w
  | None => w
  end.

Definition advanceTo (t : Z) (w : World) : World :=
  let w' := runTimer t (runTimer t w) in
  with_now (Z.max t (now w')) w'.

(** [handleBuildingClick] *)
Definition handleBuildingClick (layer : Layer) (w : World) : World :=
  with_state (setSelectedBuildingRef (Some layer)) w.

(** [handleFileUpload] *)
Definition handleFileUpload (file : option string) (w : World) : World :=
  let currentSelectedBuilding := selectedBuildingRef (state w) in
  match file, currentSelectedBuilding with
  | Some _, Some building =>
      let (imageUrl, w1) := createObjectURL w in
      let bounds := layer_getBounds building in
      with_state
        (fun s =>
           setShowControls true
             (setFloorMap
                (Some {| url := imageUrl; bounds := bounds; scale := 1;
                         rotation := 0 |}) s)) w1
  | _, _ => w
  end.

(** The updater [handleScaleChange] passes to [setFloorMap]. *)
Definition scaleUpdater (current : option Layer) (scale : Q)
    (prev : option FloorMapState) : Result (option FloorMapState) :=
  match prev with
  | None => Ok None
  | Some prev =>
      let center := getCenter (bounds prev) in
      match current with
      | None => Throw "TypeError: Cannot read properties of null (reading 'getBounds')"
      | Some building =>
          let originalBounds := layer_getBounds building in
          let width := fsub (getEast originalBounds) (getWest originalBounds) in
          let height := fsub (getNorth originalBounds) (getSouth originalBounds) in
          let newBounds :=
            latLngBounds
              {| lat := fsub (lat center) (fdiv (fmul height scale) 2);
                 lng := fsub (lng center) (fdiv (fmul width scale) 2) |}
              {| lat := fadd (lat center) (fdiv (fmul height scale) 2);
                 lng := fadd (lng center) (fdiv (fmul width scale) 2) |} in
          Ok (Some {| url := url prev; bounds := newBounds; scale := scale;
                      rotation := rotation prev |})
      end
  end.

(** [handleScaleChange] *)
Definition handleScaleChange (value : Q) (w : World) : Result World :=
  match floorMap (state w) with
  | Some _ =>
      let scale := value in
      next <- scaleUpdater (selectedBuildingRef (state w)) scale
                (floorMap (state w)) ;;
      Ok (with_state (setFloorMap next) w)
  | None => Ok w
  end.

(** [handleRotationChange] *)
Definition handleRotationChange (value : Z) (w : World) : World :=
  match floorMap (state w) with
  | Some _ =>
      let rotation := value in
      with_state
        (fun s =>
           setFloorMap
             (match floorMap s with
              | Some prev =>
                  Some {| url := url prev; bounds := bounds prev;
                          scale := scale prev; rotation := rotation |}
              | None => None
              end) s) w
  | None => w
  end.

(** The [onClick] of the button "Remove Floor Map". *)
Definition removeFloorMap (w : World) : World :=
  let w1 := match floorMap_url (floorMap (state w)) with
            | Some u => revokeObjectURL u w
            | None => w
            end in
  with_state (fun s => setShowControls false (setFloorMap None s)) w1.

(** The ["move"] listener of [RotatedImageOverlay]. *)
Definition overlayMove (w : World) : World :=
  match image w, floorMap (state w) with
  | Some e, Some fm =>
      let center := getCenter (bounds fm) in
      let point := latLngToContainerPoint (leaflet w) center in
      with_image
        (Some {| style_transform := style_transform e;
                 style_transformOrigin :=
                   string_of_Z (x point) ++ "px " ++ string_of_Z (y point) ++ "px" |})
        w
  | _, _ => w
  end.

(** The cleanup of the effect with the dependency [floorMap?.url]. *)
Definition urlCleanup (before after : World) : World :=
  match floorMap_url (floorMap (state before)),
        floorMap_url (floorMap (state after)) with
  | Some u, Some u' => if Nat.eqb u u' then after else revokeObjectURL u after
  | Some u, None => revokeObjectURL u after
  | None, _ => after
  end.

(** The body of the effect of [RotatedImageOverlay]. *)
Definition styleEffect (fm : FloorMapState) : ElementStyle :=
  {| style_transform := Some (rotation fm);
     style_transformOrigin := "center center" |}.

(** The effect runs when the overlay mounts and when [rotation]
    changed. *)
Definition imageEffect (before after : World) : World :=
  match floorMap (state after) with
  | None => with_image None after
  | Some fm =>
      match image after, floorMap (state before) with
      | Some e, Some fm0 =>
          if (rotation fm0 =? rotation fm)%Z then after
          else with_image (Some (styleEffect fm)) after
      | _, _ => with_image (Some (styleEffect fm)) after
      end
  end.

Definition commit (before after : World) : World :=
  imageEffect before (urlCleanup before after).

Inductive Event : Type :=
| BuildingClick (layer : Layer)
| FileChosen (file : option string)
| ScaleInput (value : Q)
| RotationInput (value : Z)
| RemoveClick
| MapMove (m : LeafletMap)
| MapZoom (m : LeafletMap)             (* no listener: the map changes, no more *)
| MapMoveEnd
| FetchSettled (outcome : AxiosOutcome).

Definition handle (ev : Event) (w : World) : Result World :=
  match ev with
  | BuildingClick layer => Ok (handleBuildingClick layer w)
  | FileChosen file => Ok (handleFileUpload file w)
  | ScaleInput value => handleScaleChange value w
  | RotationInput value => Ok (handleRotationChange value w)
  | RemoveClick => Ok (removeFloorMap w)
  | MapMove m => Ok (overlayMove (with_leaflet m w))
  | MapZoom m => Ok (with_leaflet m w)
  | MapMoveEnd => Ok (debouncedFetchBuildingData w)
  | FetchSettled outcome => fetchBuildingData_resume outcome w
  end.

Definition dispatch (ev : Event) (w : World) : Result World :=
  w' <- handle ev w ;; Ok (commit w w').

Fixpoint run (trace : list (Z * Event)) (w : World) : Result World :=
  match trace with
  | [] => Ok w
  | (t, ev) :: rest => w' <- dispatch ev (advanceTo t w) ;; run rest w'
  end.

Definition initialState : State :=
  {| geojsonData := None; selectedBuildingRef := None; floorMap := None;
     showControls := false |}.

Definition mount (m : LeafletMap) (t : Z) : World :=
  fetchBuildingData
    {| state := initialState; leaflet := m; image := None;
       created := 0; revoked := []; posted := []; console := [];
       debounced := {| lastCallTime := None; lastArgs := false;
                       timerId := None |};
       now := t; fetchCalls := [] |}.

End Component.

End Earlier.

(** What the earlier revision has of a state of the later one. *)
Definition forgetFloorMap (fm : FloorMapState) : Earlier.FloorMapState :=
  {| Earlier.url := url fm; Earlier.bounds := bounds fm;
     Earlier.scale := scale fm; Earlier.rotation := rotation fm |}.

Definition forgetState (s : State) : Earlier.State :=
  {| Earlier.geojsonData := geojsonData s;
     Earlier.selectedBuildingRef := selectedBuildingRef s;
     Earlier.floorMap := option_map forgetFloorMap (floorMap s);
     Earlier.showControls := showControls s |}.

Definition forgetStyle (e : ElementStyle) : Earlier.ElementStyle :=
  {| Earlier.style_transform := style_transform e;
     Earlier.style_transformOrigin := style_transformOrigin e |}.

Definition forget (w : World) : Earlier.World :=
  {| Earlier.state := forgetState (state w);
     Earlier.leaflet := leaflet w;
     Earlier.image := option_map forgetStyle (image w);
     Earlier.created := created w;
     Earlier.revoked := revoked w;
     Earlier.posted := posted w;
     Earlier.console := console w;
     Earlier.debounced := debounced w;
     Earlier.now := now w;
     Earlier.fetchCalls := fetchCalls w |}.

(** An event of the earlier revision, in the later one. *)
Definition later (ev : Earlier.Event) : Event :=
  match ev with
  | Earlier.BuildingClick layer => BuildingClick layer
  | Earlier.FileChosen file => FileChosen file
  | Earlier.ScaleInput value => ScaleInput value
  | Earlier.RotationInput value => RotationInput value
  | Earlier.RemoveClick => RemoveClick
  | Earlier.MapMove m => MapMove m
  | Earlier.MapZoom m => MapZoom m
  | Earlier.MapMoveEnd => MapMoveEnd
  | Earlier.FetchSettled outcome => FetchSettled outcome
  end.

(** The mask and the opacity slider have not been used. *)
Definition untouched (w : World) : Prop :=
  opacity (state w) = 1 /\ clipPath (state w) = "" /\
  floorMap_masked (floorMap (state w)) = false.

(* ------------------------------------------------------------------ *)
(** ** Properties *)

Section Properties.

Variable latLngToContainerPoint : LeafletMap -> LatLng -> Point.
Variable numberToString : Q -> string.
Variable encodeURIComponent : string -> string.
Variable osmtogeojson : string -> Result GeoJsonObject.

#[local] Abbreviation dispatch := (dispatch latLngToContainerPoint osmtogeojson).
#[local] Abbreviation dispatchAll := (dispatchAll latLngToContainerPoint osmtogeojson).
#[local] Abbreviation run := (run latLngToContainerPoint numberToString
                   encodeURIComponent osmtogeojson).
#[local] Abbreviation handle := (handle latLngToContainerPoint osmtogeojson).
#[local] Abbreviation advanceTo := (advanceTo numberToString encodeURIComponent).
#[local] Abbreviation runTimer := (runTimer numberToString encodeURIComponent).
#[local] Abbreviation timerExpired := (timerExpired numberToString encodeURIComponent).
#[local] Abbreviation trailingEdge := (trailingEdge numberToString encodeURIComponent).
#[local] Abbreviation fetchBuildingData := (fetchBuildingData numberToString encodeURIComponent).
#[local] Abbreviation fetchBuildingData_resume := (fetchBuildingData_resume osmtogeojson).
#[local] Abbreviation mount := (mount numberToString encodeURIComponent).
#[local] Abbreviation reachable := (reachable latLngToContainerPoint numberToString
                         encodeURIComponent osmtogeojson).
#[local] Abbreviation updateClipPath := (updateClipPath latLngToContainerPoint).
#[local] Abbreviation toggleMask := (toggleMask latLngToContainerPoint).
#[local] Abbreviation polygonOf := (polygonOf latLngToContainerPoint).
#[local] Abbreviation clipPoint := (clipPoint latLngToContainerPoint).
#[local] Abbreviation overlayMove := (overlayMove latLngToContainerPoint).
#[local] Abbreviation overpassQuery := (overpassQuery numberToString).
#[local] Abbreviation bboxFilter := (bboxFilter numberToString).
#[local] Abbreviation overpassRequest := (overpassRequest numberToString encodeURIComponent).
#[local] Abbreviation fetchFailed := (fetchFailed osmtogeojson).

(** Read a field off a world built by the setters. *)
Ltac fields :=
  cbn [state leaflet image created revoked posted console debounced now fetchCalls
       with_state with_leaflet with_image with_debounced with_now
       revokeObjectURL axios_post console_error note_fetchCall
       lastCallTime lastArgs timerId
       geojsonData selectedBuildingRef floorMap showControls opacity clipPath
       setGeojsonData setSelectedBuildingRef setFloorMap setShowControls
       setOpacity setClipPath].

Ltac fields_in H :=
  cbn [state leaflet image created revoked posted console debounced now fetchCalls
       with_state with_leaflet with_image with_debounced with_now
       revokeObjectURL axios_post console_error note_fetchCall
       lastCallTime lastArgs timerId
       geojsonData selectedBuildingRef floorMap showControls opacity clipPath
       setGeojsonData setSelectedBuildingRef setFloorMap setShowControls
       setOpacity setClipPath] in H.

(** *** The render's effects leave the hooks alone *)

Lemma state_commit (w w' : World) : state (commit w w') = state w'.
Proof.
  unfold commit, imageEffect, urlCleanup.
  destruct (floorMap_url (floorMap (state w))),
           (floorMap_url (floorMap (state w'))); simpl;
    repeat match goal with
           | |- context [if ?c then _ else _] => destruct c; simpl
           | |- context [match ?c with _ => _ end] => destruct c; simpl
           end; reflexivity.
Qed.

Lemma imageEffect_frame (w w' : World) :
  state (imageEffect w w') = state w' /\ leaflet (imageEffect w w') = leaflet w' /\
  revoked (imageEffect w w') = revoked w' /\ created (imageEffect w w') = created w' /\
  posted (imageEffect w w') = posted w' /\ console (imageEffect w w') = console w' /\
  fetchCalls (imageEffect w w') = fetchCalls w' /\
  debounced (imageEffect w w') = debounced w' /\ now (imageEffect w w') = now w'.
Proof.
  unfold imageEffect.
  destruct (floorMap (state w')); [ | simpl; repeat split; reflexivity ].
  destruct (image w'); [ destruct (floorMap (state w)) | ];
    try (simpl; repeat split; reflexivity).
  destruct (_ && _); simpl; repeat split; reflexivity.
Qed.

Lemma urlCleanup_frame (w w' : World) :
  state (urlCleanup w w') = state w' /\ leaflet (urlCleanup w w') = leaflet w' /\
  image (urlCleanup w w') = image w' /\ created (urlCleanup w w') = created w' /\
  posted (urlCleanup w w') = posted w' /\ console (urlCleanup w w') = console w' /\
  fetchCalls (urlCleanup w w') = fetchCalls w' /\
  debounced (urlCleanup w w') = debounced w' /\ now (urlCleanup w w') = now w'.
Proof.
  unfold urlCleanup.
  destruct (floorMap_url (floorMap (state w))),
           (floorMap_url (floorMap (state w'))); simpl;
    try destruct (Nat.eqb _ _); simpl; repeat split; reflexivity.
Qed.

(** A render touches neither the map, the requests, nor the timer. *)
Lemma commit_frame (w w' : World) :
  state (commit w w') = state w' /\ leaflet (commit w w') = leaflet w' /\
  created (commit w w') = created w' /\
  posted (commit w w') = posted w' /\ console (commit w w') = console w' /\
  fetchCalls (commit w w') = fetchCalls w' /\
  debounced (commit w w') = debounced w' /\ now (commit w w') = now w'.
Proof.
  unfold commit.
  destruct (imageEffect_frame w (urlCleanup w w'))
    as (-> & -> & _ & -> & -> & -> & -> & -> & ->).
  destruct (urlCleanup_frame w w') as (-> & -> & _ & -> & -> & -> & -> & -> & ->).
  repeat split; reflexivity.
Qed.

(** The URLs a render revokes are those its cleanup revokes. *)
Lemma revoked_commit (w w' : World) :
  revoked (commit w w') = revoked (urlCleanup w w').
Proof.
  unfold commit.
  destruct (imageEffect_frame w (urlCleanup w w')) as (_ & _ & -> & _).
  reflexivity.
Qed.

Lemma state_urlCleanup (w w' : World) : state (urlCleanup w w') = state w'.
Proof.
  unfold urlCleanup.
  destruct (floorMap_url (floorMap (state w))),
           (floorMap_url (floorMap (state w'))); simpl;
    try destruct (Nat.eqb _ _); reflexivity.
Qed.

(** *** The timer of the debounced fetch leaves the overlay alone *)

Lemma fetchBuildingData_overlay (w : World) :
  floorMap (state (fetchBuildingData w)) = floorMap (state w) /\
  selectedBuildingRef (state (fetchBuildingData w)) = selectedBuildingRef (state w) /\
  clipPath (state (fetchBuildingData w)) = clipPath (state w) /\
  opacity (state (fetchBuildingData w)) = opacity (state w) /\
  leaflet (fetchBuildingData w) = leaflet w /\
  image (fetchBuildingData w) = image w /\
  revoked (fetchBuildingData w) = revoked w /\
  created (fetchBuildingData w) = created w.
Proof.
  unfold fetchBuildingData.
  destruct (Qlt_le_dec _ _); simpl; repeat split; reflexivity.
Qed.

Lemma timerExpired_overlay (w : World) :
  floorMap (state (timerExpired w)) = floorMap (state w) /\
  selectedBuildingRef (state (timerExpired w)) = selectedBuildingRef (state w) /\
  clipPath (state (timerExpired w)) = clipPath (state w) /\
  opacity (state (timerExpired w)) = opacity (state w) /\
  leaflet (timerExpired w) = leaflet w /\
  image (timerExpired w) = image w /\
  revoked (timerExpired w) = revoked w /\
  created (timerExpired w) = created w.
Proof.
  unfold timerExpired, trailingEdge.
  destruct (shouldInvoke _ _); [ destruct (lastArgs _) | ]; simpl;
    try (repeat split; reflexivity).
  match goal with |- context [fetchBuildingData ?v] =>
    destruct (fetchBuildingData_overlay v) as (-> & -> & -> & -> & -> & -> & -> & ->) end.
  simpl; repeat split; reflexivity.
Qed.

Lemma runTimer_overlay (t : Z) (w : World) :
  floorMap (state (runTimer t w)) = floorMap (state w) /\
  selectedBuildingRef (state (runTimer t w)) = selectedBuildingRef (state w) /\
  clipPath (state (runTimer t w)) = clipPath (state w) /\
  opacity (state (runTimer t w)) = opacity (state w) /\
  leaflet (runTimer t w) = leaflet w /\
  image (runTimer t w) = image w /\
  revoked (runTimer t w) = revoked w /\
  created (runTimer t w) = created w.
Proof.
  unfold runTimer.
  destruct (timerId (debounced w)) as [due|]; [ destruct (due <=? t)%Z | ];
    try (repeat split; reflexivity).
  destruct (timerExpired_overlay (with_now (Z.max due (now w)) w))
    as (-> & -> & -> & -> & -> & -> & -> & ->).
  simpl; repeat split; reflexivity.
Qed.

Lemma advanceTo_overlay (t : Z) (w : World) :
  floorMap (state (advanceTo t w)) = floorMap (state w) /\
  selectedBuildingRef (state (advanceTo t w)) = selectedBuildingRef (state w) /\
  clipPath (state (advanceTo t w)) = clipPath (state w) /\
  opacity (state (advanceTo t w)) = opacity (state w) /\
  leaflet (advanceTo t w) = leaflet w /\
  image (advanceTo t w) = image w /\
  revoked (advanceTo t w) = revoked w /\
  created (advanceTo t w) = created w.
Proof.
  unfold advanceTo; simpl.
  destruct (runTimer_overlay t (runTimer t w))
    as (-> & -> & -> & -> & -> & -> & -> & ->).
  apply runTimer_overlay.
Qed.

(** *** What [updateClipPath] changes is the clip path *)

Lemma updateClipPath_frame (rendered : option FloorMapState) (w : World) :
  floorMap (state (updateClipPath rendered w)) = floorMap (state w) /\
  selectedBuildingRef (state (updateClipPath rendered w))
    = selectedBuildingRef (state w) /\
  opacity (state (updateClipPath rendered w)) = opacity (state w) /\
  geojsonData (state (updateClipPath rendered w)) = geojsonData (state w) /\
  leaflet (updateClipPath rendered w) = leaflet w /\
  image (updateClipPath rendered w) = image w /\
  revoked (updateClipPath rendered w) = revoked w /\
  posted (updateClipPath rendered w) = posted w /\
  fetchCalls (updateClipPath rendered w) = fetchCalls w /\
  debounced (updateClipPath rendered w) = debounced w /\
  now (updateClipPath rendered w) = now w.
Proof.
  unfold updateClipPath.
  destruct (selectedBuildingRef (state w)) eqn:Hsel;
    [ destruct (floorMap_masked rendered) | ];
    simpl; rewrite ?Hsel; repeat split; reflexivity.
Qed.

(** The pivot's listener writes on the image element only. *)
Lemma overlayMove_frame (w : World) :
  state (overlayMove w) = state w /\ leaflet (overlayMove w) = leaflet w /\
  revoked (overlayMove w) = revoked w /\ posted (overlayMove w) = posted w /\
  fetchCalls (overlayMove w) = fetchCalls w /\
  debounced (overlayMove w) = debounced w /\ now (overlayMove w) = now w.
Proof.
  unfold overlayMove.
  destruct (image w); [ destruct (floorMap (state w)) | ];
    simpl; repeat split; reflexivity.
Qed.

(** *** An attached overlay has a selection *)

Lemma selection_kept_mount (m : LeafletMap) (t : Z) : selection_kept (mount m t).
Proof.
  unfold selection_kept, mount.
  match goal with |- context [fetchBuildingData ?v] =>
    destruct (fetchBuildingData_overlay v) as (-> & -> & _) end.
  simpl; congruence.
Qed.

Lemma selection_kept_advanceTo (t : Z) (w : World) :
  selection_kept w -> selection_kept (advanceTo t w).
Proof.
  unfold selection_kept.
  destruct (advanceTo_overlay t w) as (-> & -> & _); auto.
Qed.

Lemma selection_kept_handle (ev : Event) (w w' : World) :
  selection_kept w -> handle ev w = Ok w' -> selection_kept w'.
Proof.
  unfold selection_kept; intros Hw Hev.
  destruct ev; simpl in Hev.
  - (* BuildingClick *)
    injection Hev as <-; simpl; congruence.
  - (* FileChosen *)
    injection Hev as <-; unfold handleFileUpload.
    destruct file; [ | exact Hw ].
    destruct (selectedBuildingRef (state w)) eqn:Hsel; [ | rewrite Hsel; exact Hw ].
    simpl; rewrite Hsel; congruence.
  - (* ScaleInput *)
    unfold handleScaleChange, scaleUpdater in Hev.
    destruct (floorMap (state w)) eqn:Hfm.
    + destruct (selectedBuildingRef (state w)) eqn:Hsel; simpl in Hev; [ | discriminate ].
      injection Hev as <-; simpl; rewrite Hsel; congruence.
    + injection Hev as <-; rewrite Hfm; congruence.
  - (* RotationInput *)
    injection Hev as <-; unfold handleRotationChange.
    destruct (floorMap (state w)) eqn:Hfm; simpl; try rewrite Hfm;
      intros; apply Hw; congruence.
  - (* OpacityInput *)
    injection Hev as <-; exact Hw.
  - (* MaskClick *)
    injection Hev as <-; unfold toggleMask.
    destruct (floorMap (state w)) eqn:Hfm; simpl; [ | congruence ].
    intros _.
    assert (Hs : selectedBuildingRef (state w) <> None) by (apply Hw; congruence).
    destruct (negb (masked f)); simpl; [ | exact Hs ].
    destruct (updateClipPath_frame (Some f) w) as (_ & -> & _); exact Hs.
  - (* RemoveClick *)
    injection Hev as <-; unfold removeFloorMap.
    destruct (floorMap_url (floorMap (state w))); simpl; congruence.
  - (* MapMove *)
    injection Hev as <-.
    match goal with |- context [updateClipPath ?r ?v] =>
      destruct (updateClipPath_frame r v) as (-> & -> & _) end.
    destruct (overlayMove_frame (with_leaflet m w)) as (-> & _).
    exact Hw.
  - (* MapZoom *)
    injection Hev as <-.
    match goal with |- context [updateClipPath ?r ?v] =>
      destruct (updateClipPath_frame r v) as (-> & -> & _) end.
    exact Hw.
  - (* MapMoveEnd *)
    injection Hev as <-; unfold debouncedFetchBuildingData.
    destruct (timerId (debounced w)); [ | destruct (shouldInvoke _ _) ]; exact Hw.
  - (* FetchSettled *)
    unfold fetchBuildingData_resume, try_catch, bind in Hev.
    destruct outcome; [ injection Hev as <-; exact Hw | ].
    destruct (osmtogeojson data); injection Hev as <-; exact Hw.
Qed.

Lemma selection_kept_reachable (w : World) : reachable w -> selection_kept w.
Proof.
  induction 1 as [m t | w t ev w' _ IH Hstep].
  - apply selection_kept_mount.
  - unfold dispatch, bind in Hstep.
    destruct (handle ev (advanceTo t w)) as [w1|] eqn:Hev; [ | discriminate ].
    injection Hstep as <-.
    unfold selection_kept; rewrite state_commit.
    exact (selection_kept_handle ev _ _ (selection_kept_advanceTo t w IH) Hev).
Qed.

(** With the selection kept, the component throws at no event. *)
Lemma dispatch_total (ev : Event) (w : World) :
  selection_kept w ->
  exists w', dispatch ev w = Ok w' /\ selection_kept w'.
Proof.
  intros Hk.
  assert (Hh : exists w1, handle ev w = Ok w1).
  { destruct ev; cbn [handle]; try (eexists; reflexivity).
    - unfold handleScaleChange, scaleUpdater.
      destruct (floorMap (state w)) eqn:Hfm; [ | eexists; reflexivity ].
      destruct (selectedBuildingRef (state w)) eqn:Hsel.
      + cbn [bind]; eexists; reflexivity.
      + exfalso; apply Hk; [ rewrite Hfm; discriminate | exact Hsel ].
    - unfold fetchBuildingData_resume, try_catch, bind.
      destruct outcome; [ eexists; reflexivity | ].
      destruct (osmtogeojson data); eexists; reflexivity. }
  destruct Hh as (w1 & Hh).
  exists (commit w w1); split.
  - unfold dispatch; rewrite Hh; reflexivity.
  - unfold selection_kept; rewrite state_commit.
    exact (selection_kept_handle ev w w1 Hk Hh).
Qed.

Lemma run_total (trace : list (Z * Event)) :
  forall w : World,
    selection_kept w ->
    exists w', run trace w = Ok w' /\ selection_kept w'.
Proof.
  induction trace as [| [t ev] rest IH]; intros w Hk.
  - exists w; split; [ reflexivity | exact Hk ].
  - destruct (dispatch_total ev (advanceTo t w) (selection_kept_advanceTo t w Hk))
      as (w1 & Hd & Hk1).
    destruct (IH w1 Hk1) as (w' & Hrun & Hk').
    exists w'; split; [ | exact Hk' ].
    cbn [run]; rewrite Hd; exact Hrun.
Qed.

(** *** C10 *)

(** C10.  In every state the component can reach, an attached overlay
    ([floorMap] set) comes with a selected footprint
    ([selectedBuildingRef.current] set); hence no event's handler
    throws there, in particular not the unguarded
    [selectedBuildingRef.current.getBounds()] of the scale slider. *)
Theorem attached_overlay_has_selection :
  forall w : World,
    reachable w ->
    (floorMap (state w) <> None -> selectedBuildingRef (state w) <> None) /\
    (forall (t : Z) (ev : Event), exists w', dispatch ev (advanceTo t w) = Ok w').
Proof.
  intros w Hr; split.
  - exact (selection_kept_reachable w Hr).
  - intros t ev.
    pose proof (selection_kept_advanceTo t w (selection_kept_reachable w Hr)) as Hk.
    unfold dispatch, bind.
    destruct ev; simpl; try (eexists; reflexivity).
    + (* ScaleInput *)
      unfold handleScaleChange, scaleUpdater.
      destruct (floorMap (state (advanceTo t w))) eqn:Hfm; [ | eexists; reflexivity ].
      destruct (selectedBuildingRef (state (advanceTo t w))) eqn:Hsel.
      * simpl; eexists; reflexivity.
      * exfalso; apply Hk; [ rewrite Hfm; discriminate | exact Hsel ].
    + (* FetchSettled *)
      unfold fetchBuildingData_resume, try_catch, bind.
      destruct outcome; [ eexists; reflexivity | ].
      destruct (osmtogeojson data); eexists; reflexivity.
Qed.

(** *** C8 *)

(** C8.  With a footprint selected and no overlay attached, choosing an
    image file attaches it in exactly the initial state: the bounds are
    the footprint's bounding box, scale 1, rotation 0, mask off, and the
    opacity is 1; the image's URL is the one just created and nothing
    has been revoked for it. *)
Theorem attach_initial_state :
  forall (w : World) (layer : Layer) (file : string),
    floorMap (state w) = None ->
    selectedBuildingRef (state w) = Some layer ->
    exists w',
      dispatch (FileChosen (Some file)) w = Ok w' /\
      floorMap (state w') =
        Some {| url := created w; bounds := layer_getBounds layer;
                scale := 1; rotation := 0; masked := false |} /\
      opacity (state w') = 1 /\
      showControls (state w') = true /\
      selectedBuildingRef (state w') = Some layer /\
      revoked w' = revoked w.
Proof.
  intros w layer file Hempty Hsel.
  unfold dispatch, bind; simpl.
  eexists; split; [ reflexivity | ].
  rewrite state_commit.
  unfold handleFileUpload; rewrite Hsel; simpl.
  repeat split; try reflexivity; try exact Hsel.
  rewrite revoked_commit.
  unfold urlCleanup; rewrite Hempty; reflexivity.
Qed.

(** *** Binary64 rounding *)

(** [lra] and [nra] read a half as a constant factor. *)
Ltac halves := unfold Qdiv in *; change (/ 2) with (1 # 2) in *.

Lemma roundHalfEven_close (q : Q) :
  - (1 # 2) <= inject_Z (roundHalfEven q) - q /\
  inject_Z (roundHalfEven q) - q <= 1 # 2.
Proof.
  unfold roundHalfEven.
  pose proof (Qfloor_le q) as Hlo.
  pose proof (Qlt_floor q) as Hhi.
  rewrite inject_Z_plus in Hhi.
  change (inject_Z 1) with 1 in Hhi.
  destruct (Qcompare_spec (q - inject_Z (Qfloor q)) (1 # 2)) as [Heq | Hlt | Hgt].
  - destruct (Z.even (Qfloor q)); rewrite ?inject_Z_plus; change (inject_Z 1) with 1; lra.
  - lra.
  - rewrite inject_Z_plus; change (inject_Z 1) with 1; lra.
Qed.

Lemma pow2_pos (e : Z) : 0 < 2 ^ e.
Proof. apply Qpower_0_lt; reflexivity. Qed.

Lemma pow2_add (a b : Z) : 2 ^ (a + b) == 2 ^ a * 2 ^ b.
Proof. apply Qpower_plus; discriminate. Qed.

Lemma pow2_log2 (n : Z) :
  (0 < n)%Z -> 2 ^ Z.log2 n <= inject_Z n /\ inject_Z n < 2 ^ (Z.log2 n + 1).
Proof.
  intros Hn.
  destruct (Z.log2_spec n Hn) as (Hlo & Hhi).
  pose proof (Z.log2_nonneg n) as Hl.
  split.
  - rewrite <- (Zpower_Qpower 2 (Z.log2 n) Hl).
    rewrite <- Zle_Qle; exact Hlo.
  - assert (H1 : (0 <= Z.log2 n + 1)%Z) by lia.
    rewrite <- (Zpower_Qpower 2 (Z.log2 n + 1) H1).
    rewrite <- Zlt_Qlt.
    replace (Z.log2 n + 1)%Z with (Z.succ (Z.log2 n)) by lia.
    exact Hhi.
Qed.

Lemma div_ge (a b c : Q) : 0 < c -> a <= b / c -> a * c <= b.
Proof.
  intros Hc H.
  assert (Hb : b == b / c * c) by (field; lra).
  rewrite Hb; apply Qmult_le_compat_r; lra.
Qed.

(** The first guess of the exponent leaves at least 53 bits. *)
Lemma scaled_ge (a : Q) :
  0 < a ->
  2 ^ 52 <= a / 2 ^ (Z.log2 (Qnum a) - Z.log2 (Zpos (Qden a)) - 53).
Proof.
  intros Ha.
  set (l := (Z.log2 (Qnum a) - Z.log2 (Zpos (Qden a)))%Z).
  destruct a as [n d]; cbn [Qnum Qden] in *.
  assert (Hn : (0 < n)%Z) by (unfold Qlt in Ha; cbn in Ha; lia).
  destruct (pow2_log2 n Hn) as (Hnlo & _).
  destruct (pow2_log2 (Zpos d) eq_refl) as (_ & Hdhi).
  assert (Hq : n # d == inject_Z n / inject_Z (Zpos d)) by (apply Qmake_Qdiv).
  pose proof (pow2_pos (l - 53)) as Hp.
  assert (Hd0 : 0 < inject_Z (Zpos d)) by reflexivity.
  apply Qle_shift_div_l; [ exact Hp | ].
  rewrite <- pow2_add.
  rewrite Hq.
  apply Qle_shift_div_l; [ exact Hd0 | ].
  apply Qle_trans with (2 ^ (52 + (l - 53)) * 2 ^ (Z.log2 (Zpos d) + 1)).
  - apply Qmult_le_l; [ apply pow2_pos | apply Qlt_le_weak; exact Hdhi ].
  - rewrite <- pow2_add.
    replace (52 + (l - 53) + (Z.log2 (Zpos d) + 1))%Z with (Z.log2 n)
      by (unfold l; lia).
    exact Hnlo.
Qed.

Lemma underflow_nonneg : 0 <= underflow.
Proof. apply Qlt_le_weak, pow2_pos. Qed.

(** Half a unit in the last place of [a]. *)
Lemma half_ulp (a : Q) :
  0 < a ->
  2 ^ exponentOf a / 2 <= roundoff * a + underflow.
Proof.
  intros Ha.
  pose proof (scaled_ge a Ha) as Hs.
  unfold exponentOf.
  set (l := (Z.log2 (Qnum a) - Z.log2 (Zpos (Qden a)))%Z) in *.
  pose proof (pow2_pos (l - 53)) as Hp.
  pose proof underflow_nonneg as Heta.
  assert (Hnormal : forall e, 2 ^ 52 <= a / 2 ^ e -> 2 ^ e / 2 <= roundoff * a).
  { intros e He.
    pose proof (pow2_pos e) as Hpe.
    apply (div_ge _ _ _ Hpe) in He.
    change (2 ^ 52) with (4503599627370496 # 1) in He.
    unfold roundoff; halves; lra. }
  assert (He' : exists e,
            (if Qle_bool (2 ^ 53) (a / 2 ^ (l - 53)) then (l - 52)%Z else (l - 53)%Z) = e
            /\ 2 ^ 52 <= a / 2 ^ e).
  { destruct (Qle_bool (2 ^ 53) (a / 2 ^ (l - 53))) eqn:Ht.
    - exists (l - 52)%Z; split; [ reflexivity | ].
      apply Qle_bool_iff in Ht.
      replace (l - 52)%Z with (1 + (l - 53))%Z by lia.
      rewrite pow2_add.
      pose proof (pow2_pos (1 + (l - 53))) as Hp1; rewrite pow2_add in Hp1.
      apply Qle_shift_div_l; [ exact Hp1 | ].
      apply (div_ge _ _ _ Hp) in Ht.
      change (2 ^ 53) with (9007199254740992 # 1) in Ht.
      change (2 ^ 52) with (4503599627370496 # 1).
      change (2 ^ 1) with 2.
      lra.
    - exists (l - 53)%Z; split; [ reflexivity | exact Hs ]. }
  destruct He' as (e & -> & He).
  destruct (Z.max_spec e (-1074)) as [(_ & ->) | (_ & ->)].
  - assert (H2 : 2 ^ (-1074) / 2 == underflow).
    { unfold underflow.
      replace (-1074)%Z with (1 + -1075)%Z by lia.
      rewrite pow2_add; change (2 ^ 1) with 2; field. }
    assert (H0 : 0 <= roundoff * a) by (unfold roundoff; lra).
    rewrite H2; lra.
  - pose proof (Hnormal e He); lra.
Qed.

(** The standard model of binary64 arithmetic: a result is off by the
    unit roundoff times its magnitude at most, or by the underflow
    threshold. *)
Lemma fl_error (q : Q) :
  fl q - q <= roundoff * Qabs q + underflow /\
  q - fl q <= roundoff * Qabs q + underflow.
Proof.
  unfold fl.
  destruct (Qeq_bool q 0) eqn:Hz.
  - apply Qeq_bool_iff in Hz.
    pose proof underflow_nonneg.
    rewrite Hz; change (Qabs 0) with 0; unfold roundoff; split; lra.
  - assert (Hq : ~ q == 0) by (intros H; apply Qeq_bool_iff in H; congruence).
    assert (Ha : 0 < Qabs q).
    { pose proof (Qabs_nonneg q) as Hn.
      apply Qle_lteq in Hn as [Hn | Hn]; [ exact Hn | ].
      exfalso; apply Hq.
      revert Hn; apply Qabs_case; intros; lra. }
    cbv zeta.
    pose proof (half_ulp (Qabs q) Ha) as Hulp.
    set (a := Qabs q) in *.
    set (e := exponentOf a) in *.
    pose proof (pow2_pos e) as Hpe.
    pose proof (roundHalfEven_close (a / 2 ^ e)) as (Hlo & Hhi).
    set (m := roundHalfEven (a / 2 ^ e)) in *.
    rewrite Qred_correct.
    assert (Hme : inject_Z m * 2 ^ e - a <= 2 ^ e / 2 /\
                  a - inject_Z m * 2 ^ e <= 2 ^ e / 2).
    { split.
      - assert (inject_Z m * 2 ^ e - a == (inject_Z m - a / 2 ^ e) * 2 ^ e) as ->
          by (field; lra).
        assert (2 ^ e / 2 == (1 # 2) * 2 ^ e) as -> by field.
        apply Qmult_le_compat_r; lra.
      - assert (a - inject_Z m * 2 ^ e == - (inject_Z m - a / 2 ^ e) * 2 ^ e) as ->
          by (field; lra).
        assert (2 ^ e / 2 == (1 # 2) * 2 ^ e) as -> by field.
        apply Qmult_le_compat_r; lra. }
    destruct Hme as (Hm1 & Hm2).
    destruct q as [[| p | p] d].
    + exfalso; apply Hq; reflexivity.
    + assert (Hqa : Zpos p # d == a) by reflexivity.
      cbn [Qnum Z.sgn].
      replace (1 * m)%Z with m by lia.
      rewrite Hqa; split; lra.
    + assert (Hqa : Zneg p # d == - a) by reflexivity.
      cbn [Qnum Z.sgn].
      replace (-1 * m)%Z with (- m)%Z by lia.
      rewrite inject_Z_opp, Hqa; split; lra.
Qed.

Lemma fl_close (q B : Q) :
  - B <= q -> q <= B -> within ((1 # 9007199254740992) * B + underflow) (fl q) q.
Proof.
  intros Hlo Hhi.
  destruct (fl_error q) as (H1 & H2).
  assert (Ha : Qabs q <= B) by (apply Qabs_Qle_condition; split; assumption).
  assert (Hu : roundoff * Qabs q <= (1 # 9007199254740992) * B).
  { apply Qmult_le_l; [ reflexivity | exact Ha ]. }
  split; lra.
Qed.

(** [getCenter]'s two roundings. *)
Lemma center_close (a b C : Q) :
  - C <= (a + b) / 2 -> (a + b) / 2 <= C ->
  within (3 * (1 # 9007199254740992) * C + 2 * underflow)
    (fdiv (fadd a b) 2) ((a + b) / 2).
Proof.
  intros Hlo Hhi.
  pose proof underflow_nonneg as He.
  unfold fdiv, fadd.
  destruct (fl_close (a + b) (2 * C)) as (H1 & H2); [ halves; lra | halves; lra | ].
  set (t := fl (a + b)) in *.
  destruct (fl_close (t / 2) (C + (1 # 9007199254740992) * C + underflow)) as (H3 & H4);
    [ halves; lra | halves; lra | ].
  set (c := fl (t / 2)) in *.
  split; halves; lra.
Qed.

Lemma mul_bounds (h s B : Q) :
  - B <= h -> h <= B -> 0 <= s -> s <= 2 -> - (2 * B) <= h * s /\ h * s <= 2 * B.
Proof. intros; split; nra. Qed.

Lemma mul_close (a b s e : Q) :
  a - b <= e -> b - a <= e -> 0 <= s -> s <= 2 ->
  a * s - b * s <= 2 * e /\ b * s - a * s <= 2 * e.
Proof. intros; split; nra. Qed.

(** The half extent [(height * scale) / 2]: three roundings. *)
Lemma half_close (S N s H : Q) :
  0 <= N - S -> N - S <= H -> 0 <= s -> s <= 2 ->
  within (4 * (1 # 9007199254740992) * H + 4 * underflow)
    (fdiv (fmul (fsub N S) s) 2) ((N - S) * s / 2) /\
  0 <= (N - S) * s / 2 /\ (N - S) * s / 2 <= H.
Proof.
  intros H0 HH Hs0 Hs2.
  pose proof underflow_nonneg as He.
  unfold fdiv, fmul, fsub.
  destruct (fl_close (N - S) H) as (H1 & H2); [ lra | lra | ].
  set (h := fl (N - S)) in *.
  destruct (mul_bounds h s (H + (1 # 9007199254740992) * H + underflow)) as (Hb1 & Hb2);
    [ lra | lra | lra | lra | ].
  destruct (mul_close h (N - S) s _ H1 H2 Hs0 Hs2) as (Hc1 & Hc2).
  destruct (mul_bounds (N - S) s H) as (Hd1 & Hd2); [ lra | lra | lra | lra | ].
  assert (Hd0 : 0 <= (N - S) * s) by (apply Qmult_le_0_compat; lra).
  destruct (fl_close (h * s) (2 * (H + (1 # 9007199254740992) * H + underflow)))
    as (H3 & H4); [ lra | lra | ].
  set (p := fl (h * s)) in *.
  destruct (fl_close (p / 2) (H + 3 * (1 # 9007199254740992) * H + 3 * underflow))
    as (H5 & H6); [ halves; lra | halves; lra | ].
  set (half := fl (p / 2)) in *.
  repeat split; halves; lra.
Qed.

(** One axis of the new box: the two corners [center -+ half], the
    smaller one first as [L.latLngBounds] stores them. *)
Lemma axis_close (cS cN S N s C H : Q) :
  - C <= (cS + cN) / 2 -> (cS + cN) / 2 <= C ->
  0 <= N - S -> N - S <= H -> 0 <= s -> s <= 2 ->
  within (5 * (1 # 9007199254740992) * C + 6 * (1 # 9007199254740992) * H
          + 8 * underflow)
    (Qmin (fsub (fdiv (fadd cS cN) 2) (fdiv (fmul (fsub N S) s) 2))
          (fadd (fdiv (fadd cS cN) 2) (fdiv (fmul (fsub N S) s) 2)))
    ((cS + cN) / 2 - (N - S) * s / 2) /\
  within (5 * (1 # 9007199254740992) * C + 6 * (1 # 9007199254740992) * H
          + 8 * underflow)
    (Qmax (fsub (fdiv (fadd cS cN) 2) (fdiv (fmul (fsub N S) s) 2))
          (fadd (fdiv (fadd cS cN) 2) (fdiv (fmul (fsub N S) s) 2)))
    ((cS + cN) / 2 + (N - S) * s / 2).
Proof.
  intros Hc1 Hc2 H0 HH Hs0 Hs2.
  pose proof underflow_nonneg as He.
  destruct (center_close cS cN C Hc1 Hc2) as (Ha1 & Ha2).
  destruct (half_close S N s H H0 HH Hs0 Hs2) as ((Hb1 & Hb2) & Hb3 & Hb4).
  set (c := fdiv (fadd cS cN) 2) in *.
  set (half := fdiv (fmul (fsub N S) s) 2) in *.
  set (c0 := (cS + cN) / 2) in *.
  set (h0 := (N - S) * s / 2) in *.
  assert (HC : 0 <= C) by lra.
  assert (HH0 : 0 <= H) by lra.
  unfold fsub, fadd.
  destruct (fl_close (c - half)
              (C + H + 7 * (1 # 9007199254740992) * (C + H) + 6 * underflow))
    as (Hl1 & Hl2); [ lra | lra | ].
  destruct (fl_close (c + half)
              (C + H + 7 * (1 # 9007199254740992) * (C + H) + 6 * underflow))
    as (Hh1 & Hh2); [ lra | lra | ].
  set (lo := fl (c - half)) in *.
  set (hi := fl (c + half)) in *.
  unfold within.
  destruct (Q.min_spec lo hi) as [(Hmin & ->) | (Hmin & ->)];
    destruct (Q.max_spec lo hi) as [(Hmax & ->) | (Hmax & ->)];
    repeat split; lra.
Qed.

(** *** Boxes *)

Lemma tolerance_nonneg (M : Q) : 0 <= M -> 0 <= tolerance M.
Proof.
  intros HM; pose proof underflow_nonneg.
  unfold tolerance, roundoff; lra.
Qed.

Lemma bounded_nonneg (M : Q) (b : LatLngBounds) : bounded M b -> 0 <= M.
Proof. intros ((H1 & H2) & _); lra. Qed.

(** What [handleScaleChange] leaves in [floorMap], when there is an
    overlay and a selection. *)
Lemma handleScaleChange_attached (w : World) (fm : FloorMapState) (layer : Layer)
    (s : Q) :
  floorMap (state w) = Some fm ->
  selectedBuildingRef (state w) = Some layer ->
  exists w',
    dispatch (ScaleInput s) w = Ok w' /\
    selectedBuildingRef (state w') = Some layer /\
    floorMap (state w') =
      Some {| url := url fm;
              bounds := scaledAbout (getCenter (bounds fm)) layer s;
              scale := s; rotation := rotation fm; masked := masked fm |}.
Proof.
  intros Hfm Hsel.
  unfold dispatch, bind; cbn [handle].
  unfold handleScaleChange, scaleUpdater, bind; rewrite Hfm, Hsel.
  eexists; split; [ reflexivity | ].
  rewrite state_commit; fields.
  split; [ exact Hsel | reflexivity ].
Qed.

(** The box the slider computes, against the box it aims at: the
    overlay's midpoint may be as far out as [2 * M]. *)
Lemma scaledAbout_close (b : LatLngBounds) (layer : Layer) (s M : Q) :
  valid_bounds (layer_getBounds layer) ->
  bounded M (layer_getBounds layer) ->
  near (2 * M) (midpoint b) {| lat := 0; lng := 0 |} ->
  0 <= s -> s <= 2 ->
  close (tolerance M) (scaledAbout (getCenter b) layer s)
        (idealBox (midpoint b) layer s).
Proof.
  intros (Hns & Hwe) ((HS1 & HS2) & (HW1 & HW2) & (HN1 & HN2) & (HE1 & HE2))
         ((Hlat1 & Hlat2) & (Hlng1 & Hlng2)) Hs0 Hs2.
  unfold midpoint in Hlat1, Hlat2, Hlng1, Hlng2; cbn [lat lng] in *.
  pose proof underflow_nonneg as He.
  assert (HM : 0 <= M) by lra.
  destruct (axis_close (getSouth b) (getNorth b)
              (getSouth (layer_getBounds layer)) (getNorth (layer_getBounds layer))
              s (2 * M) (2 * M)) as (Hlo & Hhi); try lra.
  destruct (axis_close (getWest b) (getEast b)
              (getWest (layer_getBounds layer)) (getEast (layer_getBounds layer))
              s (2 * M) (2 * M)) as (Hlo' & Hhi'); try lra.
  unfold close, scaledAbout, latLngBounds, idealBox, getCenter, midpoint, height, width,
    within, tolerance, roundoff in *.
  cbn [getSouth getNorth getWest getEast southWest northEast lat lng] in *.
  repeat split; lra.
Qed.

(** One move of the scale slider. *)
Lemma scale_step (w : World) (fm : FloorMapState) (layer : Layer) (s M : Q) :
  floorMap (state w) = Some fm ->
  selectedBuildingRef (state w) = Some layer ->
  valid_bounds (layer_getBounds layer) ->
  bounded M (layer_getBounds layer) ->
  near (2 * M) (midpoint (bounds fm)) {| lat := 0; lng := 0 |} ->
  sliderValue s ->
  exists w' fm',
    dispatch (ScaleInput s) w = Ok w' /\
    floorMap (state w') = Some fm' /\
    selectedBuildingRef (state w') = Some layer /\
    url fm' = url fm /\ scale fm' = s /\
    rotation fm' = rotation fm /\ masked fm' = masked fm /\
    close (tolerance M) (bounds fm') (idealBox (midpoint (bounds fm)) layer s).
Proof.
  intros Hfm Hsel Hvalid Hb Hmid (Hs1 & Hs2).
  destruct (handleScaleChange_attached w fm layer s Hfm Hsel) as (w' & Hd & Hsel' & Hfm').
  exists w'; eexists.
  split; [ exact Hd | ].
  split; [ exact Hfm' | ].
  split; [ exact Hsel' | ].
  cbn [url scale rotation masked bounds].
  repeat (split; [ reflexivity | ]).
  apply scaledAbout_close; try assumption; lra.
Qed.

(** A box that is close to the box aimed at has its size and its
    midpoint. *)
Lemma idealBox_measures (b : LatLngBounds) (c : LatLng) (layer : Layer) (s tol : Q) :
  close tol b (idealBox c layer s) ->
  within (2 * tol) (width b) (s * width (layer_getBounds layer)) /\
  within (2 * tol) (height b) (s * height (layer_getBounds layer)) /\
  near tol (midpoint b) c.
Proof.
  unfold close, idealBox, within, near, midpoint, width, height.
  cbn [getSouth getNorth getWest getEast southWest northEast lat lng].
  intros ((H1 & H2) & (H3 & H4) & (H5 & H6) & (H7 & H8)).
  repeat split; halves; lra.
Qed.

Lemma bounded_midpoint (M : Q) (b : LatLngBounds) :
  bounded M b -> near M (midpoint b) {| lat := 0; lng := 0 |}.
Proof.
  unfold bounded, near, within, midpoint; cbn [lat lng].
  intros ((H1 & H2) & (H3 & H4) & (H5 & H6) & (H7 & H8)).
  repeat split; halves; lra.
Qed.

(** *** C1 *)

(** C1, as the code has it.  With an overlay attached and a footprint
    selected, moving the scale slider to [s] (between 0.1 and 2) sets
    the overlay's bounds to a box whose width and height are, within
    the floating tolerance, [s] times those of the bounding box of the
    footprint selected at that moment, and whose midpoint is, within
    the tolerance, the midpoint the overlay's bounds had before; scale
    becomes [s] and nothing else of the overlay changes.  Widths,
    heights and midpoints are measured exactly, on the corners; the
    coordinates are of magnitude [M] at most, and the tolerance is
    [tolerance M] for the midpoint and twice that for the sizes. *)
Theorem setScale_bounds :
  forall (w : World) (fm : FloorMapState) (layer : Layer) (s M : Q),
    floorMap (state w) = Some fm ->
    selectedBuildingRef (state w) = Some layer ->
    valid_bounds (layer_getBounds layer) ->
    bounded M (layer_getBounds layer) ->
    bounded M (bounds fm) ->
    noOverflow M ->
    sliderValue s ->
    exists w' fm',
      dispatch (ScaleInput s) w = Ok w' /\
      floorMap (state w') = Some fm' /\
      within (2 * tolerance M) (width (bounds fm')) (s * width (layer_getBounds layer)) /\
      within (2 * tolerance M) (height (bounds fm'))
        (s * height (layer_getBounds layer)) /\
      near (tolerance M) (midpoint (bounds fm')) (midpoint (bounds fm)) /\
      scale fm' = s /\
      url fm' = url fm /\ rotation fm' = rotation fm /\ masked fm' = masked fm.
Proof.
  intros w fm layer s M Hfm Hsel Hvalid Hbl Hbf _ Hs.
  pose proof (bounded_nonneg M _ Hbl) as HM.
  assert (Hmid : near (2 * M) (midpoint (bounds fm)) {| lat := 0; lng := 0 |}).
  { destruct (bounded_midpoint M _ Hbf) as ((H1 & H2) & (H3 & H4)).
    unfold near, within in *; cbn [lat lng] in *; repeat split; lra. }
  destruct (scale_step w fm layer s M Hfm Hsel Hvalid Hbl Hmid Hs)
    as (w' & fm' & Hd & Hfm' & _ & Hu & Hsc & Hr & Hm & Hclose).
  destruct (idealBox_measures _ _ _ _ _ Hclose) as (Hw & Hh & Hc).
  exists w', fm'.
  repeat (split; [ assumption | ]); assumption.
Qed.

(** *** C7 *)

Lemma times_S (n : nat) (q : Q) : times (S n) q == q + times n q.
Proof.
  unfold times.
  rewrite Nat2Z.inj_succ, <- Z.add_1_r, inject_Z_plus.
  change (inject_Z 1) with 1; ring.
Qed.

Lemma times_0 (q : Q) : times 0 q == 0.
Proof. unfold times; change (inject_Z (Z.of_nat 0)) with 0; ring. Qed.

Lemma times_1 (q : Q) : times 1 q == q.
Proof. unfold times; change (inject_Z (Z.of_nat 1)) with 1; ring. Qed.

Lemma times_2 (q : Q) : times 2 q == 2 * q.
Proof. unfold times; change (inject_Z (Z.of_nat 2)) with 2; ring. Qed.

Lemma times_nonneg (n : nat) (q : Q) : 0 <= q -> 0 <= times n q.
Proof.
  intros Hq; unfold times.
  apply Qmult_le_0_compat; [ | exact Hq ].
  change 0 with (inject_Z 0); rewrite <- Zle_Qle; lia.
Qed.

Lemma close_trans (d1 d2 : Q) (a b c : LatLngBounds) :
  close d1 a b -> close d2 b c -> close (d1 + d2) a c.
Proof. unfold close, within; intros; repeat split; lra. Qed.

Lemma close_sym (d : Q) (a b : LatLngBounds) : close d a b -> close d b a.
Proof. unfold close, within; intros; repeat split; lra. Qed.

Lemma close_weaken (d d' : Q) (a b : LatLngBounds) :
  d <= d' -> close d a b -> close d' a b.
Proof. unfold close, within; intros; repeat split; lra. Qed.

Lemma near_trans (d1 d2 : Q) (p q r : LatLng) :
  near d1 p q -> near d2 q r -> near (d1 + d2) p r.
Proof. unfold near, within; intros; repeat split; lra. Qed.

Lemma near_weaken (d d' : Q) (p q : LatLng) :
  d <= d' -> near d p q -> near d' p q.
Proof. unfold near, within; intros; repeat split; lra. Qed.

(** Moving the centre moves the box aimed at by as much. *)
Lemma idealBox_shift (d : Q) (c c' : LatLng) (layer : Layer) (s : Q) :
  near d c c' -> close d (idealBox c layer s) (idealBox c' layer s).
Proof.
  unfold near, close, within, idealBox.
  cbn [getSouth getNorth getWest getEast southWest northEast lat lng].
  intros; repeat split; lra.
Qed.

(** At scale 1 about the footprint's own midpoint, the box aimed at is
    the footprint's bounding box. *)
Lemma idealBox_one (layer : Layer) :
  close 0 (idealBox (midpoint (layer_getBounds layer)) layer 1) (layer_getBounds layer).
Proof.
  unfold close, within, idealBox, midpoint, height, width.
  cbn [getSouth getNorth getWest getEast southWest northEast lat lng].
  repeat split; halves; lra.
Qed.

(** A run of scale inputs keeps the selection and the overlay's URL,
    rotation and mask; the midpoint moves by the tolerance at most with
    each of them. *)
Lemma scale_inputs_drift (layer : Layer) (M : Q) (c0 : LatLng) :
  valid_bounds (layer_getBounds layer) ->
  bounded M (layer_getBounds layer) ->
  near M c0 {| lat := 0; lng := 0 |} ->
  forall (vs : list Q) (w : World) (fm : FloorMapState) (d : Q),
    floorMap (state w) = Some fm ->
    selectedBuildingRef (state w) = Some layer ->
    Forall sliderValue vs ->
    0 <= d ->
    near d (midpoint (bounds fm)) c0 ->
    d + times (length vs) (tolerance M) <= M ->
    exists w' fm',
      dispatchAll (map ScaleInput vs) w = Ok w' /\
      floorMap (state w') = Some fm' /\
      selectedBuildingRef (state w') = Some layer /\
      url fm' = url fm /\ rotation fm' = rotation fm /\ masked fm' = masked fm /\
      near (d + times (length vs) (tolerance M)) (midpoint (bounds fm')) c0.
Proof.
  intros Hvalid Hbl Hc0.
  pose proof (bounded_nonneg M _ Hbl) as HM.
  pose proof (tolerance_nonneg M HM) as Htol.
  induction vs as [| v vs IH]; intros w fm d Hfm Hsel Hvs Hd Hnear Hbudget.
  - exists w, fm; cbn [map dispatchAll length].
    repeat (split; [ first [ reflexivity | assumption ] | ]).
    apply (near_weaken d); [ | exact Hnear ].
    pose proof (times_0 (tolerance M)); lra.
  - inversion Hvs as [| v' vs' Hv Hrest]; subst.
    cbn [length] in Hbudget |- *.
    pose proof (times_S (length vs) (tolerance M)) as HS.
    pose proof (times_nonneg (length vs) (tolerance M) Htol) as Hn.
    assert (Hmid : near (2 * M) (midpoint (bounds fm)) {| lat := 0; lng := 0 |}).
    { apply (near_weaken (d + M)); [ lra | ].
      exact (near_trans d M _ _ _ Hnear Hc0). }
    destruct (scale_step w fm layer v M Hfm Hsel Hvalid Hbl Hmid Hv)
      as (w1 & fm1 & Hd1 & Hfm1 & Hsel1 & Hu1 & _ & Hr1 & Hm1 & Hclose).
    destruct (idealBox_measures _ _ _ _ _ Hclose) as (_ & _ & Hc1).
    assert (Hnear1 : near (d + tolerance M) (midpoint (bounds fm1)) c0).
    { apply (near_weaken (tolerance M + d)); [ lra | ].
      exact (near_trans _ _ _ _ _ Hc1 Hnear). }
    destruct (IH w1 fm1 (d + tolerance M) Hfm1 Hsel1 Hrest) as
      (w' & fm' & Hrun & Hfm' & Hsel' & Hu & Hr & Hm & Hfin); [ lra | exact Hnear1 | lra | ].
    exists w', fm'.
    cbn [map dispatchAll]; rewrite Hd1; cbn [bind].
    split; [ exact Hrun | ].
    split; [ exact Hfm' | ].
    split; [ exact Hsel' | ].
    split; [ congruence | ].
    split; [ congruence | ].
    split; [ congruence | ].
    apply (near_weaken (d + tolerance M + times (length vs) (tolerance M)));
      [ lra | exact Hfin ].
Qed.

Lemma run_app (a b : list (Z * Event)) (w : World) :
  run (a ++ b) w = (w' <- run a w ;; run b w').
Proof.
  revert w; induction a as [| [t ev] a IH]; intros w; [ reflexivity | ].
  cbn [app run].
  destruct (dispatch ev (advanceTo t w)) as [w1 |]; cbn [bind]; [ apply IH | reflexivity ].
Qed.

Lemma dispatchAll_app (a b : list Event) (w : World) :
  dispatchAll (a ++ b)%list w = (w' <- dispatchAll a w ;; dispatchAll b w').
Proof.
  revert w; induction a as [| ev a IH]; intros w; [ reflexivity | ].
  cbn [app dispatchAll].
  destruct (dispatch ev w) as [w1 |]; cbn [bind]; [ apply IH | reflexivity ].
Qed.

(** What an event other than a footprint click or a scale input leaves
    of the overlay's box: the box it was, or, after an upload, the
    bounding box of the selected footprint. *)
Lemma handle_bounds (ev : Event) (w w1 : World) :
  handle ev w = Ok w1 ->
  (forall l, ev <> BuildingClick l) ->
  (forall v, ev <> ScaleInput v) ->
  selectedBuildingRef (state w1) = selectedBuildingRef (state w) /\
  forall fm1,
    floorMap (state w1) = Some fm1 ->
    (exists fm, floorMap (state w) = Some fm /\ bounds fm1 = bounds fm) \/
    (exists l, selectedBuildingRef (state w) = Some l /\ bounds fm1 = layer_getBounds l).
Proof.
  intros Hev Hclick Hscale.
  destruct ev; cbn [handle] in Hev; try (injection Hev as <-).
  - exfalso; exact (Hclick layer eq_refl).
  - unfold handleFileUpload.
    destruct file as [f |]; [ destruct (selectedBuildingRef (state w)) as [l |] eqn:Hsel | ];
      simpl; rewrite ?Hsel; (split; [ reflexivity | ]); intros fm1 H1.
    + injection H1 as <-; right; exists l; split; reflexivity.
    + left; exists fm1; split; [ exact H1 | reflexivity ].
    + left; exists fm1; split; [ exact H1 | reflexivity ].
  - exfalso; exact (Hscale value eq_refl).
  - unfold handleRotationChange.
    destruct (floorMap (state w)) as [fm |] eqn:Hfm; fields; rewrite ?Hfm;
      (split; [ reflexivity | ]); intros fm1 H1.
    + injection H1 as <-; left; exists fm; split; reflexivity.
    + discriminate H1.
  - split; [ reflexivity | ]; intros fm1 H1.
    left; exists fm1; split; [ exact H1 | reflexivity ].
  - unfold toggleMask.
    destruct (floorMap (state w)) as [fm |] eqn:Hfm; fields.
    + split.
      * destruct (negb (masked fm)); fields; [ | reflexivity ].
        destruct (updateClipPath_frame (Some fm) w) as (_ & -> & _); reflexivity.
      * intros fm1 H1; injection H1 as <-.
        left; exists fm; split; reflexivity.
    + split; [ reflexivity | intros fm1 H1; discriminate H1 ].
  - unfold removeFloorMap.
    destruct (floorMap_url (floorMap (state w))); fields;
      (split; [ reflexivity | intros fm1 H1; discriminate H1 ]).
  - match goal with |- context [updateClipPath ?r ?v] =>
      destruct (updateClipPath_frame r v) as (-> & -> & _) end.
    destruct (overlayMove_frame (with_leaflet m w)) as (-> & _).
    split; [ reflexivity | ]; intros fm1 H1.
    left; exists fm1; split; [ exact H1 | reflexivity ].
  - match goal with |- context [updateClipPath ?r ?v] =>
      destruct (updateClipPath_frame r v) as (-> & -> & _) end.
    split; [ reflexivity | ]; intros fm1 H1.
    left; exists fm1; split; [ exact H1 | reflexivity ].
  - unfold debouncedFetchBuildingData.
    destruct (timerId (debounced w)); [ | destruct (shouldInvoke _ _) ];
      (split; [ reflexivity | ]); intros fm1 H1;
      left; exists fm1; (split; [ exact H1 | reflexivity ]).
  - unfold fetchBuildingData_resume, try_catch, bind in Hev.
    destruct outcome; [ | destruct (osmtogeojson data) ]; injection Hev as <-;
      (split; [ reflexivity | ]); intros fm1 H1;
      left; exists fm1; (split; [ exact H1 | reflexivity ]).
Qed.

Lemma centredOn_weaken (layer : Layer) (d d' : Q) (w : World) :
  d <= d' -> centredOn layer d w -> centredOn layer d' w.
Proof.
  intros Hd (Hsel & Hc); split; [ exact Hsel | ].
  intros fm Hfm; exact (near_weaken d d' _ _ Hd (Hc fm Hfm)).
Qed.

Lemma near_refl (d : Q) (p : LatLng) : 0 <= d -> near d p p.
Proof. unfold near, within; intros; repeat split; lra. Qed.

(** An event that keeps the footprint keeps the overlay centred on it;
    a scale input costs one tolerance. *)
Lemma centredOn_dispatch (layer : Layer) (M d : Q) (t : Z) (ev : Event) (w w' : World) :
  valid_bounds (layer_getBounds layer) ->
  bounded M (layer_getBounds layer) ->
  0 <= d -> d <= M ->
  keepsFootprint ev ->
  centredOn layer d w ->
  dispatch ev (advanceTo t w) = Ok w' ->
  centredOn layer (d + times (scaleInputs [(t, ev)]) (tolerance M)) w'.
Proof.
  intros Hvalid Hbl Hd HdM Hkeep (Hsel & Hc) Hstep.
  pose proof (bounded_nonneg M _ Hbl) as HM.
  pose proof (tolerance_nonneg M HM) as Htol.
  destruct (advanceTo_overlay t w) as (Hfa & Hsa & _).
  pose proof (times_1 (tolerance M)) as Hone.
  pose proof (times_0 (tolerance M)) as Hzero.
  destruct ev; try contradiction;
    try (unfold dispatch, bind in Hstep;
         match type of Hstep with
         | context [handle ?e ?v] =>
             destruct (handle e v) as [w1 |] eqn:Hh; [ | discriminate Hstep ];
             injection Hstep as <-;
             destruct (handle_bounds e v w1 Hh) as (Hs1 & Hb1);
             [ intros l; discriminate | intros v0; discriminate | ]
         end;
         unfold centredOn; rewrite state_commit, Hs1, Hsa;
         split; [ exact Hsel | ];
         intros fm1 Hfm1;
         apply (near_weaken d); [ cbn [scaleInputs]; lra | ];
         destruct (Hb1 fm1 Hfm1) as [(fm & Hfm & ->) | (l & Hl & ->)];
         [ apply Hc; rewrite <- Hfa; exact Hfm
         | rewrite Hsa, Hsel in Hl; injection Hl as <-; apply near_refl; exact Hd ]).
  (* ScaleInput *)
  cbn [scaleInputs]; cbn [keepsFootprint] in Hkeep.
  assert (Hback : forall f, floorMap (state (advanceTo t w)) = Some f ->
                            floorMap (state w) = Some f)
    by (intros f; rewrite Hfa; trivial).
  destruct (floorMap (state (advanceTo t w))) as [fm |] eqn:Hfm.
  - assert (Hmid : near (2 * M) (midpoint (bounds fm)) {| lat := 0; lng := 0 |}).
    { apply (near_weaken (d + M)); [ lra | ].
      apply (near_trans d M _ (midpoint (layer_getBounds layer))).
      - apply Hc, Hback; reflexivity.
      - apply bounded_midpoint; exact Hbl. }
    destruct (scale_step (advanceTo t w) fm layer value M Hfm
                ltac:(rewrite Hsa; exact Hsel) Hvalid Hbl Hmid Hkeep)
      as (w1 & fm1 & Hd1 & Hfm1 & Hsel1 & _ & _ & _ & _ & Hclose).
    rewrite Hd1 in Hstep; injection Hstep as <-.
    split; [ exact Hsel1 | ].
    intros fm' Hfm'; rewrite Hfm1 in Hfm'; injection Hfm' as <-.
    destruct (idealBox_measures _ _ _ _ _ Hclose) as (_ & _ & Hc1).
    apply (near_weaken (tolerance M + d)); [ lra | ].
    apply (near_trans _ _ _ _ _ Hc1).
    apply Hc, Hback; reflexivity.
  - unfold dispatch, bind in Hstep; cbn [handle] in Hstep.
    unfold handleScaleChange in Hstep; rewrite Hfm in Hstep.
    injection Hstep as <-.
    unfold centredOn; rewrite state_commit, Hsa, Hfm.
    split; [ exact Hsel | intros fm' H'; discriminate H' ].
Qed.

Lemma scaleInputs_cons (t : Z) (ev : Event) (rest : list (Z * Event)) :
  scaleInputs ((t, ev) :: rest) = (scaleInputs [(t, ev)] + scaleInputs rest)%nat.
Proof. destruct ev; reflexivity. Qed.

Lemma times_plus (n m : nat) (q : Q) : times (n + m) q == times n q + times m q.
Proof.
  unfold times; rewrite Nat2Z.inj_add, inject_Z_plus; ring.
Qed.

(** Over a run of events that keep the footprint. *)
Lemma centredOn_run (layer : Layer) (M : Q) :
  valid_bounds (layer_getBounds layer) ->
  bounded M (layer_getBounds layer) ->
  forall (trace : list (Z * Event)) (d : Q) (w w' : World),
    0 <= d ->
    d + times (scaleInputs trace) (tolerance M) <= M ->
    Forall (fun p => keepsFootprint (snd p)) trace ->
    centredOn layer d w ->
    run trace w = Ok w' ->
    centredOn layer (d + times (scaleInputs trace) (tolerance M)) w'.
Proof.
  intros Hvalid Hbl.
  pose proof (bounded_nonneg M _ Hbl) as HM.
  pose proof (tolerance_nonneg M HM) as Htol.
  induction trace as [| [t ev] rest IH]; intros d w w' Hd Hbudget Hkeep Hc Hrun.
  - cbn [run] in Hrun; injection Hrun as <-.
    apply (centredOn_weaken layer d);
      [ pose proof (times_0 (tolerance M)); cbn [scaleInputs]; lra | exact Hc ].
  - inversion Hkeep as [| p ps Hk Hks]; subst; cbn [snd] in Hk.
    cbn [run] in Hrun.
    destruct (dispatch ev (advanceTo t w)) as [w1 |] eqn:Hstep; cbn [bind] in Hrun;
      [ | discriminate Hrun ].
    rewrite scaleInputs_cons in Hbudget |- *.
    pose proof (times_plus (scaleInputs [(t, ev)]) (scaleInputs rest) (tolerance M)) as Hp.
    pose proof (times_nonneg (scaleInputs [(t, ev)]) (tolerance M) Htol) as H1.
    pose proof (times_nonneg (scaleInputs rest) (tolerance M) Htol) as H2.
    assert (Hc1 := centredOn_dispatch layer M d t ev w w1 Hvalid Hbl Hd ltac:(lra) Hk Hc Hstep).
    apply (centredOn_weaken layer
             (d + times (scaleInputs [(t, ev)]) (tolerance M)
              + times (scaleInputs rest) (tolerance M))); [ lra | ].
    apply (IH _ w1 w'); try assumption; lra.
Qed.

(** C7, as the code has it.  For a selected footprint [layer] with
    coordinates of magnitude [M] at most, and with [tolerance M] as the
    floating tolerance:

    - last write wins, within the floating tolerance: from an attached
      overlay, a run of scale inputs ends within one tolerance per
      input of the box its last input aims at, the footprint's width
      and height times that scale about the midpoint the overlay had
      at the start; and so within the tolerance of where the last input
      alone leads.  URL, rotation and mask are unchanged and the scale
      is the last one;

    - scale 1 restores: after an image has been attached to [layer],
      whatever follows short of a click on a footprint (scale inputs of
      the slider's range, rotation, opacity, mask, removals and new
      uploads, map events, fetches, at any times), a scale input 1
      leaves the overlay within the tolerance of the footprint's
      bounding box. *)
Theorem setScale_last_write_wins :
  forall (layer : Layer) (M : Q),
    valid_bounds (layer_getBounds layer) ->
    bounded M (layer_getBounds layer) ->
    noOverflow M ->
    (forall (w : World) (fm : FloorMapState) (vs : list Q) (v : Q),
       floorMap (state w) = Some fm ->
       selectedBuildingRef (state w) = Some layer ->
       bounded M (bounds fm) ->
       Forall sliderValue (vs ++ [v])%list ->
       times (length vs) (tolerance M) <= M ->
       exists w1 w2 fm1 fm2,
         dispatchAll (map ScaleInput (vs ++ [v])%list) w = Ok w1 /\
         dispatchAll [ScaleInput v] w = Ok w2 /\
         floorMap (state w1) = Some fm1 /\
         floorMap (state w2) = Some fm2 /\
         url fm1 = url fm2 /\ scale fm1 = v /\ scale fm2 = v /\
         rotation fm1 = rotation fm2 /\ masked fm1 = masked fm2 /\
         close (times (length vs + 1) (tolerance M)) (bounds fm1)
               (idealBox (midpoint (bounds fm)) layer v) /\
         close (times (length vs + 2) (tolerance M)) (bounds fm1) (bounds fm2)) /\
    (forall (w0 wa : World) (file : string) (trace : list (Z * Event)) (t : Z),
       selectedBuildingRef (state w0) = Some layer ->
       dispatch (FileChosen (Some file)) w0 = Ok wa ->
       Forall (fun p => keepsFootprint (snd p)) trace ->
       times (scaleInputs trace) (tolerance M) <= M ->
       exists w',
         run (trace ++ [(t, ScaleInput 1)])%list wa = Ok w' /\
         forall fm',
           floorMap (state w') = Some fm' ->
           close (times (scaleInputs trace + 1) (tolerance M)) (bounds fm')
                 (layer_getBounds layer)).
Proof.
  intros layer M Hvalid Hbl _.
  pose proof (bounded_nonneg M _ Hbl) as HM.
  pose proof (tolerance_nonneg M HM) as Htol.
  split.
  - intros w fm vs v Hfm Hsel Hbf Hall Hbudget.
    apply Forall_app in Hall as (Hvs & Hv).
    inversion Hv as [| v' l' Hv1 _]; subst.
    pose proof (bounded_midpoint M _ Hbf) as Hc0.
    pose proof (times_nonneg (length vs) (tolerance M) Htol) as Hn.
    destruct (scale_inputs_drift layer M (midpoint (bounds fm)) Hvalid Hbl Hc0
                vs w fm 0 Hfm Hsel Hvs) as
      (wa & fma & Hrun & Hfma & Hsela & Hu & Hr & Hm & Hdrift);
      [ lra | apply near_refl; lra | lra | ].
    assert (Hmida : near (2 * M) (midpoint (bounds fma)) {| lat := 0; lng := 0 |}).
    { apply (near_weaken (0 + times (length vs) (tolerance M) + M)); [ lra | ].
      exact (near_trans _ _ _ _ _ Hdrift Hc0). }
    destruct (scale_step wa fma layer v M Hfma Hsela Hvalid Hbl Hmida Hv1)
      as (w1 & fm1 & Hd1 & Hfm1 & _ & Hu1 & Hs1 & Hr1 & Hm1 & Hclose1).
    assert (Hmid : near (2 * M) (midpoint (bounds fm)) {| lat := 0; lng := 0 |}).
    { apply (near_weaken M); [ lra | exact Hc0 ]. }
    destruct (scale_step w fm layer v M Hfm Hsel Hvalid Hbl Hmid Hv1)
      as (w2 & fm2 & Hd2 & Hfm2 & _ & Hu2 & Hs2 & Hr2 & Hm2 & Hclose2).
    exists w1, w2, fm1, fm2.
    split; [ rewrite map_app, dispatchAll_app, Hrun; cbn [bind map dispatchAll];
             rewrite Hd1; reflexivity | ].
    split; [ cbn [dispatchAll]; rewrite Hd2; reflexivity | ].
    split; [ exact Hfm1 | ].
    split; [ exact Hfm2 | ].
    split; [ congruence | ].
    split; [ exact Hs1 | ].
    split; [ exact Hs2 | ].
    split; [ congruence | ].
    split; [ congruence | ].
    pose proof (times_plus (length vs) 1 (tolerance M)) as Hp1.
    pose proof (times_plus (length vs) 2 (tolerance M)) as Hp2.
    pose proof (times_1 (tolerance M)) as Hone.
    pose proof (times_2 (tolerance M)) as Htwo.
    assert (Hto : close (times (length vs + 1) (tolerance M)) (bounds fm1)
                    (idealBox (midpoint (bounds fm)) layer v)).
    { apply (close_weaken (tolerance M + (0 + times (length vs) (tolerance M))));
        [ lra | ].
      apply (close_trans _ _ _ _ _ Hclose1).
      apply idealBox_shift; exact Hdrift. }
    split; [ exact Hto | ].
    apply (close_weaken (times (length vs + 1) (tolerance M) + tolerance M)); [ lra | ].
    apply (close_trans _ _ _ _ _ Hto).
    apply close_sym; exact Hclose2.
  - intros w0 wa file trace t Hsel0 Hattach Hkeep Hbudget.
    assert (Hkept : selection_kept wa).
    { unfold dispatch, bind in Hattach; cbn [handle] in Hattach.
      injection Hattach as <-.
      unfold selection_kept; rewrite state_commit.
      unfold handleFileUpload; rewrite Hsel0; simpl; rewrite Hsel0.
      intros _; discriminate. }
    destruct (run_total (trace ++ [(t, ScaleInput 1)])%list wa Hkept)
      as (w' & Hrun & _).
    exists w'; split; [ exact Hrun | ].
    intros fm' Hfm'.
    assert (Hca : centredOn layer 0 wa).
    { unfold dispatch, bind in Hattach; cbn [handle] in Hattach.
      injection Hattach as <-.
      unfold centredOn; rewrite state_commit.
      unfold handleFileUpload; rewrite Hsel0; fields.
      split; [ exact Hsel0 | ].
      intros fm H; injection H as <-; cbn [bounds].
      apply near_refl; lra. }
    rewrite run_app in Hrun.
    destruct (run trace wa) as [wb |] eqn:Hrunb; cbn [bind] in Hrun;
      [ | discriminate Hrun ].
    pose proof (times_nonneg (scaleInputs trace) (tolerance M) Htol) as Hn.
    pose proof (centredOn_run layer M Hvalid Hbl trace 0 wa wb ltac:(lra) ltac:(lra)
                  Hkeep Hca Hrunb) as (Hselb & Hcb).
    cbn [run] in Hrun.
    destruct (dispatch (ScaleInput 1) (advanceTo t wb)) as [wc |] eqn:Hstep;
      cbn [bind] in Hrun; [ | discriminate Hrun ].
    injection Hrun as <-.
    destruct (advanceTo_overlay t wb) as (Hfa & Hsa & _).
    assert (Hback : forall f, floorMap (state (advanceTo t wb)) = Some f ->
                              floorMap (state wb) = Some f)
      by (intros f; rewrite Hfa; trivial).
    destruct (floorMap (state (advanceTo t wb))) as [fm |] eqn:Hfm.
    + pose proof (Hcb fm (Hback fm eq_refl)) as Hnear.
      assert (Hmid : near (2 * M) (midpoint (bounds fm)) {| lat := 0; lng := 0 |}).
      { apply (near_weaken (0 + times (scaleInputs trace) (tolerance M) + M)); [ lra | ].
        apply (near_trans _ _ _ _ _ Hnear).
        apply bounded_midpoint; exact Hbl. }
      assert (Hone : sliderValue 1) by (split; discriminate).
      destruct (scale_step (advanceTo t wb) fm layer 1 M Hfm
                  ltac:(rewrite Hsa; exact Hselb) Hvalid Hbl Hmid Hone)
        as (w1 & fm1 & Hd1 & Hfm1 & _ & _ & _ & _ & _ & Hclose).
      rewrite Hd1 in Hstep; injection Hstep as <-.
      rewrite Hfm1 in Hfm'; injection Hfm' as <-.
      pose proof (times_plus (scaleInputs trace) 1 (tolerance M)) as Hp1.
      pose proof (times_1 (tolerance M)) as H1.
      apply (close_weaken
               (tolerance M + ((0 + times (scaleInputs trace) (tolerance M)) + 0)));
        [ lra | ].
      apply (close_trans _ _ _ _ _ Hclose).
      apply (close_trans _ _ _ (idealBox (midpoint (layer_getBounds layer)) layer 1)).
      * apply idealBox_shift; exact Hnear.
      * apply idealBox_one.
    + unfold dispatch, bind in Hstep; cbn [handle] in Hstep.
      unfold handleScaleChange in Hstep; rewrite Hfm in Hstep.
      injection Hstep as <-.
      rewrite state_commit, Hfm in Hfm'; discriminate Hfm'.
Qed.

(** *** The mask button (C2) *)

(** Turning the mask on leaves the clip path empty: [updateClipPath],
    called from inside the updater, still tests the [floorMap] of the
    render in which the mask was off. *)
Lemma mask_on_clip_empty (w : World) (fm : FloorMapState) :
  floorMap (state w) = Some fm ->
  masked fm = false ->
  exists w',
    dispatch MaskClick w = Ok w' /\
    floorMap (state w') =
      Some {| url := url fm; bounds := bounds fm; scale := scale fm;
              rotation := rotation fm; masked := true |} /\
    clipPath (state w') = "".
Proof.
  intros Hfm Hoff.
  unfold dispatch, bind; simpl.
  eexists; split; [ reflexivity | ].
  rewrite state_commit.
  unfold toggleMask, updateClipPath; rewrite Hfm, Hoff; simpl.
  rewrite Hoff.
  destruct (selectedBuildingRef (state w)); simpl; split; reflexivity.
Qed.

(** Turning the mask off empties the clip path. *)
Lemma mask_off_clip_empty (w : World) (fm : FloorMapState) :
  floorMap (state w) = Some fm ->
  masked fm = true ->
  exists w',
    dispatch MaskClick w = Ok w' /\
    floorMap (state w') =
      Some {| url := url fm; bounds := bounds fm; scale := scale fm;
              rotation := rotation fm; masked := false |} /\
    clipPath (state w') = "".
Proof.
  intros Hfm Hon.
  unfold dispatch, bind; simpl.
  eexists; split; [ reflexivity | ].
  rewrite state_commit.
  unfold toggleMask; rewrite Hfm, Hon; simpl.
  split; reflexivity.
Qed.

(** *** C6 *)

Lemma count_char_app (c : ascii) (s t : string) :
  count_char c (s ++ t) = (count_char c s + count_char c t)%nat.
Proof.
  induction s as [| d s IH]; simpl; [ reflexivity | ].
  rewrite IH; lia.
Qed.

Lemma count_x_uint (d : Decimal.uint) : count_char "x" (NilEmpty.string_of_uint d) = 0%nat.
Proof. induction d; simpl; auto. Qed.

(** A printed integer has no letter x in it. *)
Lemma count_x_string_of_Z (z : Z) : count_char "x" (string_of_Z z) = 0%nat.
Proof.
  unfold string_of_Z, NilZero.string_of_int, NilZero.string_of_uint.
  destruct (Z.to_int z) as [d | d]; destruct d; simpl;
    try reflexivity; apply count_x_uint.
Qed.

Lemma count_x_clipPoint (m : LeafletMap) (p : LatLng) :
  count_char "x" (clipPoint m p) = 2%nat.
Proof.
  unfold clipPoint.
  rewrite !count_char_app, !count_x_string_of_Z; reflexivity.
Qed.

Lemma count_x_join (m : LeafletMap) (points : list LatLng) :
  count_char "x" (join ", " (map (clipPoint m) points)) = (2 * length points)%nat.
Proof.
  induction points as [| p rest IH]; [ reflexivity | ].
  cbn [map join length].
  destruct rest as [| q rest'].
  - cbn [map]. rewrite count_x_clipPoint; reflexivity.
  - cbn [map] in *.
    rewrite !count_char_app, count_x_clipPoint, IH.
    cbn [count_char length]; simpl; lia.
Qed.

(** The silhouette has as many vertices as the ring. *)
Lemma polygonVertexCount_polygonOf (m : LeafletMap) (points : list LatLng) :
  polygonVertexCount (polygonOf m points) = length points.
Proof.
  unfold polygonVertexCount, polygonOf.
  rewrite !count_char_app, count_x_join.
  cbn [count_char]; simpl Ascii.eqb; cbn [Nat.add].
  rewrite Nat.add_0_r.
  induction (length points) as [| n IH]; [ reflexivity | ].
  replace (2 * S n)%nat with (S (S (2 * n))) by lia.
  cbn [Nat.div2]; rewrite IH; reflexivity.
Qed.

(** A silhouette is never the empty string. *)
Lemma polygonOf_not_empty (m : LeafletMap) (points : list LatLng) :
  String.eqb (polygonOf m points) "" = false.
Proof. reflexivity. Qed.

Lemma append_assoc (a b c : string) : (a ++ b) ++ c = a ++ b ++ c.
Proof. induction a as [| ch a IH]; [ reflexivity | cbn; rewrite IH; reflexivity ]. Qed.

(** What [updateClipPath] builds is the CSS polygon of the projected
    ring. *)
Lemma polygonOf_spec (m : LeafletMap) (points : list LatLng) :
  polygonOf m points
  = cssPolygon (projectedRing latLngToContainerPoint m points).
Proof.
  unfold polygonOf, cssPolygon, projectedRing.
  f_equal; f_equal.
  induction points as [| p rest IH]; [ reflexivity | ].
  assert (Hp : clipPoint m p
               = cssLength (x (latLngToContainerPoint m p)) ++ " "
                 ++ cssLength (y (latLngToContainerPoint m p))).
  { unfold clipPoint, cssLength; cbv zeta.
    rewrite append_assoc; reflexivity. }
  destruct rest as [| q rest'].
  - cbn [map join cssVertices]; exact Hp.
  - change (join ", " (map (clipPoint m) (p :: q :: rest')))
      with (clipPoint m p ++ ", " ++ join ", " (map (clipPoint m) (q :: rest'))).
    change (cssVertices (map (latLngToContainerPoint m) (p :: q :: rest')))
      with (cssLength (x (latLngToContainerPoint m p)) ++ " "
            ++ cssLength (y (latLngToContainerPoint m p)) ++ ", "
            ++ cssVertices (map (latLngToContainerPoint m) (q :: rest'))).
    rewrite IH, Hp, !append_assoc; reflexivity.
Qed.

Lemma updateClipPath_masked (w : World) (fm : FloorMapState) (layer : Layer) :
  masked fm = true ->
  selectedBuildingRef (state w) = Some layer ->
  clipPath (state (updateClipPath (Some fm) w))
    = polygonOf (leaflet w) (layer_getLatLngs0 layer).
Proof.
  intros Hon Hsel.
  unfold updateClipPath; rewrite Hsel; simpl; rewrite Hon; reflexivity.
Qed.

(** *** The image element follows the hooks *)

Lemma overlayMove_image_clip (w : World) :
  option_map style_clipPath (image (overlayMove w))
    = option_map style_clipPath (image w).
Proof.
  unfold overlayMove.
  destruct (image w) eqn:Hi; [ destruct (floorMap (state w)) | ];
    simpl; rewrite ?Hi; reflexivity.
Qed.

(** No handler writes the element's clip path; the render does. *)
Lemma handle_image_clip (ev : Event) (w w' : World) :
  handle ev w = Ok w' ->
  option_map style_clipPath (image w') = option_map style_clipPath (image w).
Proof.
  intros Hev.
  destruct ev; simpl in Hev.
  - injection Hev as <-; reflexivity.
  - injection Hev as <-; unfold handleFileUpload.
    destruct file; [ destruct (selectedBuildingRef (state w)) | ]; reflexivity.
  - unfold handleScaleChange, scaleUpdater in Hev.
    destruct (floorMap (state w)); [ | injection Hev as <-; reflexivity ].
    destruct (selectedBuildingRef (state w)); simpl in Hev; [ | discriminate ].
    injection Hev as <-; reflexivity.
  - injection Hev as <-; unfold handleRotationChange.
    destruct (floorMap (state w)); reflexivity.
  - injection Hev as <-; reflexivity.
  - injection Hev as <-; unfold toggleMask.
    destruct (floorMap (state w)); [ | reflexivity ].
    destruct (negb (masked f)); simpl; [ | reflexivity ].
    destruct (updateClipPath_frame (Some f) w) as (_ & _ & _ & _ & _ & -> & _).
    reflexivity.
  - injection Hev as <-; unfold removeFloorMap.
    destruct (floorMap_url (floorMap (state w))); reflexivity.
  - injection Hev as <-.
    match goal with |- context [updateClipPath ?r ?v] =>
      destruct (updateClipPath_frame r v) as (_ & _ & _ & _ & _ & -> & _) end.
    rewrite overlayMove_image_clip; reflexivity.
  - injection Hev as <-.
    match goal with |- context [updateClipPath ?r ?v] =>
      destruct (updateClipPath_frame r v) as (_ & _ & _ & _ & _ & -> & _) end.
    reflexivity.
  - injection Hev as <-; unfold debouncedFetchBuildingData.
    destruct (timerId (debounced w)); [ | destruct (shouldInvoke _ _) ]; reflexivity.
  - unfold fetchBuildingData_resume, try_catch, bind in Hev.
    destruct outcome; [ injection Hev as <-; reflexivity | ].
    destruct (osmtogeojson data); injection Hev as <-; reflexivity.
Qed.

Lemma rendered_commit (w w1 : World) :
  rendered w ->
  option_map style_clipPath (image w1) = option_map style_clipPath (image w) ->
  rendered (commit w w1).
Proof.
  unfold rendered; intros Hw Himg.
  rewrite state_commit.
  unfold commit, imageEffect.
  destruct (urlCleanup_frame w w1) as (-> & _ & -> & _).
  destruct (floorMap (state w1)) as [fm |]; [ | exact I ].
  assert (Hstyled : forall e, clipPath (state w1) <> "" ->
                      style_clipPath (styleEffect fm (state w1) e) = clipPath (state w1)).
  { intros e Hne; unfold styleEffect; cbn [style_clipPath].
    destruct (String.eqb_spec (clipPath (state w1)) ""); [ contradiction | reflexivity ]. }
  destruct (image w1) as [e1 |] eqn:Hi1; [ | cbn [image with_image]; apply Hstyled ].
  destruct (floorMap (state w)) as [fm0 |]; [ | cbn [image with_image]; apply Hstyled ].
  destruct (_ && _) eqn:Hdeps; [ | cbn [image with_image]; apply Hstyled ].
  destruct (urlCleanup_frame w w1) as (_ & _ & -> & _).
  apply andb_prop in Hdeps as (_ & Hc); apply String.eqb_eq in Hc.
  destruct (image w) as [e0 |]; [ | contradiction ].
  simpl in Himg; injection Himg as Himg.
  rewrite Hi1, <- Hc, Himg; exact Hw.
Qed.

Lemma rendered_dispatch (ev : Event) (w w' : World) :
  rendered w -> dispatch ev w = Ok w' -> rendered w'.
Proof.
  intros Hw Hd.
  unfold dispatch, bind in Hd.
  destruct (handle ev w) as [w1 |] eqn:Hev; [ | discriminate ].
  injection Hd as <-.
  exact (rendered_commit w w1 Hw (handle_image_clip ev w w1 Hev)).
Qed.

Lemma rendered_advanceTo (t : Z) (w : World) : rendered w -> rendered (advanceTo t w).
Proof.
  unfold rendered.
  destruct (advanceTo_overlay t w) as (-> & _ & -> & _ & _ & -> & _); auto.
Qed.

Lemma rendered_reachable (w : World) : reachable w -> rendered w.
Proof.
  induction 1 as [m t | w t ev w' _ IH Hstep].
  - unfold rendered, mount.
    match goal with |- context [fetchBuildingData ?v] =>
      destruct (fetchBuildingData_overlay v) as (-> & _ & _ & _ & _ & -> & _) end.
    exact I.
  - exact (rendered_dispatch ev _ _ (rendered_advanceTo t w IH) Hstep).
Qed.

(** What the listeners of ["move"] and ["zoom"] leave in the hooks
    before the render. *)
Lemma viewport_handler (w : World) (fm : FloorMapState) (layer : Layer)
    (m : LeafletMap) (ev : Event) :
  floorMap (state w) = Some fm ->
  masked fm = true ->
  selectedBuildingRef (state w) = Some layer ->
  ev = MapMove m \/ ev = MapZoom m ->
  exists w1,
    handle ev w = Ok w1 /\
    clipPath (state w1) = polygonOf m (layer_getLatLngs0 layer) /\
    leaflet w1 = m /\
    floorMap (state w1) = Some fm /\
    selectedBuildingRef (state w1) = Some layer.
Proof.
  intros Hfm Hon Hsel [-> | ->]; simpl; eexists; (split; [ reflexivity | ]).
  - destruct (overlayMove_frame (with_leaflet m w)) as (Hs & Hl & _).
    destruct (updateClipPath_frame (floorMap (state w)) (overlayMove (with_leaflet m w)))
      as (-> & -> & _ & _ & -> & _).
    rewrite Hfm, updateClipPath_masked with (layer := layer);
      rewrite ?Hs, ?Hl; auto.
  - destruct (updateClipPath_frame (floorMap (state w)) (with_leaflet m w))
      as (-> & -> & _ & _ & -> & _).
    rewrite Hfm, updateClipPath_masked with (layer := layer); auto.
Qed.

(** C6.  While the mask is on and a footprint is selected, a
    ["move"] or ["zoom"] of the map to the view [m] leaves the clip
    path equal to the silhouette of the selected footprint under [m]:
    the CSS polygon of the ring's vertices, each taken through the
    projection of [m], in the ring's order and as many as the ring has;
    the overlay and the selection are as before, so the same holds after
    the next such event.  If the image element showed the hooks before,
    it shows this silhouette now. *)
Theorem clip_follows_viewport :
  forall (w : World) (fm : FloorMapState) (layer : Layer) (m : LeafletMap),
    floorMap (state w) = Some fm ->
    masked fm = true ->
    selectedBuildingRef (state w) = Some layer ->
    forall ev : Event, ev = MapMove m \/ ev = MapZoom m ->
    exists w',
      dispatch ev w = Ok w' /\
      clipPath (state w')
        = cssPolygon (projectedRing latLngToContainerPoint m (layer_getLatLngs0 layer)) /\
      length (projectedRing latLngToContainerPoint m (layer_getLatLngs0 layer))
        = length (layer_getLatLngs0 layer) /\
      polygonVertexCount (clipPath (state w')) = length (layer_getLatLngs0 layer) /\
      clipSynced m fm layer w w'.
Proof.
  intros w fm layer m Hfm Hon Hsel ev Hev.
  destruct (viewport_handler w fm layer m ev Hfm Hon Hsel Hev)
    as (w1 & Hh & Hclip1 & Hm1 & Hfm1 & Hsel1).
  assert (Hd : dispatch ev w = Ok (commit w w1))
    by (unfold dispatch, bind; rewrite Hh; reflexivity).
  exists (commit w w1); split; [ exact Hd | ].
  destruct (commit_frame w w1) as (Hs & Hl & _).
  assert (Hclip : clipPath (state (commit w w1))
                  = polygonOf m (layer_getLatLngs0 layer))
    by (rewrite Hs; exact Hclip1).
  split; [ rewrite Hclip; apply polygonOf_spec | ].
  split; [ apply length_map | ].
  split; [ rewrite Hclip; apply polygonVertexCount_polygonOf | ].
  unfold clipSynced.
  split; [ rewrite Hl; exact Hm1 | ].
  split; [ rewrite Hs; exact Hfm1 | ].
  split; [ rewrite Hs; exact Hsel1 | ].
  intros Hr.
  pose proof (rendered_dispatch ev w _ Hr Hd) as Hr'.
  split; [ exact Hr' | ].
  unfold rendered in Hr'; rewrite Hs, Hfm1 in Hr'.
  destruct (image (commit w w1)) as [e |]; [ | contradiction ].
  exists e; split; [ reflexivity | ].
  rewrite Hs; apply Hr'.
  rewrite Hclip1; intros Hempty.
  pose proof (polygonOf_not_empty m (layer_getLatLngs0 layer)) as Hne.
  rewrite Hempty in Hne; discriminate Hne.
Qed.

(** *** The footprint fetch (C5, C9) *)

(** What a call of [fetchBuildingData] does, by the zoom of the map. *)
Lemma fetchBuildingData_effect (w : World) :
  fetchCalls (fetchBuildingData w) = (now w, leaflet w) :: fetchCalls w /\
  debounced (fetchBuildingData w) = debounced w /\
  now (fetchBuildingData w) = now w /\
  leaflet (fetchBuildingData w) = leaflet w /\
  console (fetchBuildingData w) = console w /\
  (15 <= map_getZoom (leaflet w) ->
   posted (fetchBuildingData w) = overpassRequest (leaflet w) :: posted w /\
   state (fetchBuildingData w) = state w) /\
  (map_getZoom (leaflet w) < 15 ->
   posted (fetchBuildingData w) = posted w /\
   state (fetchBuildingData w) = setGeojsonData None (state w)).
Proof.
  unfold fetchBuildingData; cbn [leaflet note_fetchCall].
  destruct (Qlt_le_dec (map_getZoom (leaflet w)) 15) as [Hlt | Hge];
    cbn; repeat split; intros; try reflexivity; exfalso; lra.
Qed.

(** C5.  [fetchBuildingData] at zoom 15 or more posts one request to
    the Overpass endpoint, whose query has the building filter
    residential|commercial|office|retail, the timeout, and the map's
    bounds as (south,west,north,east), and leaves the footprints as
    they are; below zoom 15 it posts nothing and clears the
    footprints. *)
Theorem fetch_zoom_gate :
  forall w : World,
    (15 <= map_getZoom (leaflet w) ->
     posted (fetchBuildingData w) = overpassRequest (leaflet w) :: posted w /\
     geojsonData (state (fetchBuildingData w)) = geojsonData (state w)) /\
    (map_getZoom (leaflet w) < 15 ->
     posted (fetchBuildingData w) = posted w /\
     geojsonData (state (fetchBuildingData w)) = None) /\
    req_url (overpassRequest (leaflet w)) = "https://overpass-api.de/api/interpreter" /\
    req_data (overpassRequest (leaflet w)) =
      "data=" ++
      encodeURIComponent
        (queryHead
         ++ ("(" ++ numberToString (getSouth (map_getBounds (leaflet w)))
             ++ "," ++ numberToString (getWest (map_getBounds (leaflet w)))
             ++ "," ++ numberToString (getNorth (map_getBounds (leaflet w)))
             ++ "," ++ numberToString (getEast (map_getBounds (leaflet w)))
             ++ ")")
         ++ queryTail) /\
    includes "residential|commercial|office|retail" queryHead = true /\
    includes "[timeout:25]" queryHead = true.
Proof.
  intros w.
  destruct (fetchBuildingData_effect w) as (_ & _ & _ & _ & _ & Hge & Hlt).
  split; [ intros H; destruct (Hge H) as (-> & ->); split; reflexivity | ].
  split; [ intros H; destruct (Hlt H) as (-> & ->); split; reflexivity | ].
  repeat split; reflexivity.
Qed.

(** C9.  When the fetch fails, the event is handled without an
    exception, one line is written with [console.error], and the hooks
    (the footprints among them) are what they were.  However a fetch
    settles, it never clears footprints that were displayed; the call
    itself clears them only below zoom 15. *)
Theorem fetch_failure_keeps_footprints :
  forall (w : World) (outcome : AxiosOutcome),
    fetchFailed outcome ->
    (exists w' line,
       dispatch (FetchSettled outcome) w = Ok w' /\
       state w' = state w /\
       console w' = line :: console w /\
       starts_with "Error fetching building data:" line = true) /\
    (forall (settled : AxiosOutcome) (w' : World),
       dispatch (FetchSettled settled) w = Ok w' ->
       geojsonData (state w') = None -> geojsonData (state w) = None) /\
    (forall settled : AxiosOutcome,
       exists w', dispatch (FetchSettled settled) w = Ok w') /\
    (geojsonData (state (fetchBuildingData w)) = None ->
     geojsonData (state w) = None \/ map_getZoom (leaflet w) < 15).
Proof.
  intros w outcome Hfail.
  assert (Hresume : forall settled,
            fetchBuildingData_resume settled w
            = match settled with
              | Rejected error =>
                  Ok (console_error ("Error fetching building data: " ++ error) w)
              | Fulfilled data =>
                  match osmtogeojson data with
                  | Ok geoJson => Ok (with_state (setGeojsonData (Some geoJson)) w)
                  | Throw error =>
                      Ok (console_error ("Error fetching building data: " ++ error) w)
                  end
              end).
  { intros [error | data]; unfold fetchBuildingData_resume, try_catch, bind;
      [ reflexivity | destruct (osmtogeojson data); reflexivity ]. }
  repeat split.
  - unfold dispatch, bind; cbn [handle]; rewrite Hresume.
    destruct outcome as [error | data].
    + eexists; eexists; split; [ reflexivity | ].
      destruct (commit_frame w (console_error ("Error fetching building data: " ++ error) w))
        as (-> & _ & _ & _ & -> & _).
      repeat split; reflexivity.
    + destruct Hfail as (error & ->).
      eexists; eexists; split; [ reflexivity | ].
      destruct (commit_frame w (console_error ("Error fetching building data: " ++ error) w))
        as (-> & _ & _ & _ & -> & _).
      repeat split; reflexivity.
  - intros settled w' Hd Hnone.
    unfold dispatch, bind in Hd; cbn [handle] in Hd; rewrite Hresume in Hd.
    destruct settled as [error | data];
      [ | destruct (osmtogeojson data) ];
      injection Hd as <-; rewrite state_commit in Hnone;
      first [ exact Hnone | discriminate Hnone ].
  - intros settled.
    unfold dispatch, bind; cbn [handle]; rewrite Hresume.
    destruct settled as [error | data];
      [ | destruct (osmtogeojson data) ]; eexists; reflexivity.
  - intros Hnone.
    destruct (fetchBuildingData_effect w) as (_ & _ & _ & _ & _ & Hge & _).
    destruct (Qlt_le_dec (map_getZoom (leaflet w)) 15) as [Hlt | Hle];
      [ right; exact Hlt | left ].
    destruct (Hge Hle) as (_ & Hs); rewrite Hs in Hnone; exact Hnone.
Qed.

(** *** The debounced fetch (C4) *)

Lemma runTimer_idle (t : Z) (w : World) :
  timerId (debounced w) = None -> runTimer t w = w.
Proof. intros H; unfold runTimer; rewrite H; reflexivity. Qed.

Lemma runTimer_early (t due : Z) (w : World) :
  timerId (debounced w) = Some due -> (t < due)%Z -> runTimer t w = w.
Proof.
  intros H Ht; unfold runTimer; rewrite H.
  destruct (Z.leb_spec due t); [ lia | reflexivity ].
Qed.

(** The timer expires before the last call is [wait] old: it re-arms
    itself for the remainder. *)
Lemma runTimer_rearm (t due l : Z) (m : LeafletMap) (w0 w : World) :
  armed due l m w0 w -> (due <= t)%Z -> (due < l + wait)%Z ->
  armed (l + wait) l m w0 (runTimer t w) /\ now (runTimer t w) = due.
Proof.
  intros (Ht & Hl & Ha & Hln & Hnd & Hdl & Hm & Hf & Hp) Hdue Hlt.
  unfold runTimer; rewrite Ht.
  destruct (Z.leb_spec due t); [ | lia ].
  rewrite Z.max_l by lia.
  unfold timerExpired, shouldInvoke, remainingWait; cbn [debounced now with_now].
  rewrite Hl.
  destruct (Z.leb_spec wait (due - l)); [ lia | ].
  destruct (Z.ltb_spec (due - l) 0); [ lia | ].
  cbn [orb]; unfold armed; fields.
  rewrite Ha.
  repeat split; try assumption; try lia.
  f_equal; lia.
Qed.

(** The timer expires when the last call is [wait] old: the trailing
    edge calls [fetchBuildingData]. *)
Lemma runTimer_fire (t due l : Z) (m : LeafletMap) (w0 w : World) :
  armed due l m w0 w -> (due <= t)%Z -> due = (l + wait)%Z ->
  runTimer t w
  = fetchBuildingData
      (with_debounced {| lastCallTime := Some l; lastArgs := false; timerId := None |}
         (with_now due w)).
Proof.
  intros (Ht & Hl & Ha & Hln & Hnd & Hdl & Hm & Hf & Hp) Hdue Heq.
  unfold runTimer; rewrite Ht.
  destruct (Z.leb_spec due t); [ | lia ].
  rewrite Z.max_l by lia.
  unfold timerExpired, shouldInvoke, trailingEdge; cbn [debounced now with_now].
  rewrite Hl, Ha.
  destruct (Z.leb_spec wait (due - l)); [ | lia ].
  reflexivity.
Qed.

(** Without a timer due, the clock just moves on. *)
Lemma advanceTo_quiet_world (t : Z) (w : World) :
  (timerId (debounced w) = None \/
   exists due, timerId (debounced w) = Some due /\ (t < due)%Z) ->
  advanceTo t w = with_now (Z.max t (now w)) w.
Proof.
  intros [Hidle | (due & Hdue & Ht)]; unfold advanceTo.
  - rewrite (runTimer_idle t w Hidle), (runTimer_idle t w Hidle); reflexivity.
  - rewrite (runTimer_early t due w Hdue Ht), (runTimer_early t due w Hdue Ht);
      reflexivity.
Qed.

(** A viewport change touches neither the timer nor the fetches. *)
Lemma dispatch_MapMove (m : LeafletMap) (w : World) :
  exists w',
    dispatch (MapMove m) w = Ok w' /\
    leaflet w' = m /\ debounced w' = debounced w /\ now w' = now w /\
    fetchCalls w' = fetchCalls w /\ posted w' = posted w.
Proof.
  unfold dispatch, bind; cbn [handle].
  eexists; split; [ reflexivity | ].
  match goal with |- context [commit w ?v] =>
    destruct (commit_frame w v) as (_ & -> & _ & -> & _ & -> & -> & ->) end.
  match goal with |- context [updateClipPath ?r ?v] =>
    destruct (updateClipPath_frame r v)
      as (_ & _ & _ & _ & -> & _ & _ & -> & -> & -> & ->) end.
  destruct (overlayMove_frame (with_leaflet m w)) as (_ & -> & _ & -> & -> & -> & ->).
  repeat split; reflexivity.
Qed.

(** ["moveend"] calls the debounced function: it notes the time of the
    call and starts the timer unless one is pending. *)
Lemma dispatch_MapMoveEnd (w : World) :
  exists w',
    dispatch MapMoveEnd w = Ok w' /\
    leaflet w' = leaflet w /\ now w' = now w /\
    fetchCalls w' = fetchCalls w /\ posted w' = posted w /\
    lastCallTime (debounced w') = Some (now w) /\
    lastArgs (debounced w') = true /\
    timerId (debounced w') =
      match timerId (debounced w) with
      | None => Some (now w + wait)%Z
      | Some due => Some due
      end.
Proof.
  unfold dispatch, bind; cbn [handle].
  eexists; split; [ reflexivity | ].
  match goal with |- context [commit w ?v] =>
    destruct (commit_frame w v) as (_ & -> & _ & -> & _ & -> & -> & ->) end.
  unfold debouncedFetchBuildingData.
  destruct (timerId (debounced w)); [ | destruct (shouldInvoke _ _) ];
    repeat split; reflexivity.
Qed.

(** One viewport change at time [t], no timer being due by then. *)
Lemma viewportChange_run (t : Z) (m : LeafletMap) (w : World) :
  (timerId (debounced w) = None \/
   exists due, timerId (debounced w) = Some due /\ (t < due)%Z) ->
  (now w <= t)%Z ->
  exists w',
    run (viewportChange (t, m)) w = Ok w' /\
    leaflet w' = m /\ now w' = t /\
    fetchCalls w' = fetchCalls w /\ posted w' = posted w /\
    lastCallTime (debounced w') = Some t /\
    lastArgs (debounced w') = true /\
    timerId (debounced w') =
      match timerId (debounced w) with
      | None => Some (t + wait)%Z
      | Some due => Some due
      end.
Proof.
  intros Hquiet Hnow.
  unfold viewportChange; cbn [fst snd run].
  rewrite (advanceTo_quiet_world t w Hquiet), Z.max_l by exact Hnow.
  destruct (dispatch_MapMove m (with_now t w))
    as (w1 & -> & Hl1 & Hd1 & Hn1 & Hf1 & Hp1).
  cbn [bind]; fields_in Hd1; fields_in Hn1; fields_in Hf1; fields_in Hp1.
  rewrite (advanceTo_quiet_world t w1), Hn1, Z.max_id
    by (rewrite Hd1; exact Hquiet).
  destruct (dispatch_MapMoveEnd (with_now t w1))
    as (w2 & -> & Hl2 & Hn2 & Hf2 & Hp2 & Hc2 & Ha2 & Ht2).
  cbn [bind]; fields_in Hl2; fields_in Hn2; fields_in Hf2; fields_in Hp2;
    fields_in Hc2; fields_in Ha2; fields_in Ht2.
  exists w2; split; [ reflexivity | ].
  rewrite Hl2, Hn2, Hf2, Hp2, Hc2, Ha2, Ht2, Hl1, Hf1, Hp1, Hd1.
  repeat split; reflexivity.
Qed.

(** The last element of a list that has one. *)
Lemma last_default {A : Type} (d d' c : A) (l : list A) :
  last (c :: l) d = last (c :: l) d'.
Proof.
  revert c; induction l as [| a l IH]; intros c; [ reflexivity | ].
  change (last (c :: a :: l) d) with (last (a :: l) d).
  change (last (c :: a :: l) d') with (last (a :: l) d').
  apply IH.
Qed.

(** The rest of a burst: every change comes before the timer is due,
    so each only moves the time of the last call. *)
Lemma burst_run (rest : list (Z * LeafletMap)) :
  forall (due l : Z) (m : LeafletMap) (w0 w : World),
    armed due l m w0 w ->
    burstWithin (now w) due rest ->
    exists w',
      run (burstTrace rest) w = Ok w' /\
      armed due (fst (last rest (l, m))) (snd (last rest (l, m))) w0 w'.
Proof.
  induction rest as [| [t m'] rest IH]; intros due l m w0 w Harmed Hburst.
  - exists w; split; [ reflexivity | exact Harmed ].
  - destruct Harmed as (Ht & Hl & Ha & Hln & Hnd & Hdl & Hm & Hf & Hp).
    destruct Hburst as ((Hfrom & Huntil) & Hrest); cbn [fst] in *.
    destruct (viewportChange_run t m' w) as
      (w1 & Hrun & Hl1 & Hn1 & Hf1 & Hp1 & Hc1 & Ha1 & Ht1);
      [ right; exists due; split; assumption | exact Hfrom | ].
    rewrite Ht in Ht1.
    assert (Harmed1 : armed due t m' w0 w1).
    { unfold armed; rewrite Hn1, Hf1, Hp1.
      repeat split; try assumption; lia. }
    rewrite <- Hn1 in Hrest.
    destruct (IH due t m' w0 w1 Harmed1 Hrest) as (w' & Hrun' & Harmed').
    exists w'; split.
    + change (burstTrace ((t, m') :: rest))
        with (viewportChange (t, m') ++ burstTrace rest)%list.
      rewrite run_app, Hrun; exact Hrun'.
    + destruct rest as [| c rest']; [ exact Harmed' | ].
      change (last ((t, m') :: c :: rest') (l, m)) with (last (c :: rest') (l, m)).
      rewrite (last_default (l, m) (t, m') c rest'); exact Harmed'.
Qed.

(** Once the changes have stopped: nothing is fetched before the last
    change is [wait] old; then [fetchBuildingData] runs once, on the map
    as the last change left it, and no timer stays behind. *)
Lemma armed_settles (due l : Z) (m : LeafletMap) (w0 w : World) (t : Z) :
  armed due l m w0 w ->
  ((t < l + wait)%Z ->
   fetchCalls (advanceTo t w) = fetchCalls w0 /\
   posted (advanceTo t w) = posted w0) /\
  ((l + wait <= t)%Z ->
   fetchCalls (advanceTo t w) = ((l + wait)%Z, m) :: fetchCalls w0 /\
   timerId (debounced (advanceTo t w)) = None /\
   (15 <= map_getZoom m ->
    posted (advanceTo t w) = overpassRequest m :: posted w0) /\
   (map_getZoom m < 15 ->
    posted (advanceTo t w) = posted w0 /\
    geojsonData (state (advanceTo t w)) = None)).
Proof.
  intros Harmed.
  assert (Hfire : forall due' v, armed due' l m w0 v -> due' = (l + wait)%Z ->
            (due' <= t)%Z ->
            fetchCalls (runTimer t v) = ((l + wait)%Z, m) :: fetchCalls w0 /\
            timerId (debounced (runTimer t v)) = None /\
            (15 <= map_getZoom m -> posted (runTimer t v) = overpassRequest m :: posted w0) /\
            (map_getZoom m < 15 ->
             posted (runTimer t v) = posted w0 /\
             geojsonData (state (runTimer t v)) = None)).
  { intros due' v Hv Heq Hle.
    rewrite (runTimer_fire t due' l m w0 v Hv Hle Heq).
    destruct Hv as (_ & _ & _ & _ & _ & _ & Hm & Hf & Hp).
    set (x := with_debounced _ _).
    assert (Hx : leaflet x = m /\ fetchCalls x = fetchCalls w0 /\
                 posted x = posted w0 /\ now x = (l + wait)%Z /\
                 timerId (debounced x) = None /\ geojsonData (state x) = geojsonData (state v))
      by (subst x; fields; repeat split; assumption).
    destruct Hx as (Hxm & Hxf & Hxp & Hxn & Hxt & _).
    destruct (fetchBuildingData_effect x) as (Hfc & Hdb & _ & _ & _ & Hge & Hlt).
    rewrite Hfc, Hdb, Hxm, Hxf, Hxn, Hxt.
    rewrite Hxm in Hge, Hlt.
    split; [ reflexivity | ].
    split; [ reflexivity | ].
    split; intros Hz.
    - destruct (Hge Hz) as (Hpost & _); rewrite Hpost, Hxp; reflexivity.
    - destruct (Hlt Hz) as (Hpost & Hstate); rewrite Hpost, Hstate, Hxp.
      split; reflexivity. }
  pose proof Harmed as (Ht & Hl & Ha & Hln & Hnd & Hdl & Hm & Hf & Hp).
  unfold advanceTo; fields.
  destruct (Z.lt_ge_cases t due) as [Hearly | Hdue].
  - (* the timer is not due yet *)
    rewrite (runTimer_early t due w Ht Hearly), (runTimer_early t due w Ht Hearly).
    split; [ intros _; split; assumption | intros; lia ].
  - destruct (Z.eq_dec due (l + wait)) as [Heq | Hne].
    + (* due exactly [wait] after the last call *)
      destruct (Hfire due w Harmed Heq Hdue) as (Hf1 & Ht1 & Hge1 & Hlt1).
      rewrite (runTimer_idle t (runTimer t w) Ht1).
      split; [ intros; lia | intros _ ].
      split; [ exact Hf1 | ].
      split; [ exact Ht1 | ].
      split; [ exact Hge1 | exact Hlt1 ].
    + (* due earlier: the timer re-arms itself *)
      destruct (runTimer_rearm t due l m w0 w Harmed Hdue) as (Harmed1 & Hn1);
        [ lia | ].
      pose proof Harmed1 as (Ht1 & _ & _ & _ & _ & _ & _ & Hf1 & Hp1).
      split.
      * intros Hbefore.
        rewrite (runTimer_early t (l + wait) _ Ht1 Hbefore).
        split; assumption.
      * intros Hafter.
        destruct (Hfire (l + wait)%Z (runTimer t w) Harmed1 eq_refl Hafter)
          as (Hf2 & Ht2 & Hge2 & Hlt2).
        split; [ exact Hf2 | ].
        split; [ exact Ht2 | ].
        split; [ exact Hge2 | exact Hlt2 ].
Qed.

(** C4, as the code has it.  Let no debounced call be pending, and let
    viewport changes come at non-decreasing times, the first at
    [fst c] and all less than [wait] = 500 ms after it.  Then nothing
    is fetched during the burst nor until 500 ms after its last change;
    at that moment [fetchBuildingData] runs, once, on the map as the
    last change left it, and no timer stays behind.  That one run posts
    one request (for the last view's bounds) if the zoom is 15 or more,
    and none, clearing the footprints, if it is less.  The same holds
    for the one call of [fetchBuildingData] when the component
    mounts. *)
Theorem debounced_burst_fetches_once :
  forall (w : World) (c : Z * LeafletMap) (rest : list (Z * LeafletMap)),
    timerId (debounced w) = None ->
    (now w <= fst c)%Z ->
    burstWithin (fst c) (fst c + wait) rest ->
    (exists w1,
       run (burstTrace (c :: rest)) w = Ok w1 /\
       fetchCalls w1 = fetchCalls w /\ posted w1 = posted w /\
       (forall t : Z, (t < fst (last rest c) + wait)%Z ->
          fetchCalls (advanceTo t w1) = fetchCalls w /\
          posted (advanceTo t w1) = posted w) /\
       (forall t : Z, (fst (last rest c) + wait <= t)%Z ->
          fetchCalls (advanceTo t w1)
            = ((fst (last rest c) + wait)%Z, snd (last rest c)) :: fetchCalls w /\
          timerId (debounced (advanceTo t w1)) = None /\
          (15 <= map_getZoom (snd (last rest c)) ->
           posted (advanceTo t w1) = overpassRequest (snd (last rest c)) :: posted w) /\
          (map_getZoom (snd (last rest c)) < 15 ->
           posted (advanceTo t w1) = posted w /\
           geojsonData (state (advanceTo t w1)) = None))) /\
    (forall (m : LeafletMap) (t0 : Z),
       fetchCalls (mount m t0) = [(t0, m)] /\
       timerId (debounced (mount m t0)) = None /\
       (15 <= map_getZoom m -> posted (mount m t0) = [overpassRequest m]) /\
       (map_getZoom m < 15 -> posted (mount m t0) = [])).
Proof.
  intros w [t1 m1] rest Hidle Hnow Hburst; cbn [fst] in *.
  split.
  - destruct (viewportChange_run t1 m1 w (or_introl Hidle) Hnow)
      as (wa & Hrun & Hl & Hn & Hf & Hp & Hc & Ha & Ht).
    rewrite Hidle in Ht.
    assert (Harmed : armed (t1 + wait) t1 m1 w wa).
    { unfold armed; rewrite Hn. repeat split; try assumption; unfold wait; lia. }
    rewrite <- Hn in Hburst at 1.
    destruct (burst_run rest (t1 + wait)%Z t1 m1 w wa Harmed Hburst)
      as (w1 & Hrun1 & Harmed1).
    exists w1; split.
    { change (burstTrace ((t1, m1) :: rest))
        with (viewportChange (t1, m1) ++ burstTrace rest)%list.
      rewrite run_app, Hrun; exact Hrun1. }
    pose proof Harmed1 as (_ & _ & _ & _ & _ & _ & _ & Hf1 & Hp1).
    split; [ exact Hf1 | ].
    split; [ exact Hp1 | ].
    split; intros t Ht'.
    + exact (proj1 (armed_settles _ _ _ _ _ t Harmed1) Ht').
    + exact (proj2 (armed_settles _ _ _ _ _ t Harmed1) Ht').
  - intros m t0; unfold mount.
    match goal with |- context [fetchBuildingData ?x] =>
      destruct (fetchBuildingData_effect x) as (-> & -> & _ & _ & _ & Hge & Hlt) end.
    split; [ reflexivity | ].
    split; [ reflexivity | ].
    split; intros Hz; [ apply (Hge Hz) | apply (Hlt Hz) ].
Qed.

(** *** Two rounds of the timer are enough *)

Lemma trailingEdge_timer (w : World) : timerId (debounced (trailingEdge w)) = None.
Proof.
  unfold trailingEdge.
  destruct (lastArgs (debounced w)); [ | reflexivity ].
  match goal with |- context [fetchBuildingData ?x] =>
    destruct (fetchBuildingData_effect x) as (_ & -> & _) end.
  reflexivity.
Qed.

(** After [advanceTo t], no timer is due by [t]. *)
Lemma advanceTo_quiet (t : Z) (w : World) :
  timerId (debounced (advanceTo t w)) = None \/
  exists due, timerId (debounced (advanceTo t w)) = Some due /\ (t < due)%Z.
Proof.
  unfold advanceTo; fields.
  assert (Hround : forall v,
            timerId (debounced (runTimer t v)) = None \/
            (exists due, timerId (debounced (runTimer t v)) = Some due /\ (t < due)%Z) \/
            (exists l, timerId (debounced (runTimer t v)) = Some (l + wait)%Z /\
                       lastCallTime (debounced (runTimer t v)) = Some l /\
                       (now (runTimer t v) < l + wait)%Z)).
  { intros v; unfold runTimer.
    destruct (timerId (debounced v)) as [due |] eqn:Hdue; [ | left; exact Hdue ].
    destruct (Z.leb_spec due t) as [Hle | Hgt];
      [ | right; left; exists due; split; [ exact Hdue | exact Hgt ] ].
    unfold timerExpired, shouldInvoke, remainingWait; fields.
    destruct (lastCallTime (debounced v)) as [l |] eqn:Hl.
    - destruct (Z.leb_spec wait (Z.max due (now v) - l));
        [ left; apply trailingEdge_timer | ].
      destruct (Z.ltb_spec (Z.max due (now v) - l) 0);
        [ left; apply trailingEdge_timer | ].
      cbn [orb]; fields.
      right; right; exists l.
      split; [ f_equal; lia | ].
      split; [ reflexivity | lia ].
    - left; apply trailingEdge_timer. }
  destruct (Hround w) as [Hnone | [Hlate | (l & Ht & Hl & Hn)]].
  - left; rewrite runTimer_idle; exact Hnone.
  - right; destruct Hlate as (due & Hdue & Hgt).
    exists due; rewrite (runTimer_early t due _ Hdue Hgt); split; assumption.
  - destruct (Z.lt_ge_cases t (l + wait)) as [Hearly | Hdue].
    + right; exists (l + wait)%Z.
      rewrite (runTimer_early t (l + wait) _ Ht Hearly); split; assumption.
    + left; unfold runTimer at 1; rewrite Ht.
      destruct (Z.leb_spec (l + wait) t); [ | lia ].
      unfold timerExpired, shouldInvoke; fields; rewrite Hl.
      rewrite Z.max_l by lia.
      destruct (Z.leb_spec wait (l + wait - l)); [ | lia ].
      cbn [orb]; apply trailingEdge_timer.
Qed.

(** *** The image's URL (C3) *)

Lemma updateClipPath_created (rendered : option FloorMapState) (w : World) :
  created (updateClipPath rendered w) = created w.
Proof.
  unfold updateClipPath.
  destruct (selectedBuildingRef (state w)); [ destruct (floorMap_masked rendered) | ];
    reflexivity.
Qed.

Lemma overlayMove_created (w : World) : created (overlayMove w) = created w.
Proof.
  unfold overlayMove.
  destruct (image w); [ destruct (floorMap (state w)) | ]; reflexivity.
Qed.

(** What a handler does to the URLs: it creates at most one, which is
    then the overlay's, and revokes at most the overlay's. *)
Lemma handle_urls (ev : Event) (w w1 : World) :
  handle ev w = Ok w1 ->
  (created w <= created w1)%nat /\
  (forall u, In u (revoked w1) ->
     In u (revoked w) \/ exists fm, floorMap (state w) = Some fm /\ u = url fm) /\
  (forall fm1, floorMap (state w1) = Some fm1 ->
     (exists fm, floorMap (state w) = Some fm /\ url fm1 = url fm) \/
     (url fm1 = created w /\ created w1 = S (created w))).
Proof.
  intros Hev.
  assert (Hsame : forall v, created v = created w -> revoked v = revoked w ->
                  (forall fm1, floorMap (state v) = Some fm1 ->
                     exists fm, floorMap (state w) = Some fm /\ url fm1 = url fm) ->
                  (created w <= created v)%nat /\
                  (forall u, In u (revoked v) ->
                     In u (revoked w) \/
                     exists fm, floorMap (state w) = Some fm /\ u = url fm) /\
                  (forall fm1, floorMap (state v) = Some fm1 ->
                     (exists fm, floorMap (state w) = Some fm /\ url fm1 = url fm) \/
                     (url fm1 = created w /\ created v = S (created w)))).
  { intros v Hc Hr Hf; rewrite Hc, Hr.
    split; [ lia | ]. split; [ intros u Hu; left; exact Hu | ].
    intros fm1 H1; left; exact (Hf fm1 H1). }
  assert (Hkeep : forall v, floorMap (state v) = floorMap (state w) ->
                  forall fm1, floorMap (state v) = Some fm1 ->
                    exists fm, floorMap (state w) = Some fm /\ url fm1 = url fm).
  { intros v Heq fm1 H1; exists fm1; rewrite <- Heq; split; [ exact H1 | reflexivity ]. }
  destruct ev; simpl in Hev.
  - (* BuildingClick *)
    injection Hev as <-; apply Hsame; try reflexivity; apply Hkeep; first [ reflexivity | assumption ].
  - (* FileChosen *)
    injection Hev as <-; unfold handleFileUpload.
    destruct file;
      [ | apply Hsame; try reflexivity; apply Hkeep; first [ reflexivity | assumption ] ].
    destruct (selectedBuildingRef (state w));
      [ | apply Hsame; try reflexivity; apply Hkeep; first [ reflexivity | assumption ] ].
    fields; cbn [createObjectURL].
    split; [ fields; lia | ].
    split; [ intros u Hu; left; exact Hu | ].
    intros fm1 H1; right; fields_in H1. injection H1 as <-.
    split; reflexivity.
  - (* ScaleInput *)
    unfold handleScaleChange, scaleUpdater in Hev.
    destruct (floorMap (state w)) as [fm |] eqn:Hfm.
    + destruct (selectedBuildingRef (state w)); simpl in Hev; [ | discriminate ].
      injection Hev as <-; apply Hsame; try reflexivity.
      intros fm1 H1; fields_in H1; injection H1 as <-.
      exists fm; split; reflexivity.
    + injection Hev as <-; apply Hsame; try reflexivity; apply Hkeep; first [ reflexivity | assumption ].
  - (* RotationInput *)
    injection Hev as <-; unfold handleRotationChange.
    destruct (floorMap (state w)) as [fm |] eqn:Hfm.
    + apply Hsame; try reflexivity.
      intros fm1 H1; fields_in H1; rewrite Hfm in H1; injection H1 as <-.
      exists fm; split; reflexivity.
    + apply Hsame; try reflexivity; apply Hkeep; first [ reflexivity | assumption ].
  - (* OpacityInput *)
    injection Hev as <-; apply Hsame; try reflexivity; apply Hkeep; first [ reflexivity | assumption ].
  - (* MaskClick *)
    injection Hev as <-; unfold toggleMask.
    destruct (floorMap (state w)) as [fm |] eqn:Hfm.
    + assert (Hw1 : forall v, created v = created w -> revoked v = revoked w ->
                created (with_state
                           (setFloorMap
                              (Some {| url := url fm; bounds := bounds fm;
                                       scale := scale fm; rotation := rotation fm;
                                       masked := negb (masked fm) |})) v) = created w /\
                revoked (with_state
                           (setFloorMap
                              (Some {| url := url fm; bounds := bounds fm;
                                       scale := scale fm; rotation := rotation fm;
                                       masked := negb (masked fm) |})) v) = revoked w)
        by (intros v Hc Hr; fields; split; assumption).
      destruct (negb (masked fm)) eqn:Hneg.
      * destruct (Hw1 (updateClipPath (Some fm) w)) as (Hc & Hr).
        { apply updateClipPath_created. }
        { destruct (updateClipPath_frame (Some fm) w)
            as (_ & _ & _ & _ & _ & _ & Hrv & _); exact Hrv. }
        apply Hsame; [ exact Hc | exact Hr | ].
        intros fm1 H1; fields_in H1; injection H1 as <-.
        exists fm; split; reflexivity.
      * apply Hsame; try reflexivity.
        intros fm1 H1; fields_in H1; injection H1 as <-.
        exists fm; split; reflexivity.
    + apply Hsame; try reflexivity.
      intros fm1 H1; fields_in H1; discriminate H1.
  - (* RemoveClick *)
    injection Hev as <-; unfold removeFloorMap.
    destruct (floorMap (state w)) as [fm |] eqn:Hfm; cbn [floorMap_url option_map].
    + fields. split; [ lia | ].
      split; [ | intros fm1 H1; discriminate H1 ].
      intros u [<- | Hu]; [ right; exists fm; split; reflexivity | left; exact Hu ].
    + apply Hsame; try reflexivity.
      intros fm1 H1; fields_in H1; discriminate H1.
  - (* MapMove *)
    injection Hev as <-.
    destruct (updateClipPath_frame (floorMap (state w)) (overlayMove (with_leaflet m w)))
      as (Hf & _ & _ & _ & _ & _ & Hr & _).
    destruct (overlayMove_frame (with_leaflet m w)) as (Hs & _ & Hr' & _).
    apply Hsame.
    + rewrite updateClipPath_created, overlayMove_created; reflexivity.
    + rewrite Hr, Hr'; reflexivity.
    + apply Hkeep; rewrite Hf, Hs; reflexivity.
  - (* MapZoom *)
    injection Hev as <-.
    destruct (updateClipPath_frame (floorMap (state w)) (with_leaflet m w))
      as (Hf & _ & _ & _ & _ & _ & Hr & _).
    apply Hsame.
    + rewrite updateClipPath_created; reflexivity.
    + rewrite Hr; reflexivity.
    + apply Hkeep; rewrite Hf; reflexivity.
  - (* MapMoveEnd *)
    injection Hev as <-; unfold debouncedFetchBuildingData.
    destruct (timerId (debounced w)); [ | destruct (shouldInvoke _ _) ];
      apply Hsame; try reflexivity; apply Hkeep; first [ reflexivity | assumption ].
  - (* FetchSettled *)
    unfold fetchBuildingData_resume, try_catch, bind in Hev.
    destruct outcome; [ | destruct (osmtogeojson data) ]; injection Hev as <-;
      apply Hsame; try reflexivity; apply Hkeep; first [ reflexivity | assumption ].
Qed.

Lemma revoked_urlCleanup (w w1 : World) (u : ObjectURL) :
  In u (revoked (urlCleanup w w1)) ->
  In u (revoked w1) \/ exists fm, floorMap (state w) = Some fm /\ u = url fm.
Proof.
  unfold urlCleanup.
  destruct (floorMap (state w)) as [fm |]; cbn [floorMap_url option_map];
    [ | intros Hu; left; exact Hu ].
  destruct (floorMap (state w1)) as [fm1 |]; cbn [floorMap_url option_map];
    [ destruct (Nat.eqb (url fm) (url fm1)) | ];
    try (intros Hu; left; exact Hu);
    (intros [<- | Hu]; [ right; exists fm; split; reflexivity | left; exact Hu ]).
Qed.

Lemma handles_known_dispatch (ev : Event) (w w' : World) :
  handles_known w -> dispatch ev w = Ok w' -> handles_known w'.
Proof.
  intros (Hrev & Hfm) Hd.
  unfold dispatch, bind in Hd.
  destruct (handle ev w) as [w1 |] eqn:Hev; [ | discriminate ].
  injection Hd as <-.
  destruct (handle_urls ev w w1 Hev) as (Hc & Hr & Hf).
  destruct (commit_frame w w1) as (Hs & _ & Hcr & _).
  unfold handles_known; rewrite Hs, Hcr, revoked_commit.
  split.
  - intros u Hu.
    destruct (revoked_urlCleanup w w1 u Hu) as [H1 | (fm & Hfm0 & ->)].
    + destruct (Hr u H1) as [H0 | (fm & Hfm0 & ->)].
      * specialize (Hrev u H0); lia.
      * specialize (Hfm fm Hfm0); lia.
    + specialize (Hfm fm Hfm0); lia.
  - intros fm1 H1.
    destruct (Hf fm1 H1) as [(fm & Hfm0 & ->) | (-> & ->)].
    + specialize (Hfm fm Hfm0); lia.
    + lia.
Qed.

Lemma handles_known_reachable (w : World) : reachable w -> handles_known w.
Proof.
  induction 1 as [m t | w t ev w' _ IH Hstep].
  - unfold handles_known, mount.
    match goal with |- context [fetchBuildingData ?v] =>
      destruct (fetchBuildingData_overlay v) as (-> & _ & _ & _ & _ & _ & -> & ->) end.
    split; [ intros u [] | intros fm H; discriminate H ].
  - apply (handles_known_dispatch ev (advanceTo t w) w'); [ | exact Hstep ].
    unfold handles_known in *.
    destruct (advanceTo_overlay t w) as (-> & _ & _ & _ & _ & _ & -> & ->).
    exact IH.
Qed.

(** X1.  Replacing the image: with an overlay attached in a reachable
    state, choosing another file revokes the old URL once and the new
    URL not at all. *)
Theorem replacing_releases_old_once :
  forall (w : World) (fm : FloorMapState) (layer : Layer) (file : string),
    reachable w ->
    floorMap (state w) = Some fm ->
    selectedBuildingRef (state w) = Some layer ->
    exists w' fm',
      dispatch (FileChosen (Some file)) w = Ok w' /\
      floorMap (state w') = Some fm' /\
      url fm' <> url fm /\
      releases (url fm) w' = S (releases (url fm) w) /\
      releases (url fm') w' = 0%nat.
Proof.
  intros w fm layer file Hreach Hfm Hsel.
  destruct (handles_known_reachable w Hreach) as (Hrev & Hurl).
  specialize (Hurl fm Hfm).
  unfold dispatch, bind; cbn [handle].
  eexists; eexists; split; [ reflexivity | ].
  rewrite state_commit.
  assert (Hstate : floorMap (state (handleFileUpload (Some file) w))
                   = Some {| url := created w; bounds := layer_getBounds layer;
                             scale := 1; rotation := 0; masked := false |})
    by (unfold handleFileUpload; rewrite Hsel; reflexivity).
  assert (Hrevoked : revoked (handleFileUpload (Some file) w) = revoked w)
    by (unfold handleFileUpload; rewrite Hsel; reflexivity).
  split; [ exact Hstate | ].
  cbn [url].
  split; [ lia | ].
  unfold releases; rewrite !revoked_commit.
  unfold urlCleanup; rewrite Hfm, Hstate; cbn [floorMap_url option_map url].
  destruct (Nat.eqb_spec (url fm) (created w)) as [Heq | Hne]; [ lia | ].
  cbn [revoked revokeObjectURL]; rewrite Hrevoked.
  split.
  - rewrite count_occ_cons_eq by reflexivity; reflexivity.
  - rewrite count_occ_cons_neq by exact Hne.
    apply count_occ_not_In.
    intros Hin; specialize (Hrev _ Hin); lia.
Qed.

(** X2.  Removing the overlay revokes its URL twice: once in the
    button's handler and once more in the cleanup of the render that
    follows. *)
Theorem removing_releases_twice :
  forall (w : World) (fm : FloorMapState),
    floorMap (state w) = Some fm ->
    exists w',
      dispatch RemoveClick w = Ok w' /\
      floorMap (state w') = None /\
      revoked w' = url fm :: url fm :: revoked w /\
      releases (url fm) w' = S (S (releases (url fm) w)).
Proof.
  intros w fm Hfm.
  unfold dispatch, bind; cbn [handle].
  eexists; split; [ reflexivity | ].
  rewrite state_commit.
  assert (Hremoved : floorMap (state (removeFloorMap w)) = None /\
                     revoked (removeFloorMap w) = url fm :: revoked w)
    by (unfold removeFloorMap; rewrite Hfm; split; reflexivity).
  destruct Hremoved as (Hnone & Hrevoked).
  split; [ exact Hnone | ].
  assert (Hr : revoked (commit w (removeFloorMap w)) = url fm :: url fm :: revoked w).
  { rewrite revoked_commit; unfold urlCleanup.
    rewrite Hfm, Hnone; cbn [floorMap_url option_map revoked revokeObjectURL].
    rewrite Hrevoked; reflexivity. }
  split; [ exact Hr | ].
  unfold releases; rewrite Hr.
  rewrite !count_occ_cons_eq by reflexivity; reflexivity.
Qed.

(** X3.  The mask button twice, from an unmasked overlay with an empty
    clip path: the hooks and the image element are what they were. *)
Theorem mask_twice_restores :
  forall (w : World) (fm : FloorMapState) (e : ElementStyle),
    floorMap (state w) = Some fm ->
    masked fm = false ->
    clipPath (state w) = "" ->
    image w = Some e ->
    exists w',
      dispatchAll [MaskClick; MaskClick] w = Ok w' /\
      state w' = state w /\
      image w' = image w /\
      revoked w' = revoked w.
Proof.
  intros w fm e Hfm Hoff Hclip Himg.
  assert (Hstep : forall (v : World) (f : FloorMapState) (b : bool),
            floorMap (state v) = Some f -> clipPath (state v) = "" ->
            image v = Some e -> masked f = b ->
            exists v',
              dispatch MaskClick v = Ok v' /\
              state v' = setFloorMap
                           (Some {| url := url f; bounds := bounds f; scale := scale f;
                                    rotation := rotation f; masked := negb b |})
                           (state v) /\
              image v' = image v /\ revoked v' = revoked v).
  { intros v f b Hf Hc Hi Hb.
    unfold dispatch, bind; cbn [handle].
    eexists; split; [ reflexivity | ].
    assert (Hv1 : state (toggleMask v)
                  = setFloorMap
                      (Some {| url := url f; bounds := bounds f; scale := scale f;
                               rotation := rotation f; masked := negb b |})
                      (state v) /\
                  image (toggleMask v) = image v /\
                  revoked (toggleMask v) = revoked v).
    { unfold toggleMask, updateClipPath; rewrite Hf, Hb.
      destruct b; cbn [negb].
      - fields; unfold setFloorMap, setClipPath; fields; rewrite Hc.
        repeat split; reflexivity.
      - cbn [floorMap_masked]; rewrite Hb.
        destruct (selectedBuildingRef (state v)); fields;
          unfold setFloorMap, setClipPath; fields; rewrite Hc;
          repeat split; reflexivity. }
    destruct Hv1 as (Hs1 & Hi1 & Hr1).
    rewrite state_commit, revoked_commit.
    split; [ exact Hs1 | ].
    unfold commit, imageEffect, urlCleanup.
    rewrite Hs1, Hf; cbn [floorMap setFloorMap floorMap_url option_map url].
    rewrite Nat.eqb_refl, Hi1, Hi.
    rewrite !Hs1; cbn [floorMap setFloorMap rotation opacity clipPath].
    rewrite Z.eqb_refl, Qeq_bool_refl, String.eqb_refl; cbn [andb].
    split; [ rewrite Hi1; exact Hi | exact Hr1 ]. }
  destruct (Hstep w fm false Hfm Hclip Himg Hoff) as (w1 & Hd1 & Hs1 & Hi1 & Hr1).
  assert (Hfm1 : floorMap (state w1)
                 = Some {| url := url fm; bounds := bounds fm; scale := scale fm;
                           rotation := rotation fm; masked := true |})
    by (rewrite Hs1; reflexivity).
  destruct (Hstep w1 _ true Hfm1) as (w2 & Hd2 & Hs2 & Hi2 & Hr2);
    [ rewrite Hs1; exact Hclip | rewrite Hi1; exact Himg | reflexivity | ].
  exists w2.
  cbn [dispatchAll]; rewrite Hd1; cbn [bind]; rewrite Hd2; cbn [bind].
  split; [ reflexivity | ].
  split; [ | split; [ rewrite Hi2; exact Hi1 | rewrite Hr2; exact Hr1 ] ].
  rewrite Hs2, Hs1; cbn [url bounds scale rotation masked negb].
  destruct (state w) as [g sel f sc o c] eqn:Hst.
  cbn in Hfm; subst f.
  destruct fm as [u b s r mk]; cbn in Hoff; subst mk.
  reflexivity.
Qed.

(** *** The life of an object URL *)

(** The handlers that touch URLs are the file input, which creates one
    and makes it the overlay's, and the remove button, which revokes the
    overlay's and detaches it. *)
Lemma handle_urls_exact (ev : Event) (w w1 : World) :
  handle ev w = Ok w1 ->
  (created w1 = created w /\ revoked w1 = revoked w /\
   floorMap_url (floorMap (state w1)) = floorMap_url (floorMap (state w))) \/
  (created w1 = S (created w) /\ revoked w1 = revoked w /\
   floorMap_url (floorMap (state w1)) = Some (created w)) \/
  (created w1 = created w /\ floorMap (state w1) = None /\
   exists u, floorMap_url (floorMap (state w)) = Some u /\
             revoked w1 = u :: revoked w).
Proof.
  intros Hev.
  destruct ev; simpl in Hev.
  - injection Hev as <-; left; repeat split; reflexivity.
  - injection Hev as <-; unfold handleFileUpload.
    destruct file; [ | left; repeat split; reflexivity ].
    destruct (selectedBuildingRef (state w)); [ | left; repeat split; reflexivity ].
    right; left; repeat split; reflexivity.
  - unfold handleScaleChange, scaleUpdater in Hev.
    destruct (floorMap (state w)) as [fm |] eqn:Hfm.
    + destruct (selectedBuildingRef (state w)); simpl in Hev; [ | discriminate ].
      injection Hev as <-; left; fields; rewrite ?Hfm; repeat split; reflexivity.
    + injection Hev as <-; left; rewrite ?Hfm; repeat split; reflexivity.
  - injection Hev as <-; unfold handleRotationChange.
    destruct (floorMap (state w)) as [fm |] eqn:Hfm; left; fields; rewrite ?Hfm;
      repeat split; reflexivity.
  - injection Hev as <-; left; repeat split; reflexivity.
  - injection Hev as <-; unfold toggleMask.
    destruct (floorMap (state w)) as [fm |] eqn:Hfm;
      [ | left; fields; rewrite ?Hfm; repeat split; reflexivity ].
    left; destruct (negb (masked fm)); fields.
    + rewrite updateClipPath_created.
      destruct (updateClipPath_frame (Some fm) w) as (_ & _ & _ & _ & _ & _ & -> & _).
      repeat split; reflexivity.
    + repeat split; reflexivity.
  - injection Hev as <-; unfold removeFloorMap.
    destruct (floorMap (state w)) as [fm |] eqn:Hfm; cbn [floorMap_url option_map].
    + right; right; fields.
      split; [ reflexivity | ]. split; [ reflexivity | ].
      exists (url fm); split; reflexivity.
    + left; fields; repeat split; reflexivity.
  - injection Hev as <-; left.
    rewrite updateClipPath_created, overlayMove_created.
    destruct (updateClipPath_frame (floorMap (state w)) (overlayMove (with_leaflet m w)))
      as (-> & _ & _ & _ & _ & _ & -> & _).
    destruct (overlayMove_frame (with_leaflet m w)) as (-> & _ & -> & _).
    repeat split; reflexivity.
  - injection Hev as <-; left.
    rewrite updateClipPath_created.
    destruct (updateClipPath_frame (floorMap (state w)) (with_leaflet m w))
      as (-> & _ & _ & _ & _ & _ & -> & _).
    repeat split; reflexivity.
  - injection Hev as <-; unfold debouncedFetchBuildingData.
    destruct (timerId (debounced w)); [ | destruct (shouldInvoke _ _) ];
      left; repeat split; reflexivity.
  - unfold fetchBuildingData_resume, try_catch, bind in Hev.
    destruct outcome; [ | destruct (osmtogeojson data) ]; injection Hev as <-;
      left; repeat split; reflexivity.
Qed.

(** What the render after a handler revokes. *)
Lemma revoked_commit_exact (w w1 : World) :
  revoked (commit w w1)
  = match floorMap_url (floorMap (state w)), floorMap_url (floorMap (state w1)) with
    | Some u, Some u' => if Nat.eqb u u' then revoked w1 else u :: revoked w1
    | Some u, None => u :: revoked w1
    | None, _ => revoked w1
    end.
Proof.
  rewrite revoked_commit; unfold urlCleanup.
  destruct (floorMap_url (floorMap (state w))) as [u |];
    [ destruct (floorMap_url (floorMap (state w1))) as [u' |];
      [ destruct (Nat.eqb u u') | ] | ]; reflexivity.
Qed.

Lemma url_lifecycle_dispatch (ev : Event) (w w' : World) :
  handles_known w -> url_lifecycle w -> dispatch ev w = Ok w' -> url_lifecycle w'.
Proof.
  intros (_ & Hknown) Hw Hd.
  unfold dispatch, bind in Hd.
  destruct (handle ev w) as [w1 |] eqn:Hev; [ | discriminate ].
  injection Hd as <-.
  destruct (commit_frame w w1) as (Hs & _ & Hc & _).
  pose proof (revoked_commit_exact w w1) as Hr.
  unfold url_lifecycle, releases in *; rewrite Hs, Hc, Hr; clear Hs Hc Hr.
  assert (Hcur : forall u0, floorMap_url (floorMap (state w)) = Some u0 ->
                   (u0 < created w)%nat).
  { intros u0 H0; destruct (floorMap (state w)) as [fm |]; [ | discriminate H0 ].
    injection H0 as <-; exact (Hknown fm eq_refl). }
  destruct (handle_urls_exact ev w w1 Hev)
    as [(Hc1 & Hr1 & Hu1) | [(Hc1 & Hr1 & Hu1) | (Hc1 & Hn1 & u0 & Hu0 & Hr1)]].
  - (* no URL touched *)
    rewrite Hc1, Hr1, Hu1.
    destruct (floorMap_url (floorMap (state w))) as [u0 |];
      [ rewrite Nat.eqb_refl | ]; exact Hw.
  - (* a new URL, now the overlay's *)
    rewrite Hc1, Hr1, Hu1.
    intros u; destruct (Hw u) as (Hnew & Hold).
    destruct (floorMap_url (floorMap (state w))) as [u0 |] eqn:Hurl.
    + specialize (Hcur u0 eq_refl).
      destruct (Nat.eqb_spec u0 (created w)) as [Heq | _]; [ lia | ].
      cbn [count_occ].
      destruct (Nat.eq_dec u0 u) as [-> | Hne].
      * split; [ intros; lia | intros _; right ].
        split; [ intros H; injection H as H; lia | ].
        destruct (Hold Hcur) as [(_ & ->) | (Hcontra & _)]; [ lia | congruence ].
      * split; [ intros; apply Hnew; lia | intros Hlt ].
        destruct (Nat.eq_dec u (created w)) as [-> | Hne'].
        -- left; split; [ reflexivity | apply Hnew; lia ].
        -- right; split; [ intros H; injection H as H; congruence | ].
           destruct Hold as [(H & _) | (_ & Hcount)]; [ lia | congruence | exact Hcount ].
    + split; [ intros; apply Hnew; lia | intros Hlt ].
      destruct (Nat.eq_dec u (created w)) as [-> | Hne'].
      * left; split; [ reflexivity | apply Hnew; lia ].
      * right; split; [ intros H; injection H as H; congruence | ].
        destruct Hold as [(H & _) | (_ & Hcount)]; [ lia | discriminate H | exact Hcount ].
  - (* the overlay removed *)
    rewrite Hc1, Hn1, Hr1, Hu0; cbn [floorMap_url option_map].
    specialize (Hcur u0 Hu0).
    intros u; destruct (Hw u) as (Hnew & Hold).
    cbn [count_occ].
    destruct (Nat.eq_dec u0 u) as [-> | Hne].
    + split; [ intros; lia | intros _; right ].
      split; [ discriminate | ].
      destruct (Hold Hcur) as [(_ & ->) | (Hcontra & _)]; [ lia | congruence ].
    + split; [ exact Hnew | intros Hlt; right ].
      split; [ discriminate | ].
      destruct (Hold Hlt) as [(H & _) | (_ & Hcount)]; [ congruence | exact Hcount ].
Qed.

Lemma url_lifecycle_reachable (w : World) : reachable w -> url_lifecycle w.
Proof.
  induction 1 as [m t | w t ev w' Hreach IH Hstep].
  - unfold url_lifecycle, releases, mount.
    match goal with |- context [fetchBuildingData ?v] =>
      destruct (fetchBuildingData_overlay v) as (-> & _ & _ & _ & _ & _ & -> & ->) end.
    intros u; split; [ reflexivity | cbn [created]; lia ].
  - apply (url_lifecycle_dispatch ev (advanceTo t w) w'); [ | | exact Hstep ].
    + pose proof (handles_known_reachable w Hreach) as Hk.
      unfold handles_known in *.
      destruct (advanceTo_overlay t w) as (-> & _ & _ & _ & _ & _ & -> & ->).
      exact Hk.
    + unfold url_lifecycle, releases in *.
      destruct (advanceTo_overlay t w) as (-> & _ & _ & _ & _ & _ & -> & ->).
      exact IH.
Qed.

(** X4.  In every state the component can reach: the overlay's URL has
    never been revoked; every other URL handed out has been revoked, once
    or twice; no URL is revoked that was not handed out.  Unmounting
    leaves every URL handed out revoked once or twice. *)
Theorem object_urls_lifecycle :
  forall w : World,
    reachable w ->
    (forall fm, floorMap (state w) = Some fm ->
       (url fm < created w)%nat /\ releases (url fm) w = 0%nat) /\
    (forall u, (u < created w)%nat ->
       floorMap_url (floorMap (state w)) <> Some u ->
       (1 <= releases u w)%nat /\ (releases u w <= 2)%nat) /\
    (forall u, (created w <= u)%nat -> releases u w = 0%nat) /\
    (forall u, (u < created w)%nat ->
       (1 <= releases u (unmount w))%nat /\ (releases u (unmount w) <= 2)%nat).
Proof.
  intros w Hreach.
  pose proof (url_lifecycle_reachable w Hreach) as Hlife.
  destruct (handles_known_reachable w Hreach) as (_ & Hknown).
  split; [ | split; [ | split ] ].
  - intros fm Hfm; split; [ exact (Hknown fm Hfm) | ].
    destruct (Hlife (url fm)) as (_ & Hold).
    destruct (Hold (Hknown fm Hfm)) as [(_ & H0) | (Hne & _)]; [ exact H0 | ].
    rewrite Hfm in Hne; exfalso; apply Hne; reflexivity.
  - intros u Hlt Hne.
    destruct (Hlife u) as (_ & Hold).
    destruct (Hold Hlt) as [(Hcur & _) | (_ & Hcount)]; [ contradiction | exact Hcount ].
  - intros u Hge; exact (proj1 (Hlife u) Hge).
  - intros u Hlt.
    destruct (Hlife u) as (_ & Hold).
    unfold unmount, releases in *.
    destruct (floorMap_url (floorMap (state w))) as [u0 |] eqn:Hurl;
      cbn [revoked with_image revokeObjectURL count_occ].
    + destruct (Nat.eq_dec u0 u) as [-> | Hne].
      * destruct (Hold Hlt) as [(_ & ->) | (Hcontra & _)]; [ lia | congruence ].
      * destruct (Hold Hlt) as [(H & _) | (_ & Hcount)]; [ congruence | exact Hcount ].
    + destruct (Hold Hlt) as [(H & _) | (_ & Hcount)]; [ discriminate H | exact Hcount ].
Qed.

(** *** A chain of viewport changes *)

(** A timer that is due re-arms or fires before the event at [t] is
    handled; handling starts from the world it leaves. *)
Lemma run_after_rearm (t due l : Z) (m : LeafletMap) (w0 w : World)
    (trace : list (Z * Event)) (ev : Event) :
  armed due l m w0 w -> (due <= t)%Z -> (t < l + wait)%Z ->
  run ((t, ev) :: trace) w = run ((t, ev) :: trace) (runTimer t w) /\
  armed (l + wait) l m w0 (runTimer t w) /\ (now (runTimer t w) <= t)%Z.
Proof.
  intros Harmed Hdue Hlt.
  destruct (runTimer_rearm t due l m w0 w Harmed Hdue) as (Harmed1 & Hn1); [ lia | ].
  pose proof Harmed1 as (Ht1 & _).
  split; [ | split; [ exact Harmed1 | lia ] ].
  cbn [run]; unfold advanceTo.
  rewrite (runTimer_early t (l + wait) (runTimer t w) Ht1 Hlt).
  rewrite (runTimer_early t (l + wait) (runTimer t w) Ht1 Hlt).
  reflexivity.
Qed.

(** One more change of the chain, less than [wait] after the last. *)
Lemma chain_step (t : Z) (m' : LeafletMap) (due l : Z) (m : LeafletMap)
    (w0 w : World) :
  armed due l m w0 w -> (now w <= t)%Z -> (l <= t < l + wait)%Z ->
  exists due' w',
    run (viewportChange (t, m')) w = Ok w' /\
    armed due' t m' w0 w' /\ now w' = t.
Proof.
  intros Harmed Hnow (Hlo & Hhi).
  assert (Hquiet_step : forall due1 v, armed due1 l m w0 v -> (now v <= t)%Z ->
            (t < due1)%Z ->
            exists w', run (viewportChange (t, m')) v = Ok w' /\
                       armed due1 t m' w0 w' /\ now w' = t).
  { intros due1 v (Ht & Hl & Ha & Hln & Hnd & Hdl & Hm & Hf & Hp) Hnv Hearly.
    destruct (viewportChange_run t m' v) as
      (w1 & Hrun & Hl1 & Hn1 & Hf1 & Hp1 & Hc1 & Ha1 & Ht1);
      [ right; exists due1; split; assumption | exact Hnv | ].
    rewrite Ht in Ht1.
    exists w1; split; [ exact Hrun | split; [ | exact Hn1 ] ].
    unfold armed; rewrite Hn1, Hf1, Hp1.
    repeat split; try assumption; lia. }
  destruct (Z.lt_ge_cases t due) as [Hearly | Hdue].
  - exists due; exact (Hquiet_step due w Harmed Hnow Hearly).
  - destruct (run_after_rearm t due l m w0 w [(t, MapMoveEnd)] (MapMove m')
                Harmed Hdue Hhi) as (Hrun & Harmed1 & Hn1).
    exists (l + wait)%Z.
    unfold viewportChange; cbn [fst snd]; rewrite Hrun.
    exact (Hquiet_step (l + wait)%Z (runTimer t w) Harmed1 Hn1 Hhi).
Qed.

Lemma chain_run (rest : list (Z * LeafletMap)) :
  forall (due l : Z) (m : LeafletMap) (w0 w : World),
    armed due l m w0 w -> now w = l ->
    chained l rest ->
    exists due' w',
      run (burstTrace rest) w = Ok w' /\
      armed due' (fst (last rest (l, m))) (snd (last rest (l, m))) w0 w'.
Proof.
  induction rest as [| [t m'] rest IH]; intros due l m w0 w Harmed Hnow Hchain.
  - exists due, w; split; [ reflexivity | exact Harmed ].
  - destruct Hchain as (Hstep & Hrest); cbn [fst] in *.
    destruct (chain_step t m' due l m w0 w Harmed) as (due1 & w1 & Hrun & Harmed1 & Hn1);
      [ lia | unfold wait; exact Hstep | ].
    destruct (IH due1 t m' w0 w1 Harmed1 Hn1 Hrest) as (due' & w' & Hrun' & Harmed').
    exists due', w'; split.
    + change (burstTrace ((t, m') :: rest))
        with (viewportChange (t, m') ++ burstTrace rest)%list.
      rewrite run_app, Hrun; exact Hrun'.
    + destruct rest as [| c rest']; [ exact Harmed' | ].
      change (last ((t, m') :: c :: rest') (l, m)) with (last (c :: rest') (l, m)).
      rewrite (last_default (l, m) (t, m') c rest'); exact Harmed'.
Qed.

(** X5.  Debounce, not throttle.  Let no debounced call be pending and
    let viewport changes follow one another, each less than 500 ms after
    the one before, for however long.  Then [fetchBuildingData] does not
    run during the chain nor until 500 ms after its last change; at that
    moment it runs once, on the map as the last change left it, and it
    does not run again however far the clock moves on. *)
Theorem debounced_chain_fetches_once :
  forall (w : World) (c : Z * LeafletMap) (rest : list (Z * LeafletMap)),
    timerId (debounced w) = None ->
    (now w <= fst c)%Z ->
    chained (fst c) rest ->
    exists w1,
      run (burstTrace (c :: rest)) w = Ok w1 /\
      fetchCalls w1 = fetchCalls w /\ posted w1 = posted w /\
      (forall t : Z, (t < fst (last rest c) + 500)%Z ->
         fetchCalls (advanceTo t w1) = fetchCalls w /\
         posted (advanceTo t w1) = posted w) /\
      (forall t t' : Z, (fst (last rest c) + 500 <= t)%Z ->
         fetchCalls (advanceTo t w1)
           = ((fst (last rest c) + 500)%Z, snd (last rest c)) :: fetchCalls w /\
         fetchCalls (advanceTo t' (advanceTo t w1)) = fetchCalls (advanceTo t w1) /\
         posted (advanceTo t' (advanceTo t w1)) = posted (advanceTo t w1)).
Proof.
  intros w [t1 m1] rest Hidle Hnow Hchain; cbn [fst] in *.
  destruct (viewportChange_run t1 m1 w (or_introl Hidle) Hnow)
    as (wa & Hrun & Hl & Hn & Hf & Hp & Hc & Ha & Ht).
  rewrite Hidle in Ht.
  assert (Harmed : armed (t1 + wait) t1 m1 w wa).
  { unfold armed; rewrite Hn. repeat split; try assumption; unfold wait; lia. }
  destruct (chain_run rest (t1 + wait)%Z t1 m1 w wa Harmed Hn Hchain)
    as (due' & w1 & Hrun1 & Harmed1).
  exists w1; split.
  { change (burstTrace ((t1, m1) :: rest))
      with (viewportChange (t1, m1) ++ burstTrace rest)%list.
    rewrite run_app, Hrun; exact Hrun1. }
  pose proof Harmed1 as (_ & _ & _ & _ & _ & _ & _ & Hf1 & Hp1).
  split; [ exact Hf1 | ].
  split; [ exact Hp1 | ].
  change 500%Z with wait.
  split.
  - intros t Ht'. exact (proj1 (armed_settles _ _ _ _ _ t Harmed1) Ht').
  - intros t t' Ht'.
    destruct (proj2 (armed_settles _ _ _ _ _ t Harmed1) Ht') as (Hcalls & Hnone & _).
    split; [ exact Hcalls | ].
    rewrite (advanceTo_quiet_world t' (advanceTo t w1) (or_introl Hnone)).
    split; reflexivity.
Qed.

(** *** The element stays clipped *)

(** Only the remove button detaches the overlay. *)
Lemma attached_kept (ev : Event) (w w' : World) :
  ev <> RemoveClick ->
  floorMap (state w) <> None ->
  dispatch ev w = Ok w' ->
  floorMap (state w') <> None.
Proof.
  intros Hev Hfm Hd.
  unfold dispatch, bind in Hd.
  destruct (handle ev w) as [w1 |] eqn:Hh; [ | discriminate ].
  injection Hd as <-; rewrite state_commit.
  destruct ev; simpl in Hh; try (injection Hh as <-).
  - exact Hfm.
  - unfold handleFileUpload.
    destruct file; [ destruct (selectedBuildingRef (state w)) | ];
      fields; first [ exact Hfm | discriminate ].
  - unfold handleScaleChange, scaleUpdater in Hh.
    destruct (floorMap (state w)) as [fm |] eqn:Hfm0; [ | congruence ].
    destruct (selectedBuildingRef (state w)); simpl in Hh; [ | discriminate ].
    injection Hh as <-; fields; discriminate.
  - unfold handleRotationChange.
    destruct (floorMap (state w)) as [fm |] eqn:Hfm0; [ | congruence ].
    fields; rewrite Hfm0; discriminate.
  - exact Hfm.
  - unfold toggleMask.
    destruct (floorMap (state w)) as [fm |]; [ | congruence ].
    fields; discriminate.
  - congruence.
  - destruct (updateClipPath_frame (floorMap (state w)) (overlayMove (with_leaflet m w)))
      as (-> & _).
    destruct (overlayMove_frame (with_leaflet m w)) as (-> & _).
    exact Hfm.
  - destruct (updateClipPath_frame (floorMap (state w)) (with_leaflet m w)) as (-> & _).
    exact Hfm.
  - unfold debouncedFetchBuildingData.
    destruct (timerId (debounced w)); [ | destruct (shouldInvoke _ _) ]; exact Hfm.
  - unfold fetchBuildingData_resume, try_catch, bind in Hh.
    destruct outcome; [ | destruct (osmtogeojson data) ]; injection Hh as <-; exact Hfm.
Qed.

(** No render takes a clip path off the image element. *)
Lemma clip_sticks_step (ev : Event) (w w' : World) (e : ElementStyle) :
  floorMap (state w) <> None ->
  image w = Some e ->
  style_clipPath e <> "" ->
  dispatch ev w = Ok w' ->
  floorMap (state w') <> None ->
  exists e', image w' = Some e' /\ style_clipPath e' <> "".
Proof.
  intros Hfm Hi Hclip Hd Hfm'.
  unfold dispatch, bind in Hd.
  destruct (handle ev w) as [w1 |] eqn:Hh; [ | discriminate ].
  injection Hd as <-.
  rewrite state_commit in Hfm'.
  pose proof (handle_image_clip ev w w1 Hh) as Hic.
  rewrite Hi in Hic; cbn [option_map] in Hic.
  destruct (image w1) as [e1 |] eqn:Hi1; [ | discriminate Hic ].
  injection Hic as Hic.
  unfold commit, imageEffect.
  destruct (urlCleanup_frame w w1) as (-> & _ & -> & _).
  destruct (floorMap (state w1)) as [fm1 |]; [ | congruence ].
  destruct (floorMap (state w)) as [fm |]; [ | congruence ].
  rewrite Hi1.
  assert (Hstyled : style_clipPath (styleEffect fm1 (state w1) e1) <> "").
  { unfold styleEffect; cbn [style_clipPath].
    destruct (String.eqb_spec (clipPath (state w1)) "");
      [ rewrite Hic; exact Hclip | assumption ]. }
  destruct (_ && _).
  - destruct (urlCleanup_frame w w1) as (_ & _ & -> & _).
    exists e1; split; [ exact Hi1 | rewrite Hic; exact Hclip ].
  - eexists; split; [ reflexivity | exact Hstyled ].
Qed.

(** X6.  Once a silhouette has been written on the image element, the
    element stays clipped until the overlay is removed: whatever the
    user does short of the remove button (the mask button included),
    the element keeps a non-empty clip path. *)
Theorem element_stays_clipped :
  forall (evs : list Event) (w w' : World) (e : ElementStyle),
    floorMap (state w) <> None ->
    image w = Some e ->
    style_clipPath e <> "" ->
    ~ In RemoveClick evs ->
    dispatchAll evs w = Ok w' ->
    floorMap (state w') <> None /\
    exists e', image w' = Some e' /\ style_clipPath e' <> "".
Proof.
  induction evs as [| ev evs IH]; intros w w' e Hfm Hi Hclip Hno Hrun.
  - simpl in Hrun; injection Hrun as <-.
    split; [ exact Hfm | exists e; split; assumption ].
  - cbn [dispatchAll] in Hrun.
    destruct (dispatch ev w) as [w1 |] eqn:Hd; cbn [bind] in Hrun; [ | discriminate ].
    assert (Hev : ev <> RemoveClick) by (intros ->; apply Hno; left; reflexivity).
    pose proof (attached_kept ev w w1 Hev Hfm Hd) as Hfm1.
    destruct (clip_sticks_step ev w w1 e Hfm Hi Hclip Hd Hfm1) as (e1 & Hi1 & Hclip1).
    apply (IH w1 w' e1 Hfm1 Hi1 Hclip1); [ | exact Hrun ].
    intros Hin; apply Hno; right; exact Hin.
Qed.

(** *** A fetch that succeeds *)

(** X7.  A fetch that settles with data [osmtogeojson] reads replaces
    the footprints by what it read and touches nothing else; the zoom
    is not looked at again, so footprints the zoom gate had cleared come
    back with a late response; and of two responses the one that
    settles last is the one displayed. *)
Theorem fetch_success_replaces_footprints :
  forall (w : World) (data : string) (g : GeoJsonObject),
    osmtogeojson data = Ok g ->
    (exists w',
       dispatch (FetchSettled (Fulfilled data)) w = Ok w' /\
       state w' = setGeojsonData (Some g) (state w) /\
       console w' = console w /\ posted w' = posted w /\
       revoked w' = revoked w /\ leaflet w' = leaflet w) /\
    (map_getZoom (leaflet w) < 15 ->
     geojsonData (state (fetchBuildingData w)) = None /\
     exists w',
       dispatch (FetchSettled (Fulfilled data)) (fetchBuildingData w) = Ok w' /\
       map_getZoom (leaflet w') < 15 /\
       geojsonData (state w') = Some g) /\
    (forall earlier : AxiosOutcome,
     exists w',
       dispatchAll [FetchSettled earlier; FetchSettled (Fulfilled data)] w = Ok w' /\
       geojsonData (state w') = Some g).
Proof.
  intros w data g Hread.
  assert (Hok : forall v,
            dispatch (FetchSettled (Fulfilled data)) v
            = Ok (commit v (with_state (setGeojsonData (Some g)) v))).
  { intros v; unfold dispatch, bind; cbn [handle].
    unfold fetchBuildingData_resume, try_catch, bind; rewrite Hread; reflexivity. }
  split; [ | split ].
  - rewrite Hok; eexists; split; [ reflexivity | ].
    rewrite revoked_commit_exact.
    destruct (commit_frame w (with_state (setGeojsonData (Some g)) w))
      as (-> & -> & _ & -> & -> & _).
    fields.
    destruct (floorMap_url (floorMap (state w))); [ rewrite Nat.eqb_refl | ];
      repeat split; reflexivity.
  - intros Hz.
    destruct (fetchBuildingData_effect w) as (_ & _ & _ & Hl & _ & _ & Hlt).
    destruct (Hlt Hz) as (_ & Hs).
    split; [ rewrite Hs; reflexivity | ].
    rewrite Hok; eexists; split; [ reflexivity | ].
    destruct (commit_frame (fetchBuildingData w)
                (with_state (setGeojsonData (Some g)) (fetchBuildingData w)))
      as (-> & -> & _).
    fields; rewrite Hl; split; [ exact Hz | reflexivity ].
  - intros earlier.
    assert (Hfirst : exists v, dispatch (FetchSettled earlier) w = Ok v).
    { unfold dispatch, bind; cbn [handle].
      unfold fetchBuildingData_resume, try_catch, bind.
      destruct earlier as [error | d]; [ | destruct (osmtogeojson d) ];
        eexists; reflexivity. }
    destruct Hfirst as (v & Hv).
    cbn [dispatchAll]; rewrite Hv; cbn [bind]; rewrite Hok; cbn [bind].
    eexists; split; [ reflexivity | ].
    rewrite state_commit; reflexivity.
Qed.

(** *** The rotation pivot *)


(** *** The mask button, then a move *)

(** X9.  The silhouette the mask button did not set appears with the
    next ["move"] or ["zoom"] of the map: after the button and one such
    event the mask is on, the clip path is the CSS polygon of the
    selected footprint's ring, each vertex taken through the projection
    of the new view, and it is on the image element. *)
Theorem silhouette_appears_on_next_move :
  forall (w : World) (fm : FloorMapState) (layer : Layer) (m : LeafletMap)
         (ev : Event),
    floorMap (state w) = Some fm ->
    masked fm = false ->
    selectedBuildingRef (state w) = Some layer ->
    ev = MapMove m \/ ev = MapZoom m ->
    exists w' e',
      dispatchAll [MaskClick; ev] w = Ok w' /\
      floorMap (state w') =
        Some {| url := url fm; bounds := bounds fm; scale := scale fm;
                rotation := rotation fm; masked := true |} /\
      clipPath (state w')
        = cssPolygon (projectedRing latLngToContainerPoint m (layer_getLatLngs0 layer)) /\
      image w' = Some e' /\
      style_clipPath e'
        = cssPolygon (projectedRing latLngToContainerPoint m (layer_getLatLngs0 layer)).
Proof.
  intros w fm layer m ev Hfm Hmask Hsel Hev.
  rewrite <- polygonOf_spec.
  destruct (mask_on_clip_empty w fm Hfm Hmask) as (w1 & Hd1 & Hfm1 & Hc1).
  assert (Hsel1 : selectedBuildingRef (state w1) = Some layer).
  { unfold dispatch, bind in Hd1; cbn [handle] in Hd1; injection Hd1 as <-.
    rewrite state_commit; unfold toggleMask; rewrite Hfm, Hmask; cbn [negb]; fields.
    destruct (updateClipPath_frame (Some fm) w) as (_ & -> & _); exact Hsel. }
  assert (Hi1 : exists e1, image w1 = Some e1).
  { unfold dispatch, bind in Hd1; cbn [handle] in Hd1; injection Hd1 as <-.
    rewrite state_commit in Hfm1.
    unfold commit, imageEffect.
    destruct (urlCleanup_frame w (toggleMask w)) as (-> & _ & -> & _).
    rewrite Hfm1.
    destruct (image (toggleMask w)) as [e0 |] eqn:Hi0;
      [ destruct (floorMap (state w)); [ destruct (_ && _) | ] | ];
      cbn [image with_image]; try (eexists; reflexivity).
    destruct (urlCleanup_frame w (toggleMask w)) as (_ & _ & -> & _).
    eexists; exact Hi0. }
  destruct Hi1 as (e1 & Hi1).
  destruct (viewport_handler w1 _ layer m ev Hfm1 eq_refl Hsel1 Hev)
    as (w2 & Hh2 & Hc2 & _ & Hfm2 & _).
  pose proof (handle_image_clip ev w1 w2 Hh2) as Hic.
  rewrite Hi1 in Hic; cbn [option_map] in Hic.
  destruct (image w2) as [e2 |] eqn:Hi2; [ | discriminate Hic ].
  assert (Himg : image (commit w1 w2)
                 = Some (styleEffect
                           {| url := url fm; bounds := bounds fm; scale := scale fm;
                              rotation := rotation fm; masked := true |}
                           (state w2) e2)).
  { unfold commit, imageEffect.
    destruct (urlCleanup_frame w1 w2) as (-> & _ & -> & _).
    rewrite Hfm2, Hi2, Hfm1, Hc1, Hc2.
    change (String.eqb "" (polygonOf m (layer_getLatLngs0 layer))) with false.
    rewrite !andb_false_r; reflexivity. }
  exists (commit w1 w2); eexists.
  split; [ | split; [ | split; [ | split; [ exact Himg | ] ] ] ].
  - cbn [dispatchAll]; rewrite Hd1; cbn [bind].
    unfold dispatch; rewrite Hh2; reflexivity.
  - rewrite state_commit; exact Hfm2.
  - rewrite state_commit; exact Hc2.
  - unfold styleEffect; cbn [style_clipPath].
    rewrite Hc2, polygonOf_not_empty; reflexivity.
Qed.

(** *** The panel and the element *)

Lemma fetchBuildingData_showControls (w : World) :
  showControls (state (fetchBuildingData w)) = showControls (state w).
Proof. unfold fetchBuildingData; destruct (Qlt_le_dec _ _); reflexivity. Qed.

Lemma runTimer_showControls (t : Z) (w : World) :
  showControls (state (runTimer t w)) = showControls (state w).
Proof.
  unfold runTimer, timerExpired, trailingEdge.
  destruct (timerId (debounced w)) as [due |]; [ destruct (due <=? t)%Z | ];
    try reflexivity.
  destruct (shouldInvoke _ _); [ destruct (lastArgs _) | ]; try reflexivity.
  rewrite fetchBuildingData_showControls; reflexivity.
Qed.

Lemma advanceTo_showControls (t : Z) (w : World) :
  showControls (state (advanceTo t w)) = showControls (state w).
Proof. unfold advanceTo; fields; rewrite !runTimer_showControls; reflexivity. Qed.

Lemma updateClipPath_showControls (r : option FloorMapState) (w : World) :
  showControls (state (updateClipPath r w)) = showControls (state w).
Proof.
  unfold updateClipPath.
  destruct (selectedBuildingRef (state w)); [ destruct (floorMap_masked r) | ];
    reflexivity.
Qed.

(** The handlers keep the panel with the overlay. *)
Lemma handle_showControls (ev : Event) (w w' : World) :
  showControls (state w) = match floorMap (state w) with Some _ => true | None => false end ->
  handle ev w = Ok w' ->
  showControls (state w') = match floorMap (state w') with Some _ => true | None => false end.
Proof.
  intros Hw Hev.
  destruct ev; simpl in Hev.
  - injection Hev as <-; exact Hw.
  - injection Hev as <-; unfold handleFileUpload.
    destruct file; [ destruct (selectedBuildingRef (state w)) | ];
      first [ exact Hw | reflexivity ].
  - unfold handleScaleChange, scaleUpdater in Hev.
    destruct (floorMap (state w)) eqn:Hfm;
      [ | injection Hev as <-; rewrite Hfm; exact Hw ].
    destruct (selectedBuildingRef (state w)); simpl in Hev; [ | discriminate ].
    injection Hev as <-; exact Hw.
  - injection Hev as <-; unfold handleRotationChange.
    destruct (floorMap (state w)) eqn:Hfm; fields; rewrite ?Hfm; exact Hw.
  - injection Hev as <-; exact Hw.
  - injection Hev as <-; unfold toggleMask.
    destruct (floorMap (state w)) eqn:Hfm; fields; [ | exact Hw ].
    destruct (negb (masked f)); fields; rewrite ?updateClipPath_showControls; exact Hw.
  - injection Hev as <-; unfold removeFloorMap.
    destruct (floorMap_url (floorMap (state w))); reflexivity.
  - injection Hev as <-.
    rewrite updateClipPath_showControls.
    match goal with |- context [updateClipPath ?r ?v] =>
      destruct (updateClipPath_frame r v) as (-> & _) end.
    destruct (overlayMove_frame (with_leaflet m w)) as (-> & _).
    exact Hw.
  - injection Hev as <-.
    rewrite updateClipPath_showControls.
    match goal with |- context [updateClipPath ?r ?v] =>
      destruct (updateClipPath_frame r v) as (-> & _) end.
    exact Hw.
  - injection Hev as <-; unfold debouncedFetchBuildingData.
    destruct (timerId (debounced w)); [ | destruct (shouldInvoke _ _) ]; exact Hw.
  - unfold fetchBuildingData_resume, try_catch, bind in Hev.
    destruct outcome; [ injection Hev as <-; exact Hw | ].
    destruct (osmtogeojson data); injection Hev as <-; exact Hw.
Qed.

Lemma overlayMove_image_opacity (w : World) :
  option_map style_opacity (image (overlayMove w))
    = option_map style_opacity (image w).
Proof.
  unfold overlayMove.
  destruct (image w) eqn:Hi; [ destruct (floorMap (state w)) | ];
    simpl; rewrite ?Hi; reflexivity.
Qed.

(** No handler writes the element's opacity; the render does. *)
Lemma handle_image_opacity (ev : Event) (w w' : World) :
  handle ev w = Ok w' ->
  option_map style_opacity (image w') = option_map style_opacity (image w).
Proof.
  intros Hev.
  destruct ev; simpl in Hev.
  - injection Hev as <-; reflexivity.
  - injection Hev as <-; unfold handleFileUpload.
    destruct file; [ destruct (selectedBuildingRef (state w)) | ]; reflexivity.
  - unfold handleScaleChange, scaleUpdater in Hev.
    destruct (floorMap (state w)); [ | injection Hev as <-; reflexivity ].
    destruct (selectedBuildingRef (state w)); simpl in Hev; [ | discriminate ].
    injection Hev as <-; reflexivity.
  - injection Hev as <-; unfold handleRotationChange.
    destruct (floorMap (state w)); reflexivity.
  - injection Hev as <-; reflexivity.
  - injection Hev as <-; unfold toggleMask.
    destruct (floorMap (state w)); [ | reflexivity ].
    destruct (negb (masked f)); simpl; [ | reflexivity ].
    destruct (updateClipPath_frame (Some f) w) as (_ & _ & _ & _ & _ & -> & _).
    reflexivity.
  - injection Hev as <-; unfold removeFloorMap.
    destruct (floorMap_url (floorMap (state w))); reflexivity.
  - injection Hev as <-.
    match goal with |- context [updateClipPath ?r ?v] =>
      destruct (updateClipPath_frame r v) as (_ & _ & _ & _ & _ & -> & _) end.
    rewrite overlayMove_image_opacity; reflexivity.
  - injection Hev as <-.
    match goal with |- context [updateClipPath ?r ?v] =>
      destruct (updateClipPath_frame r v) as (_ & _ & _ & _ & _ & -> & _) end.
    reflexivity.
  - injection Hev as <-; unfold debouncedFetchBuildingData.
    destruct (timerId (debounced w)); [ | destruct (shouldInvoke _ _) ]; reflexivity.
  - unfold fetchBuildingData_resume, try_catch, bind in Hev.
    destruct outcome; [ injection Hev as <-; reflexivity | ].
    destruct (osmtogeojson data); injection Hev as <-; reflexivity.
Qed.

Lemma shown_controls (w : World) :
  shown w ->
  showControls (state w) = match floorMap (state w) with Some _ => true | None => false end.
Proof.
  unfold shown.
  destruct (floorMap (state w)), (image w); intros H;
    first [ exact (proj1 H) | exact H | contradiction ].
Qed.

Lemma shown_dispatch (ev : Event) (w w' : World) :
  shown w -> dispatch ev w = Ok w' -> shown w'.
Proof.
  intros Hw Hd.
  unfold dispatch, bind in Hd.
  destruct (handle ev w) as [w1 |] eqn:Hh; [ | discriminate ].
  injection Hd as <-.
  pose proof (handle_showControls ev w w1 (shown_controls w Hw) Hh) as Hsc.
  pose proof (handle_image_opacity ev w w1 Hh) as Hio.
  unfold shown in *.
  rewrite state_commit.
  unfold commit, imageEffect.
  destruct (urlCleanup_frame w w1) as (-> & _ & -> & _).
  destruct (floorMap (state w1)) as [fm1 |]; [ | exact Hsc ].
  assert (Hstyled : forall e,
            showControls (state w1) = true /\
            exists q, style_opacity (styleEffect fm1 (state w1) e) = Some q /\
                      q == opacity (state w1)).
  { intros e; split; [ exact Hsc | ].
    exists (opacity (state w1)); split; reflexivity. }
  destruct (image w1) as [e1 |] eqn:Hi1; [ | cbn [image with_image]; apply Hstyled ].
  destruct (floorMap (state w)) as [fm |]; [ | cbn [image with_image]; apply Hstyled ].
  destruct (_ && _) eqn:Hdeps; [ | cbn [image with_image]; apply Hstyled ].
  destruct (urlCleanup_frame w w1) as (_ & _ & -> & _).
  rewrite Hi1.
  apply andb_prop in Hdeps as (Hdeps & _); apply andb_prop in Hdeps as (_ & Ho).
  apply Qeq_bool_iff in Ho.
  destruct (image w) as [e0 |]; [ | contradiction ].
  destruct Hw as (_ & q & Hq & Hqo).
  cbn [option_map] in Hio; injection Hio as Hio.
  split; [ exact Hsc | ].
  exists q; split; [ rewrite Hio; exact Hq | rewrite Hqo; exact Ho ].
Qed.

(** X10.  In every state the component reaches, the control panel is
    shown exactly while an overlay is attached, the image element exists
    exactly then, and the element's inline opacity is the value of the
    opacity hook. *)
Theorem panel_and_element_follow_overlay :
  forall w : World, reachable w -> shown w.
Proof.
  induction 1 as [m t | w t ev w' _ IH Hstep].
  - unfold shown, mount.
    rewrite fetchBuildingData_showControls.
    match goal with |- context [fetchBuildingData ?v] =>
      destruct (fetchBuildingData_overlay v) as (-> & _ & _ & _ & _ & -> & _) end.
    reflexivity.
  - apply (shown_dispatch ev (advanceTo t w) w'); [ | exact Hstep ].
    unfold shown in *.
    rewrite advanceTo_showControls.
    destruct (advanceTo_overlay t w) as (-> & _ & _ & -> & _ & -> & _).
    exact IH.
Qed.

(** *** The three sliders *)

Lemma dispatch_rotation (w : World) (fm : FloorMapState) (r : Z) :
  floorMap (state w) = Some fm ->
  exists w',
    dispatch (RotationInput r) w = Ok w' /\
    state w' =
      setFloorMap (Some {| url := url fm; bounds := bounds fm; scale := scale fm;
                           rotation := r; masked := masked fm |}) (state w) /\
    created w' = created w /\ revoked w' = revoked w.
Proof.
  intros Hfm.
  unfold dispatch, bind; cbn [handle].
  eexists; split; [ reflexivity | ].
  rewrite revoked_commit_exact.
  destruct (commit_frame w (handleRotationChange r w)) as (-> & _ & -> & _).
  unfold handleRotationChange; rewrite Hfm; fields; rewrite Hfm.
  cbn [floorMap_url option_map url]; rewrite Nat.eqb_refl.
  repeat split; reflexivity.
Qed.

Lemma dispatch_opacity (w : World) (o : Q) :
  exists w',
    dispatch (OpacityInput o) w = Ok w' /\
    state w' = setOpacity o (state w) /\
    created w' = created w /\ revoked w' = revoked w.
Proof.
  unfold dispatch, bind; cbn [handle].
  eexists; split; [ reflexivity | ].
  rewrite revoked_commit_exact.
  destruct (commit_frame w (handleOpacityChange o w)) as (-> & _ & -> & _).
  unfold handleOpacityChange; fields.
  destruct (floorMap_url (floorMap (state w))); [ rewrite Nat.eqb_refl | ];
    repeat split; reflexivity.
Qed.

Lemma dispatch_scale (w : World) (fm : FloorMapState) (layer : Layer) (s : Q) :
  floorMap (state w) = Some fm ->
  selectedBuildingRef (state w) = Some layer ->
  exists w',
    dispatch (ScaleInput s) w = Ok w' /\
    state w' =
      setFloorMap (Some {| url := url fm;
                           bounds := scaledAbout (getCenter (bounds fm)) layer s;
                           scale := s; rotation := rotation fm;
                           masked := masked fm |}) (state w) /\
    created w' = created w /\ revoked w' = revoked w.
Proof.
  intros Hfm Hsel.
  unfold dispatch, bind; cbn [handle].
  unfold handleScaleChange, scaleUpdater, bind; rewrite Hfm, Hsel.
  eexists; split; [ reflexivity | ].
  rewrite revoked_commit_exact.
  match goal with |- context [commit w ?v] =>
    destruct (commit_frame w v) as (-> & _ & -> & _) end.
  fields; rewrite Hfm.
  cbn [floorMap_url option_map url]; rewrite Nat.eqb_refl.
  repeat split; reflexivity.
Qed.

(** X11.  The three sliders act on separate parts of the overlay: the
    scale slider sets the bounds (about the centre they had) and the
    scale, the rotation slider the rotation only, the opacity slider the
    opacity hook only; moved in either order they leave the same hooks,
    and none of them creates or releases an object URL. *)
Theorem sliders_commute :
  forall (w : World) (fm : FloorMapState) (layer : Layer) (s : Q) (r : Z) (o : Q),
    floorMap (state w) = Some fm ->
    selectedBuildingRef (state w) = Some layer ->
    exists w1 w2,
      dispatchAll [ScaleInput s; RotationInput r; OpacityInput o] w = Ok w1 /\
      dispatchAll [OpacityInput o; RotationInput r; ScaleInput s] w = Ok w2 /\
      state w1 = state w2 /\
      floorMap (state w1) =
        Some {| url := url fm;
                bounds := scaledAbout (getCenter (bounds fm)) layer s;
                scale := s; rotation := r; masked := masked fm |} /\
      opacity (state w1) = o /\
      selectedBuildingRef (state w1) = Some layer /\
      geojsonData (state w1) = geojsonData (state w) /\
      clipPath (state w1) = clipPath (state w) /\
      created w1 = created w /\ created w2 = created w /\
      revoked w1 = revoked w /\ revoked w2 = revoked w.
Proof.
  intros w fm layer s r o Hfm Hsel.
  destruct (dispatch_scale w fm layer s Hfm Hsel) as (a1 & Ha1 & Sa1 & Ca1 & Ra1).
  destruct (dispatch_rotation a1 _ r (f_equal floorMap Sa1)) as (a2 & Ha2 & Sa2 & Ca2 & Ra2).
  destruct (dispatch_opacity a2 o) as (a3 & Ha3 & Sa3 & Ca3 & Ra3).
  destruct (dispatch_opacity w o) as (b1 & Hb1 & Sb1 & Cb1 & Rb1).
  assert (Hfmb1 : floorMap (state b1) = Some fm) by (rewrite Sb1; exact Hfm).
  destruct (dispatch_rotation b1 fm r Hfmb1) as (b2 & Hb2 & Sb2 & Cb2 & Rb2).
  assert (Hselb2 : selectedBuildingRef (state b2) = Some layer)
    by (rewrite Sb2, Sb1; exact Hsel).
  destruct (dispatch_scale b2 _ layer s (f_equal floorMap Sb2) Hselb2)
    as (b3 & Hb3 & Sb3 & Cb3 & Rb3).
  exists a3, b3.
  cbn [dispatchAll].
  rewrite Ha1; cbn [bind]; rewrite Ha2; cbn [bind]; rewrite Ha3; cbn [bind].
  rewrite Hb1; cbn [bind]; rewrite Hb2; cbn [bind]; rewrite Hb3; cbn [bind].
  rewrite Sa3, Sa2, Sa1, Sb3, Sb2, Sb1, Ca3, Ca2, Ca1, Cb3, Cb2, Cb1,
    Ra3, Ra2, Ra1, Rb3, Rb2, Rb1.
  fields; cbn [url bounds scale rotation masked].
  repeat split; first [ reflexivity | exact Hsel ].
Qed.

(** *** The earlier revision *)

Lemma sim_fetchBuildingData (w : World) :
  forget (fetchBuildingData w)
  = Earlier.fetchBuildingData numberToString encodeURIComponent (forget w).
Proof.
  unfold fetchBuildingData, Earlier.fetchBuildingData.
  cbn [Earlier.leaflet Earlier.note_fetchCall forget leaflet note_fetchCall].
  destruct (Qlt_le_dec (map_getZoom (leaflet w)) 15); reflexivity.
Qed.

Lemma sim_timerExpired (w : World) :
  forget (timerExpired w)
  = Earlier.timerExpired numberToString encodeURIComponent (forget w).
Proof.
  unfold timerExpired, Earlier.timerExpired, trailingEdge, Earlier.trailingEdge.
  cbn [Earlier.debounced Earlier.now forget].
  destruct (shouldInvoke (debounced w) (now w)); [ | reflexivity ].
  destruct (lastArgs (debounced w)); [ | reflexivity ].
  rewrite sim_fetchBuildingData; reflexivity.
Qed.

Lemma sim_runTimer (t : Z) (w : World) :
  forget (runTimer t w)
  = Earlier.runTimer numberToString encodeURIComponent t (forget w).
Proof.
  unfold runTimer, Earlier.runTimer.
  cbn [Earlier.debounced Earlier.now forget].
  destruct (timerId (debounced w)) as [due |]; [ | reflexivity ].
  destruct (due <=? t)%Z; [ | reflexivity ].
  rewrite sim_timerExpired; reflexivity.
Qed.

Lemma sim_advanceTo (t : Z) (w : World) :
  forget (advanceTo t w)
  = Earlier.advanceTo numberToString encodeURIComponent t (forget w).
Proof.
  unfold advanceTo, Earlier.advanceTo.
  rewrite <- !sim_runTimer; reflexivity.
Qed.

Lemma untouched_advanceTo (t : Z) (w : World) :
  untouched w -> untouched (advanceTo t w).
Proof.
  unfold untouched.
  destruct (advanceTo_overlay t w) as (-> & _ & -> & -> & _); auto.
Qed.

(** Without the mask, [updateClipPath] sets the empty clip path again. *)
Lemma sim_updateClipPath (w w0 : World) :
  floorMap_masked (floorMap (state w0)) = false ->
  clipPath (state w) = "" ->
  forget (updateClipPath (floorMap (state w0)) w) = forget w /\
  clipPath (state (updateClipPath (floorMap (state w0)) w)) = "".
Proof.
  intros Hm Hc; unfold updateClipPath; rewrite Hm.
  destruct (selectedBuildingRef (state w)); split; reflexivity.
Qed.

Lemma sim_overlayMove (w : World) :
  forget (overlayMove w) = Earlier.overlayMove latLngToContainerPoint (forget w).
Proof.
  unfold overlayMove, Earlier.overlayMove.
  cbn [Earlier.image Earlier.state Earlier.floorMap Earlier.leaflet forget forgetState].
  destruct (image w) as [e |]; [ | reflexivity ].
  destruct (floorMap (state w)) as [fm |]; reflexivity.
Qed.

Lemma sim_handle (ev : Earlier.Event) (w : World) :
  untouched w ->
  Earlier.handle latLngToContainerPoint osmtogeojson ev (forget w)
  = (w1 <- handle (later ev) w ;; Ok (forget w1)).
Proof.
  intros (Ho & Hc & Hm).
  destruct ev; cbn [Earlier.handle handle later bind].
  - reflexivity.
  - unfold handleFileUpload, Earlier.handleFileUpload.
    cbn [Earlier.state Earlier.selectedBuildingRef forget forgetState].
    destruct file; [ destruct (selectedBuildingRef (state w)) | ]; reflexivity.
  - unfold handleScaleChange, Earlier.handleScaleChange,
      scaleUpdater, Earlier.scaleUpdater.
    cbn [Earlier.state Earlier.selectedBuildingRef Earlier.floorMap forget forgetState].
    destruct (floorMap (state w)) as [fm |]; [ | reflexivity ].
    destruct (selectedBuildingRef (state w)); reflexivity.
  - unfold handleRotationChange, Earlier.handleRotationChange.
    cbn [Earlier.state Earlier.floorMap forget forgetState].
    destruct (floorMap (state w)) as [fm |] eqn:Hfm; cbn [option_map];
      [ | reflexivity ].
    unfold Earlier.with_state, with_state, forget.
    cbn [state Earlier.state floorMap Earlier.floorMap forgetState
         setFloorMap Earlier.setFloorMap].
    rewrite !Hfm; reflexivity.
  - unfold removeFloorMap, Earlier.removeFloorMap.
    cbn [Earlier.state Earlier.floorMap forget forgetState].
    destruct (floorMap (state w)) as [fm |]; reflexivity.
  - f_equal.
    destruct (sim_updateClipPath (overlayMove (with_leaflet m w)) w Hm) as (-> & _).
    + destruct (overlayMove_frame (with_leaflet m w)) as (-> & _); exact Hc.
    + rewrite sim_overlayMove; reflexivity.
  - f_equal.
    destruct (sim_updateClipPath (with_leaflet m w) w Hm Hc) as (-> & _).
    reflexivity.
  - unfold debouncedFetchBuildingData, Earlier.debouncedFetchBuildingData.
    cbn [Earlier.debounced Earlier.now forget].
    destruct (timerId (debounced w)); [ | destruct (shouldInvoke _ _) ]; reflexivity.
  - unfold fetchBuildingData_resume, Earlier.fetchBuildingData_resume, try_catch, bind.
    destruct outcome; [ reflexivity | ].
    destruct (osmtogeojson data); reflexivity.
Qed.

Lemma untouched_handle (ev : Earlier.Event) (w w1 : World) :
  untouched w -> handle (later ev) w = Ok w1 -> untouched w1.
Proof.
  unfold untouched; intros (Ho & Hc & Hm) Hev.
  destruct ev; cbn [later handle] in Hev.
  - injection Hev as <-; auto.
  - injection Hev as <-; unfold handleFileUpload.
    destruct file; [ destruct (selectedBuildingRef (state w)) | ]; fields; auto.
  - unfold handleScaleChange, scaleUpdater in Hev.
    destruct (floorMap (state w)) as [fm |] eqn:Hfm;
      [ | injection Hev as <-; rewrite Hfm; auto ].
    destruct (selectedBuildingRef (state w)); simpl in Hev; [ | discriminate ].
    injection Hev as <-; fields; auto.
  - injection Hev as <-; unfold handleRotationChange.
    destruct (floorMap (state w)) as [fm |] eqn:Hfm; fields; rewrite ?Hfm; auto.
  - injection Hev as <-; unfold removeFloorMap.
    destruct (floorMap_url (floorMap (state w))); fields; auto.
  - injection Hev as <-.
    destruct (sim_updateClipPath (overlayMove (with_leaflet m w)) w Hm) as (_ & ->).
    + destruct (overlayMove_frame (with_leaflet m w)) as (-> & _); exact Hc.
    + destruct (updateClipPath_frame (floorMap (state w)) (overlayMove (with_leaflet m w)))
        as (-> & _ & -> & _).
      destruct (overlayMove_frame (with_leaflet m w)) as (-> & _); auto.
  - injection Hev as <-.
    destruct (sim_updateClipPath (with_leaflet m w) w Hm Hc) as (_ & ->).
    destruct (updateClipPath_frame (floorMap (state w)) (with_leaflet m w))
      as (-> & _ & -> & _); auto.
  - injection Hev as <-; unfold debouncedFetchBuildingData.
    destruct (timerId (debounced w)); [ | destruct (shouldInvoke _ _) ]; auto.
  - unfold fetchBuildingData_resume, try_catch, bind in Hev.
    destruct outcome; [ injection Hev as <-; auto | ].
    destruct (osmtogeojson data); injection Hev as <-; auto.
Qed.

Lemma sim_commit (w w1 : World) :
  untouched w -> untouched w1 ->
  forget (commit w w1) = Earlier.commit (forget w) (forget w1).
Proof.
  intros (Ho & Hc & Hm) (Ho1 & Hc1 & Hm1).
  unfold commit, Earlier.commit.
  assert (Hclean : forget (urlCleanup w w1) = Earlier.urlCleanup (forget w) (forget w1)).
  { unfold urlCleanup, Earlier.urlCleanup.
    cbn [Earlier.state Earlier.floorMap forget forgetState].
    destruct (floorMap (state w)) as [fm |], (floorMap (state w1)) as [fm1 |];
      cbn [floorMap_url Earlier.floorMap_url option_map forgetFloorMap Earlier.url];
      try destruct (Nat.eqb _ _); reflexivity. }
  rewrite <- Hclean.
  unfold imageEffect, Earlier.imageEffect.
  cbn [Earlier.state Earlier.floorMap Earlier.image forget forgetState].
  destruct (urlCleanup_frame w w1) as (Hs & _ & Hi & _).
  rewrite Hs, Ho, Ho1, Hc, Hc1.
  destruct (floorMap (state w1)) as [fm1 |]; cbn [option_map]; [ | reflexivity ].
  destruct (image (urlCleanup w w1)) as [e |]; cbn [option_map]; [ | reflexivity ].
  destruct (floorMap (state w)) as [fm |]; cbn [option_map]; [ | reflexivity ].
  cbn [forgetFloorMap Earlier.rotation].
  change (Qeq_bool 1 1) with true; cbn [String.eqb]; rewrite !andb_true_r.
  destruct (rotation fm =? rotation fm1)%Z; reflexivity.
Qed.

Lemma sim_dispatch (ev : Earlier.Event) (w : World) :
  untouched w ->
  Earlier.dispatch latLngToContainerPoint osmtogeojson ev (forget w)
  = (w' <- dispatch (later ev) w ;; Ok (forget w')) /\
  (forall w', dispatch (later ev) w = Ok w' -> untouched w').
Proof.
  intros Hw.
  unfold Earlier.dispatch, dispatch.
  rewrite (sim_handle ev w Hw).
  destruct (handle (later ev) w) as [w1 | e] eqn:Hh; cbn [bind];
    [ | split; [ reflexivity | discriminate ] ].
  pose proof (untouched_handle ev w w1 Hw Hh) as Hw1.
  split.
  - rewrite (sim_commit w w1 Hw Hw1); reflexivity.
  - intros w' [= <-].
    unfold untouched; rewrite state_commit; exact Hw1.
Qed.

Lemma sim_run (trace : list (Z * Earlier.Event)) :
  forall w : World,
    untouched w ->
    Earlier.run latLngToContainerPoint numberToString encodeURIComponent osmtogeojson
      trace (forget w)
    = (w' <- run (map (fun p => (fst p, later (snd p))) trace) w ;; Ok (forget w')).
Proof.
  induction trace as [| [t ev] rest IH]; intros w Hw; [ reflexivity | ].
  cbn [Earlier.run run map fst snd].
  rewrite <- sim_advanceTo.
  destruct (sim_dispatch ev (advanceTo t w) (untouched_advanceTo t w Hw)) as (-> & Hnext).
  destruct (dispatch (later ev) (advanceTo t w)) as [w1 | e]; cbn [bind];
    [ | reflexivity ].
  apply IH, Hnext; reflexivity.
Qed.

(** X12.  The later revision refines the earlier one
    ([src/components/Map/Layers/BuildingLayer.tsx]): on every sequence
    of timed events of the earlier revision (clicks, uploads, the scale
    and rotation sliders, the remove button, map moves and zooms,
    settled fetches), from the mount on, both revisions throw at the same
    event with the same error or end in states that agree on everything
    the earlier one has: footprints, selection, overlay, panel, the
    element's rotation and pivot, object URLs created and released,
    requests posted, [console.error] lines and the debounce timer.
    (What the later revision writes with [console.log] in
    [handleFileUpload] is outside the comparison.) *)
Theorem later_revision_refines_earlier :
  forall (trace : list (Z * Earlier.Event)) (m : LeafletMap) (t : Z),
    Earlier.run latLngToContainerPoint numberToString encodeURIComponent osmtogeojson
      trace (Earlier.mount numberToString encodeURIComponent m t)
    = (w' <- run (map (fun p => (fst p, later (snd p))) trace) (mount m t) ;;
       Ok (forget w')).
Proof.
  intros trace m t.
  assert (Hm : Earlier.mount numberToString encodeURIComponent m t = forget (mount m t)).
  { unfold mount, Earlier.mount; rewrite sim_fetchBuildingData; reflexivity. }
  rewrite Hm; apply sim_run.
  unfold untouched, mount.
  match goal with |- context [fetchBuildingData ?v] =>
    destruct (fetchBuildingData_overlay v) as (-> & _ & -> & -> & _) end.
  repeat split; reflexivity.
Qed.

(** X13.  The earlier revision throws at no event either: every
    sequence of timed events runs through from the mount on, and in the
    state it ends in an attached overlay has a selected footprint, so
    the unguarded [selectedBuildingRef.current.getBounds()] of its scale
    slider finds one. *)
Theorem earlier_revision_never_throws :
  forall (trace : list (Z * Earlier.Event)) (m : LeafletMap) (t : Z),
  exists w : Earlier.World,
    Earlier.run latLngToContainerPoint numberToString encodeURIComponent osmtogeojson
      trace (Earlier.mount numberToString encodeURIComponent m t) = Ok w /\
    (Earlier.floorMap (Earlier.state w) <> None ->
     Earlier.selectedBuildingRef (Earlier.state w) <> None) /\
    (forall (t' : Z) (ev : Earlier.Event),
     exists w',
       Earlier.dispatch latLngToContainerPoint osmtogeojson ev
         (Earlier.advanceTo numberToString encodeURIComponent t' w) = Ok w').
Proof.
  intros trace m t.
  assert (Hm : Earlier.mount numberToString encodeURIComponent m t = forget (mount m t)).
  { unfold mount, Earlier.mount; rewrite sim_fetchBuildingData; reflexivity. }
  assert (Hu : untouched (mount m t)).
  { unfold untouched, mount.
    match goal with |- context [fetchBuildingData ?v] =>
      destruct (fetchBuildingData_overlay v) as (-> & _ & -> & -> & _) end.
    repeat split; reflexivity. }
  assert (Hrun_u : forall tr w w', untouched w ->
            run (map (fun p => (fst p, later (snd p))) tr) w = Ok w' -> untouched w').
  { induction tr as [| [t0 ev0] rest IH]; intros w w' Hw Hrun.
    - injection Hrun as <-; exact Hw.
    - cbn [map fst snd run] in Hrun.
      destruct (sim_dispatch ev0 (advanceTo t0 w) (untouched_advanceTo t0 w Hw))
        as (_ & Hnext).
      destruct (dispatch (later ev0) (advanceTo t0 w)) as [w1 | e] eqn:Hd;
        cbn [bind] in Hrun; [ | discriminate ].
      exact (IH w1 w' (Hnext w1 eq_refl) Hrun). }
  destruct (run_total (map (fun p => (fst p, later (snd p))) trace) (mount m t)
              (selection_kept_mount m t)) as (w & Hrun & Hk).
  exists (forget w).
  split; [ | split ].
  - rewrite Hm, (sim_run trace (mount m t) Hu), Hrun; reflexivity.
  - cbn [forget forgetState Earlier.state Earlier.floorMap Earlier.selectedBuildingRef].
    intros Hfm; apply Hk.
    destruct (floorMap (state w)); [ discriminate | exfalso; apply Hfm; reflexivity ].
  - intros t' ev.
    pose proof (Hrun_u trace (mount m t) w Hu Hrun) as Huw.
    rewrite <- sim_advanceTo.
    destruct (sim_dispatch ev (advanceTo t' w) (untouched_advanceTo t' w Huw)) as (-> & _).
    destruct (dispatch_total (later ev) (advanceTo t' w)
                (selection_kept_advanceTo t' w Hk)) as (w' & -> & _).
    eexists; reflexivity.
Qed.

End Properties.

Lemma reachable_worldB :
  reachable gridProjection ratioToString plainEncoding emptyOnly worldB.
Proof.
  apply reachable_step with (w := selectedB) (t := 0%Z) (ev := FileChosen (Some "plan.png")).
  - apply reachable_step with (w := mountedHome) (t := 0%Z) (ev := BuildingClick footprintB).
    + apply reachable_mount.
    + vm_compute; reflexivity.
  - vm_compute; reflexivity.
Defined.

Lemma attached_overlay_has_selection_witness :
  reachable gridProjection ratioToString plainEncoding emptyOnly worldB /\
  floorMap (state worldB) <> None /\
  selectedBuildingRef (state worldB) <> None.
Proof.
  assert (Hfm : floorMap (state worldB) <> None) by (vm_compute; discriminate).
  split; [ exact reachable_worldB | ].
  split; [ exact Hfm | ].
  exact (proj1 (attached_overlay_has_selection gridProjection ratioToString
                  plainEncoding emptyOnly worldB reachable_worldB) Hfm).
Defined.

Lemma attach_initial_state_witness :
  floorMap (state selectedB) = None /\
  selectedBuildingRef (state selectedB) = Some footprintB /\
  exists w',
    dispatch gridProjection emptyOnly (FileChosen (Some "plan.png")) selectedB = Ok w' /\
    floorMap (state w') =
      Some {| url := created selectedB; bounds := layer_getBounds footprintB;
              scale := 1; rotation := 0; masked := false |} /\
    opacity (state w') = 1 /\
    showControls (state w') = true /\
    selectedBuildingRef (state w') = Some footprintB /\
    revoked w' = revoked selectedB.
Proof.
  assert (Hempty : floorMap (state selectedB) = None) by (vm_compute; reflexivity).
  assert (Hsel : selectedBuildingRef (state selectedB) = Some footprintB)
    by (vm_compute; reflexivity).
  split; [ exact Hempty | ].
  split; [ exact Hsel | ].
  exact (attach_initial_state gridProjection emptyOnly selectedB footprintB
           "plan.png" Hempty Hsel).
Defined.

Lemma floorMap_worldB : floorMap (state worldB) = Some floorMapB.
Proof. vm_compute; reflexivity. Qed.

Lemma selection_worldB : selectedBuildingRef (state worldB) = Some footprintB.
Proof. vm_compute; reflexivity. Qed.

Lemma valid_footprintB : valid_bounds (layer_getBounds footprintB).
Proof. split; vm_compute; discriminate. Qed.

Lemma bounded_footprintB : bounded 180 (layer_getBounds footprintB).
Proof. repeat split; vm_compute; discriminate. Qed.

Lemma noOverflow_180 : noOverflow 180.
Proof. vm_compute; discriminate. Qed.

(** Scenario C: half the scale on the overlay of scenario B. *)
Lemma setScale_bounds_witness :
  floorMap (state worldB) = Some floorMapB /\
  valid_bounds (layer_getBounds footprintB) /\
  bounded 180 (layer_getBounds footprintB) /\
  exists w' fm',
    dispatch gridProjection emptyOnly (ScaleInput (1 # 2)) worldB = Ok w' /\
    floorMap (state w') = Some fm' /\
    within (2 * tolerance 180) (width (bounds fm'))
      ((1 # 2) * width (layer_getBounds footprintB)) /\
    within (2 * tolerance 180) (height (bounds fm'))
      ((1 # 2) * height (layer_getBounds footprintB)) /\
    near (tolerance 180) (midpoint (bounds fm')) (midpoint (bounds floorMapB)) /\
    scale fm' = 1 # 2 /\
    url fm' = url floorMapB /\ rotation fm' = rotation floorMapB /\
    masked fm' = masked floorMapB.
Proof.
  split; [ exact floorMap_worldB | ].
  split; [ exact valid_footprintB | ].
  split; [ exact bounded_footprintB | ].
  apply (setScale_bounds gridProjection emptyOnly worldB floorMapB footprintB (1 # 2) 180
           floorMap_worldB selection_worldB valid_footprintB bounded_footprintB
           bounded_footprintB noOverflow_180).
  split; vm_compute; discriminate.
Defined.

(** Scenario C in numbers, as JavaScript prints them: the box
    (40.710499999999996, -74.0095)-(40.7115, -74.0085).  Its height is
    half the footprint's up to the twelfth decimal, and not exactly. *)
Example scenario_C :
  exists w' fm',
    dispatch gridProjection emptyOnly (ScaleInput (1 # 2)) worldB = Ok w' /\
    floorMap (state w') = Some fm' /\
    bounds fm' =
      {| southWest := {| lat := literal (40710499999999996 # 1000000000000000);
                         lng := literal (- (740095 # 10000)) |};
         northEast := {| lat := literal (407115 # 10000);
                         lng := literal (- (740085 # 10000)) |} |} /\
    within (1 # 1000000000000) (height (bounds fm'))
      ((1 # 2) * height (layer_getBounds footprintB)) /\
    ~ height (bounds fm') == (1 # 2) * height (layer_getBounds footprintB).
Proof.
  eexists; eexists.
  split; [ vm_compute; reflexivity | ].
  split; [ vm_compute; reflexivity | ].
  split; [ vm_compute; reflexivity | ].
  split; [ split; vm_compute; discriminate | ].
  vm_compute; discriminate.
Qed.

Lemma reachable_reselectedB :
  reachable gridProjection ratioToString plainEncoding emptyOnly reselectedB.
Proof.
  apply reachable_step with (w := worldB) (t := 0%Z) (ev := BuildingClick footprintE).
  - exact reachable_worldB.
  - vm_compute; reflexivity.
Qed.

(** The overlay of scenario B after a click on another footprint: it
    lies on the bounding box of the footprint it was attached to; half
    the scale gives it half the width and height of the footprint now
    selected, not of the one it was attached to. *)
Lemma setScale_follows_reselection :
  reachable gridProjection ratioToString plainEncoding emptyOnly reselectedB /\
  (exists fm,
     floorMap (state reselectedB) = Some fm /\
     bounds fm = layer_getBounds footprintB) /\
  selectedBuildingRef (state reselectedB) = Some footprintE /\
  exists w' fm',
    dispatch gridProjection emptyOnly (ScaleInput (1 # 2)) reselectedB = Ok w' /\
    floorMap (state w') = Some fm' /\
    ~ within (2 * tolerance 180) (width (bounds fm'))
        ((1 # 2) * width (layer_getBounds footprintB)) /\
    ~ within (2 * tolerance 180) (height (bounds fm'))
        ((1 # 2) * height (layer_getBounds footprintB)) /\
    within (2 * tolerance 180) (width (bounds fm'))
      ((1 # 2) * width (layer_getBounds footprintE)) /\
    within (2 * tolerance 180) (height (bounds fm'))
      ((1 # 2) * height (layer_getBounds footprintE)).
Proof.
  split; [ exact reachable_reselectedB | ].
  split; [ eexists; split; vm_compute; reflexivity | ].
  split; [ vm_compute; reflexivity | ].
  eexists; eexists.
  split; [ vm_compute; reflexivity | ].
  split; [ vm_compute; reflexivity | ].
  split; [ intros (H & _); vm_compute in H; apply H; reflexivity | ].
  split; [ intros (H & _); vm_compute in H; apply H; reflexivity | ].
  split; split; vm_compute; discriminate.
Qed.

(** Scale 2 and then scale 1 on the overlay of scenario B, and the same
    with the mask button and the rotation slider in between, at later
    times: the overlay ends on the footprint's bounding box, within the
    tolerance. *)
Lemma setScale_last_write_wins_witness :
  valid_bounds (layer_getBounds footprintB) /\
  bounded 180 (layer_getBounds footprintB) /\
  (exists w1 w2 fm1 fm2,
     dispatchAll gridProjection emptyOnly (map ScaleInput ([2] ++ [1])) worldB = Ok w1 /\
     dispatchAll gridProjection emptyOnly [ScaleInput 1] worldB = Ok w2 /\
     floorMap (state w1) = Some fm1 /\
     floorMap (state w2) = Some fm2 /\
     scale fm1 = 1 /\ scale fm2 = 1 /\
     close (times 2 (tolerance 180)) (bounds fm1)
           (idealBox (midpoint (bounds floorMapB)) footprintB 1) /\
     close (times 3 (tolerance 180)) (bounds fm1) (bounds fm2)) /\
  (exists w' fm',
     run gridProjection ratioToString plainEncoding emptyOnly
       ([(0%Z, ScaleInput 2); (10%Z, MaskClick); (20%Z, RotationInput 90)]
        ++ [(30%Z, ScaleInput 1)]) worldB = Ok w' /\
     floorMap (state w') = Some fm' /\
     close (times 2 (tolerance 180)) (bounds fm') (layer_getBounds footprintB)).
Proof.
  destruct (setScale_last_write_wins gridProjection ratioToString plainEncoding emptyOnly
              footprintB 180 valid_footprintB bounded_footprintB noOverflow_180)
    as (Hlast & Hrestore).
  split; [ exact valid_footprintB | ].
  split; [ exact bounded_footprintB | ].
  split.
  - destruct (Hlast worldB floorMapB [2] 1 floorMap_worldB selection_worldB
                bounded_footprintB)
      as (w1 & w2 & fm1 & fm2 & H1 & H2 & Hfm1 & Hfm2 & _ & Hs1 & Hs2 & _ & _ & Hto & Hcl).
    + repeat constructor; vm_compute; discriminate.
    + vm_compute; discriminate.
    + exists w1, w2, fm1, fm2.
      repeat (split; [ assumption | ]); assumption.
  - destruct (run gridProjection ratioToString plainEncoding emptyOnly
                ([(0%Z, ScaleInput 2); (10%Z, MaskClick); (20%Z, RotationInput 90)]
                 ++ [(30%Z, ScaleInput 1)]) worldB) as [w' | err] eqn:Hrun;
      [ | vm_compute in Hrun; discriminate Hrun ].
    destruct (floorMap (state w')) as [fm' |] eqn:Hfm';
      [ | vm_compute in Hrun; injection Hrun as <-; vm_compute in Hfm'; discriminate Hfm' ].
    exists w', fm'.
    split; [ reflexivity | ].
    split; [ exact Hfm' | ].
    destruct (Hrestore selectedB worldB "plan.png"
                [(0%Z, ScaleInput 2); (10%Z, MaskClick); (20%Z, RotationInput 90)] 30%Z)
      as (w'' & Hrun' & Hclose).
    + vm_compute; reflexivity.
    + vm_compute; reflexivity.
    + repeat constructor; vm_compute; discriminate.
    + vm_compute; discriminate.
    + rewrite Hrun in Hrun'; injection Hrun' as <-.
      exact (Hclose fm' Hfm').
Defined.

(** The overlay of scenario B after a click on another footprint: it
    still lies on the bounding box of the footprint it was attached to;
    scale 2 and then scale 1 leave it neither on that box nor on the
    bounding box of the footprint now selected, by far more than the
    tolerance. *)
Lemma setScale_not_restoring :
  reachable gridProjection ratioToString plainEncoding emptyOnly reselectedB /\
  (exists fm,
     floorMap (state reselectedB) = Some fm /\
     bounds fm = layer_getBounds footprintB) /\
  selectedBuildingRef (state reselectedB) = Some footprintE /\
  exists w' fm',
    dispatchAll gridProjection emptyOnly [ScaleInput 2; ScaleInput 1] reselectedB
      = Ok w' /\
    floorMap (state w') = Some fm' /\
    ~ close (times 3 (tolerance 180)) (bounds fm') (layer_getBounds footprintB) /\
    ~ close (times 3 (tolerance 180)) (bounds fm') (layer_getBounds footprintE).
Proof.
  split; [ exact reachable_reselectedB | ].
  split; [ eexists; split; vm_compute; reflexivity | ].
  split; [ vm_compute; reflexivity | ].
  eexists; eexists.
  split; [ vm_compute; reflexivity | ].
  split; [ vm_compute; reflexivity | ].
  split; intros ((_ & H) & _); vm_compute in H; apply H; reflexivity.
Qed.

Lemma reachable_maskedB :
  reachable gridProjection ratioToString plainEncoding emptyOnly maskedB.
Proof.
  apply reachable_step with (w := worldB) (t := 0%Z) (ev := MaskClick).
  - exact reachable_worldB.
  - vm_compute; reflexivity.
Qed.

(** Scenario D: the mask on, then a pan by (5, 5) pixels. *)
Lemma clip_follows_viewport_witness :
  floorMap (state maskedB) = Some floorMapD /\
  selectedBuildingRef (state maskedB) = Some footprintB /\
  projectedRing gridProjection (panned 5 5 (mapA homeZoom)) (layer_getLatLngs0 footprintB)
    = [ {| x := 995; y := 995 |}; {| x := 995; y := 795 |};
        {| x := 1195; y := 795 |}; {| x := 1195; y := 995 |} ] /\
  exists w',
    dispatch gridProjection emptyOnly (MapMove (panned 5 5 (mapA homeZoom))) maskedB
      = Ok w' /\
    clipPath (state w')
      = "polygon(995px 995px, 995px 795px, 1195px 795px, 1195px 995px)" /\
    polygonVertexCount (clipPath (state w')) = 4%nat /\
    clipSynced (panned 5 5 (mapA homeZoom)) floorMapD footprintB maskedB w'.
Proof.
  assert (Hfm : floorMap (state maskedB) = Some floorMapD) by (vm_compute; reflexivity).
  assert (Hsel : selectedBuildingRef (state maskedB) = Some footprintB)
    by (vm_compute; reflexivity).
  split; [ exact Hfm | ].
  split; [ exact Hsel | ].
  split; [ vm_compute; reflexivity | ].
  destruct (clip_follows_viewport gridProjection emptyOnly maskedB floorMapD footprintB
              (panned 5 5 (mapA homeZoom)) Hfm eq_refl Hsel
              (MapMove (panned 5 5 (mapA homeZoom))) (or_introl eq_refl))
    as (w' & Hd & Hclip & _ & Hcount & Hsync).
  exists w'.
  split; [ exact Hd | ].
  split; [ rewrite Hclip; vm_compute; reflexivity | ].
  split; [ exact Hcount | exact Hsync ].
Defined.

(** Scenario D in pixels. *)
Example scenario_D :
  exists w' e,
    dispatch gridProjection emptyOnly (MapMove (panned 5 5 (mapA homeZoom))) maskedB
      = Ok w' /\
    clipPath (state w')
      = "polygon(995px 995px, 995px 795px, 1195px 795px, 1195px 995px)" /\
    image w' = Some e /\
    style_clipPath e
      = "polygon(995px 995px, 995px 795px, 1195px 795px, 1195px 995px)".
Proof.
  eexists; eexists.
  split; [ vm_compute; reflexivity | ].
  split; [ vm_compute; reflexivity | ].
  split; vm_compute; reflexivity.
Qed.

(** C2, at scenario B.  The mask button turns [masked] on, and the clip
    path stays empty although the selected footprint's silhouette under
    the current view is a four-vertex polygon: the silhouette is not
    set when masking is turned on. *)
Theorem mask_on_sets_no_silhouette :
  exists w',
    dispatch gridProjection emptyOnly MaskClick worldB = Ok w' /\
    floorMap_masked (floorMap (state w')) = true /\
    selectedBuildingRef (state w') = Some footprintB /\
    clipPath (state w') = "" /\
    polygonOf gridProjection (leaflet w') (layer_getLatLngs0 footprintB)
      = "polygon(1000px 1000px, 1000px 800px, 1200px 800px, 1200px 1000px)".
Proof.
  eexists.
  split; [ vm_compute; reflexivity | ].
  repeat split; vm_compute; reflexivity.
Qed.

(** C3, at scenario B.  The button "Remove Floor Map" revokes the
    overlay's URL, and the render that follows revokes it again: two
    releases of one handle. *)
Theorem remove_releases_twice :
  exists w',
    dispatch gridProjection emptyOnly RemoveClick worldB = Ok w' /\
    floorMap_url (floorMap (state worldB)) = Some 0%nat /\
    releases 0%nat worldB = 0%nat /\
    floorMap (state w') = None /\
    releases 0%nat w' = 2%nat.
Proof.
  eexists.
  split; [ vm_compute; reflexivity | ].
  repeat split; vm_compute; reflexivity.
Qed.

(** A drag in three moves at zoom 16: one run of the fetch, at 1950 ms,
    on the view of the third move, posting one request. *)
Lemma debounced_burst_fetches_once_witness :
  timerId (debounced mountedA) = None /\
  burstWithin 1000 (1000 + wait) (dragRest 16) /\
  exists w1,
    run gridProjection ratioToString plainEncoding emptyOnly
      (burstTrace (dragStart 16 :: dragRest 16)) mountedA = Ok w1 /\
    fetchCalls (advanceTo ratioToString plainEncoding 1949 w1) = fetchCalls mountedA /\
    fetchCalls (advanceTo ratioToString plainEncoding 1950 w1)
      = (1950%Z, panned 30 5 (mapA 16)) :: fetchCalls mountedA /\
    posted (advanceTo ratioToString plainEncoding 1950 w1)
      = overpassRequest ratioToString plainEncoding (panned 30 5 (mapA 16))
        :: posted mountedA.
Proof.
  assert (Hidle : timerId (debounced mountedA) = None) by (vm_compute; reflexivity).
  assert (Hnow : (now mountedA <= fst (dragStart 16))%Z) by (vm_compute; discriminate).
  assert (Hburst : burstWithin (fst (dragStart 16)) (fst (dragStart 16) + wait)
                     (dragRest 16)).
  { unfold dragRest, dragStart, wait; simpl; lia. }
  split; [ exact Hidle | ].
  split; [ exact Hburst | ].
  destruct (proj1 (debounced_burst_fetches_once gridProjection ratioToString
                     plainEncoding emptyOnly mountedA (dragStart 16) (dragRest 16)
                     Hidle Hnow Hburst))
    as (w1 & Hrun & _ & _ & Hbefore & Hafter).
  exists w1.
  split; [ exact Hrun | ].
  split; [ apply (Hbefore 1949%Z); unfold wait; simpl; lia | ].
  destruct (Hafter 1950%Z) as (Hcalls & _ & Hposted & _);
    [ unfold wait; simpl; lia | ].
  split; [ exact Hcalls | ].
  apply Hposted; vm_compute; discriminate.
Defined.

(** The same drag at the page's zoom 13: the fetch routine runs at
    1950 ms and posts nothing; nor was anything posted on mount.  No
    fetch is issued at all. *)
Lemma burst_below_zoom_15_posts_nothing :
  posted mountedHome = [] /\
  exists w1,
    run gridProjection ratioToString plainEncoding emptyOnly
      (burstTrace (dragStart homeZoom :: dragRest homeZoom)) mountedHome = Ok w1 /\
    fetchCalls (advanceTo ratioToString plainEncoding 1950 w1)
      = [(1950%Z, panned 30 5 (mapA homeZoom)); (0%Z, mapA homeZoom)] /\
    posted (advanceTo ratioToString plainEncoding 1950 w1) = [] /\
    posted (advanceTo ratioToString plainEncoding 60000 w1) = [].
Proof.
  split; [ vm_compute; reflexivity | ].
  eexists.
  split; [ vm_compute; reflexivity | ].
  repeat split; vm_compute; reflexivity.
Qed.

(** Scenario A, and the same map at zoom 13. *)
Lemma fetch_zoom_gate_witness :
  15 <= map_getZoom (leaflet mountedA) /\
  map_getZoom (leaflet mountedHome) < 15 /\
  (posted (fetchBuildingData ratioToString plainEncoding mountedA)
     = overpassRequest ratioToString plainEncoding (leaflet mountedA) :: posted mountedA /\
   geojsonData (state (fetchBuildingData ratioToString plainEncoding mountedA))
     = geojsonData (state mountedA)) /\
  (posted (fetchBuildingData ratioToString plainEncoding mountedHome)
     = posted mountedHome /\
   geojsonData (state (fetchBuildingData ratioToString plainEncoding mountedHome))
     = None).
Proof.
  assert (Hge : 15 <= map_getZoom (leaflet mountedA)) by (vm_compute; discriminate).
  assert (Hlt : map_getZoom (leaflet mountedHome) < 15) by (vm_compute; reflexivity).
  split; [ exact Hge | ].
  split; [ exact Hlt | ].
  split.
  - exact (proj1 (fetch_zoom_gate ratioToString plainEncoding mountedA) Hge).
  - exact (proj1 (proj2 (fetch_zoom_gate ratioToString plainEncoding mountedHome)) Hlt).
Defined.

(** The query of scenario A. *)
Example scenario_A :
  req_data (overpassRequest ratioToString plainEncoding (mapA 16))
  = "data=" ++ newline
    ++ "      [out:json][timeout:25];" ++ newline
    ++ "      (" ++ newline
    ++ "        way[" ++ dquote ++ "building" ++ dquote ++ "][" ++ dquote
    ++ "building" ++ dquote ++ "~" ++ dquote
    ++ "^(residential|commercial|office|retail)$" ++ dquote
    ++ "](4070/100,-7402/100,4072/100,-7400/100);" ++ newline
    ++ "      );" ++ newline
    ++ "      out body 500;" ++ newline
    ++ "      >;" ++ newline
    ++ "      out skel qt;" ++ newline
    ++ "    ".
Proof. vm_compute; reflexivity. Qed.

(** A rejected request, and a response [osmtogeojson] cannot read. *)
Lemma fetch_failure_keeps_footprints_witness :
  fetchFailed emptyOnly (Rejected "Network Error") /\
  fetchFailed emptyOnly (Fulfilled "<html>") /\
  (exists w' line,
     dispatch gridProjection emptyOnly (FetchSettled (Rejected "Network Error")) worldB
       = Ok w' /\
     state w' = state worldB /\ console w' = line :: console worldB /\
     starts_with "Error fetching building data:" line = true) /\
  (exists w' line,
     dispatch gridProjection emptyOnly (FetchSettled (Fulfilled "<html>")) worldB
       = Ok w' /\
     state w' = state worldB /\ console w' = line :: console worldB /\
     starts_with "Error fetching building data:" line = true).
Proof.
  assert (Hrej : fetchFailed emptyOnly (Rejected "Network Error")) by exact I.
  assert (Hbad : fetchFailed emptyOnly (Fulfilled "<html>"))
    by (eexists; vm_compute; reflexivity).
  split; [ exact Hrej | ].
  split; [ exact Hbad | ].
  split.
  - exact (proj1 (fetch_failure_keeps_footprints gridProjection ratioToString
                    plainEncoding emptyOnly worldB _ Hrej)).
  - exact (proj1 (fetch_failure_keeps_footprints gridProjection ratioToString
                    plainEncoding emptyOnly worldB _ Hbad)).
Defined.

(** A second image on the overlay of scenario B. *)
Lemma replacing_releases_old_once_witness :
  exists w' fm',
    dispatch gridProjection emptyOnly (FileChosen (Some "plan2.png")) worldB = Ok w' /\
    floorMap (state w') = Some fm' /\
    url fm' <> url floorMapB /\
    releases (url floorMapB) w' = S (releases (url floorMapB) worldB) /\
    releases (url fm') w' = 0%nat.
Proof.
  exact (replacing_releases_old_once gridProjection ratioToString plainEncoding
           emptyOnly worldB floorMapB footprintB "plan2.png"
           reachable_worldB floorMap_worldB selection_worldB).
Defined.

Lemma removing_releases_twice_witness :
  exists w',
    dispatch gridProjection emptyOnly RemoveClick worldB = Ok w' /\
    floorMap (state w') = None /\
    revoked w' = url floorMapB :: url floorMapB :: revoked worldB /\
    releases (url floorMapB) w' = S (S (releases (url floorMapB) worldB)).
Proof.
  exact (removing_releases_twice gridProjection emptyOnly worldB floorMapB
           floorMap_worldB).
Defined.

Lemma mask_twice_restores_witness :
  clipPath (state worldB) = "" /\
  image worldB = Some elementB /\
  exists w',
    dispatchAll gridProjection emptyOnly [MaskClick; MaskClick] worldB = Ok w' /\
    state w' = state worldB /\
    image w' = image worldB /\
    revoked w' = revoked worldB.
Proof.
  assert (Hclip : clipPath (state worldB) = "") by (vm_compute; reflexivity).
  assert (Himg : image worldB = Some elementB) by (vm_compute; reflexivity).
  split; [ exact Hclip | ].
  split; [ exact Himg | ].
  exact (mask_twice_restores gridProjection emptyOnly worldB floorMapB elementB
           floorMap_worldB eq_refl Hclip Himg).
Defined.

(** The mask on, a pan, the mask off: the clip path is empty again, yet
    the image element keeps the silhouette written during the pan. *)
Example mask_off_leaves_element_clipped :
  exists w' e,
    dispatchAll gridProjection emptyOnly
      [MaskClick; MapMove (panned 5 5 (mapA homeZoom)); MaskClick] worldB = Ok w' /\
    floorMap_masked (floorMap (state w')) = false /\
    clipPath (state w') = "" /\
    image w' = Some e /\
    style_clipPath e
      = "polygon(995px 995px, 995px 795px, 1195px 795px, 1195px 995px)".
Proof.
  eexists; eexists.
  split; [ vm_compute; reflexivity | ].
  repeat split; vm_compute; reflexivity.
Qed.

(** Unmounting with an overlay attached revokes its URL once. *)
Lemma unmount_releases_once (w : World) (fm : FloorMapState) :
  floorMap (state w) = Some fm ->
  releases (url fm) (unmount w) = S (releases (url fm) w).
Proof.
  intros Hfm; unfold unmount, releases; rewrite Hfm.
  cbn [floorMap_url option_map revoked with_image revokeObjectURL].
  rewrite count_occ_cons_eq by reflexivity; reflexivity.
Qed.


(** Scenario B with the overlay removed: URL 0 was attached and is
    released, once or twice. *)
Lemma reachable_removedB :
  reachable gridProjection ratioToString plainEncoding emptyOnly removedB.
Proof.
  apply reachable_step with (w := worldB) (t := 0%Z) (ev := RemoveClick).
  - exact reachable_worldB.
  - vm_compute; reflexivity.
Defined.

Lemma object_urls_lifecycle_witness :
  reachable gridProjection ratioToString plainEncoding emptyOnly removedB /\
  (0 < created removedB)%nat /\
  floorMap_url (floorMap (state removedB)) <> Some 0%nat /\
  (1 <= releases 0 removedB)%nat /\ (releases 0 removedB <= 2)%nat.
Proof.
  assert (Hc : (0 < created removedB)%nat) by (vm_compute; lia).
  assert (Hu : floorMap_url (floorMap (state removedB)) <> Some 0%nat)
    by (vm_compute; discriminate).
  split; [ exact reachable_removedB | ].
  split; [ exact Hc | ].
  split; [ exact Hu | ].
  exact (proj1 (proj2 (object_urls_lifecycle gridProjection ratioToString plainEncoding
                         emptyOnly removedB reachable_removedB))
           0%nat Hc Hu).
Defined.

(** Scenario A with a drag of 1.6 s: one fetch, 500 ms after its last
    move. *)
Lemma debounced_chain_fetches_once_witness :
  timerId (debounced mountedA) = None /\
  chained (fst (dragStart 16)) (longDrag 16) /\
  exists w1,
    run gridProjection ratioToString plainEncoding emptyOnly
      (burstTrace (dragStart 16 :: longDrag 16)) mountedA = Ok w1 /\
    fetchCalls (advanceTo ratioToString plainEncoding 3099 w1) = fetchCalls mountedA /\
    fetchCalls (advanceTo ratioToString plainEncoding 3100 w1)
      = (3100%Z, panned 50 5 (mapA 16)) :: fetchCalls mountedA.
Proof.
  assert (Hidle : timerId (debounced mountedA) = None) by (vm_compute; reflexivity).
  assert (Hnow : (now mountedA <= fst (dragStart 16))%Z) by (vm_compute; discriminate).
  assert (Hchain : chained (fst (dragStart 16)) (longDrag 16)).
  { unfold longDrag, dragStart; simpl; lia. }
  split; [ exact Hidle | ].
  split; [ exact Hchain | ].
  destruct (debounced_chain_fetches_once gridProjection ratioToString plainEncoding
              emptyOnly mountedA (dragStart 16) (longDrag 16) Hidle Hnow Hchain)
    as (w1 & Hrun & _ & _ & Hbefore & Hafter).
  exists w1.
  split; [ exact Hrun | ].
  split.
  - apply (Hbefore 3099%Z); vm_compute; reflexivity.
  - exact (proj1 (Hafter 3100%Z 3100%Z ltac:(vm_compute; discriminate))).
Defined.

(** Scenario D after the pan, then the mask off, the scale slider and a
    new image: the element is still clipped. *)
Lemma element_stays_clipped_witness :
  image clippedB = Some elementD /\
  exists w' e',
    dispatchAll gridProjection emptyOnly
      [MaskClick; ScaleInput 2; FileChosen (Some "plan2.png")] clippedB = Ok w' /\
    floorMap_masked (floorMap (state w')) = false /\
    image w' = Some e' /\ style_clipPath e' <> "".
Proof.
  assert (Hfm : floorMap (state clippedB) <> None) by (vm_compute; discriminate).
  assert (Hi : image clippedB = Some elementD) by (vm_compute; reflexivity).
  assert (Hclip : style_clipPath elementD <> "") by (vm_compute; discriminate).
  assert (Hno : ~ In RemoveClick [MaskClick; ScaleInput 2; FileChosen (Some "plan2.png")]).
  { intros [H | [H | [H | []]]]; discriminate H. }
  split; [ exact Hi | ].
  destruct (dispatchAll gridProjection emptyOnly
              [MaskClick; ScaleInput 2; FileChosen (Some "plan2.png")] clippedB)
    as [w' | err] eqn:Hrun; [ | vm_compute in Hrun; discriminate Hrun ].
  destruct (element_stays_clipped gridProjection emptyOnly _ clippedB w' elementD
              Hfm Hi Hclip Hno Hrun) as (_ & e' & Hi' & Hclip').
  exists w', e'.
  split; [ reflexivity | ].
  split; [ | split; [ exact Hi' | exact Hclip' ] ].
  vm_compute in Hrun; injection Hrun as <-; vm_compute; reflexivity.
Defined.

(** The page's map at zoom 13: the mount clears the footprints, a
    response that arrives afterwards brings footprints back. *)
Lemma fetch_success_replaces_footprints_witness :
  emptyOnly "{elements:[]}" = Ok {| features := [] |} /\
  map_getZoom (leaflet mountedHome) < 15 /\
  geojsonData (state (fetchBuildingData ratioToString plainEncoding mountedHome)) = None /\
  exists w',
    dispatch gridProjection emptyOnly (FetchSettled (Fulfilled "{elements:[]}"))
      (fetchBuildingData ratioToString plainEncoding mountedHome) = Ok w' /\
    map_getZoom (leaflet w') < 15 /\
    geojsonData (state w') = Some {| features := [] |}.
Proof.
  assert (Hread : emptyOnly "{elements:[]}" = Ok {| features := [] |}) by reflexivity.
  assert (Hz : map_getZoom (leaflet mountedHome) < 15) by (vm_compute; reflexivity).
  split; [ exact Hread | ].
  split; [ exact Hz | ].
  exact (proj1 (proj2 (fetch_success_replaces_footprints gridProjection ratioToString
                         plainEncoding emptyOnly mountedHome "{elements:[]}"
                         {| features := [] |} Hread))
           Hz).
Defined.


(** Scenario B, the mask button, then a pan by (5, 5) pixels. *)
Lemma silhouette_appears_on_next_move_witness :
  projectedRing gridProjection (panned 5 5 (mapA homeZoom)) (layer_getLatLngs0 footprintB)
    = [ {| x := 995; y := 995 |}; {| x := 995; y := 795 |};
        {| x := 1195; y := 795 |}; {| x := 1195; y := 995 |} ] /\
  exists w' e',
    dispatchAll gridProjection emptyOnly
      [MaskClick; MapMove (panned 5 5 (mapA homeZoom))] worldB = Ok w' /\
    floorMap (state w') = Some floorMapD /\
    clipPath (state w')
      = "polygon(995px 995px, 995px 795px, 1195px 795px, 1195px 995px)" /\
    image w' = Some e' /\
    style_clipPath e'
      = "polygon(995px 995px, 995px 795px, 1195px 795px, 1195px 995px)".
Proof.
  split; [ vm_compute; reflexivity | ].
  destruct (silhouette_appears_on_next_move gridProjection emptyOnly worldB floorMapB
              footprintB (panned 5 5 (mapA homeZoom))
              (MapMove (panned 5 5 (mapA homeZoom)))
              floorMap_worldB eq_refl selection_worldB (or_introl eq_refl))
    as (w' & e' & Hrun & Hfm & Hclip & Hi & Hstyle).
  exists w', e'.
  split; [ exact Hrun | ].
  split; [ exact Hfm | ].
  split; [ rewrite Hclip; vm_compute; reflexivity | ].
  split; [ exact Hi | ].
  rewrite Hstyle; vm_compute; reflexivity.
Defined.

Lemma panel_and_element_follow_overlay_witness :
  reachable gridProjection ratioToString plainEncoding emptyOnly worldB /\
  shown worldB.
Proof.
  split; [ exact reachable_worldB | ].
  exact (panel_and_element_follow_overlay gridProjection ratioToString plainEncoding
           emptyOnly worldB reachable_worldB).
Defined.

(** Scenario B: scale 2, rotation 90 and opacity 1/2, in either order. *)
Lemma sliders_commute_witness :
  exists w1 w2,
    dispatchAll gridProjection emptyOnly
      [ScaleInput 2; RotationInput 90; OpacityInput (1 # 2)] worldB = Ok w1 /\
    dispatchAll gridProjection emptyOnly
      [OpacityInput (1 # 2); RotationInput 90; ScaleInput 2] worldB = Ok w2 /\
    state w1 = state w2 /\
    floorMap (state w1) =
      Some {| url := 0%nat;
              bounds := scaledAbout (getCenter (layer_getBounds footprintB)) footprintB 2;
              scale := 2; rotation := 90; masked := false |} /\
    opacity (state w1) = 1 # 2.
Proof.
  destruct (sliders_commute gridProjection emptyOnly worldB floorMapB footprintB
              2 90%Z (1 # 2) floorMap_worldB selection_worldB)
    as (w1 & w2 & H1 & H2 & Hs & Hfm & Ho & _).
  exists w1, w2.
  split; [ exact H1 | ].
  split; [ exact H2 | ].
  split; [ exact Hs | ].
  split; [ exact Hfm | exact Ho ].
Defined.


(** *** The rounding against the kernel's binary64

    [fadd], [fsub], [fmul] and [fdiv] agree with the kernel's binary64
    operations on four hundred pairs of sample numbers; [fl] agrees
    with the kernel's numbers on the literals of the scenarios; and the
    scale formula of the model agrees with the same formula evaluated
    by the kernel, on both axes of scenario B's footprint and for every
    value of the scale slider, from the box as attached and from the
    box after scale 2. *)
Example operations_binary64 : operationsAgreeFrom 400 12345 = true.
Proof. vm_compute; reflexivity. Qed.

#[warnings="-inexact-float"]
Example literals_binary64 :
  double 40.710%float = Some (literal (40710 # 1000)) /\
  double 40.712%float = Some (literal (40712 # 1000)) /\
  double (-74.010)%float = Some (literal (- (74010 # 1000))) /\
  double (-74.008)%float = Some (literal (- (74008 # 1000))) /\
  double 40.710499999999996%float
    = Some (literal (40710499999999996 # 1000000000000000)) /\
  double 0.1%float = Some (literal (1 # 10)).
Proof. vm_compute; repeat split; reflexivity. Qed.

#[warnings="-inexact-float"]
Example scale_formula_binary64 :
  forallb
    (fun v =>
       agree (axisBinary64 40.710 40.712 40.710 40.712 (fst v))
             (axisModel (literal (40710 # 1000)) (literal (40712 # 1000))
                        (literal (40710 # 1000)) (literal (40712 # 1000)) (snd v))
       && agree (axisBinary64 (-74.010) (-74.008) (-74.010) (-74.008) (fst v))
                (axisModel (literal (- (74010 # 1000))) (literal (- (74008 # 1000)))
                           (literal (- (74010 # 1000))) (literal (- (74008 # 1000)))
                           (snd v))
       && agree (axisBinary64 40.709 40.713 40.710 40.712 (fst v))
                (axisModel (literal (40709 # 1000)) (literal (40713 # 1000))
                           (literal (40710 # 1000)) (literal (40712 # 1000)) (snd v)))
    sliderValues = true.
Proof. vm_compute; reflexivity. Qed.

(** The model's scale slider is that formula, on each axis. *)
Lemma scaledAbout_axes (b : LatLngBounds) (layer : Layer) (s : Q) :
  (getSouth (scaledAbout (getCenter b) layer s),
   getNorth (scaledAbout (getCenter b) layer s))
    = axisModel (getSouth b) (getNorth b)
        (getSouth (layer_getBounds layer)) (getNorth (layer_getBounds layer)) s /\
  (getWest (scaledAbout (getCenter b) layer s),
   getEast (scaledAbout (getCenter b) layer s))
    = axisModel (getWest b) (getEast b)
        (getWest (layer_getBounds layer)) (getEast (layer_getBounds layer)) s.
Proof. split; reflexivity. Qed.

(** Scenario C, as the kernel computes it. *)
Example scenario_C_binary64 :
  exists w' fm',
    dispatch gridProjection emptyOnly (ScaleInput (1 # 2)) worldB = Ok w' /\
    floorMap (state w') = Some fm' /\
    (getSouth (bounds fm'), getNorth (bounds fm'))
      = axisModel (literal (40710 # 1000)) (literal (40712 # 1000))
                  (literal (40710 # 1000)) (literal (40712 # 1000)) (1 # 2) /\
    (getWest (bounds fm'), getEast (bounds fm'))
      = axisModel (literal (- (74010 # 1000))) (literal (- (74008 # 1000)))
                  (literal (- (74010 # 1000))) (literal (- (74008 # 1000))) (1 # 2).
Proof.
  eexists; eexists.
  split; [ vm_compute; reflexivity | ].
  split; [ vm_compute; reflexivity | ].
  split; vm_compute; reflexivity.
Qed.


(** In binary64 the same scale twice need not be the same scale once to
    the last place: on the footprint across the equator, scale 1.5 once
    leaves the north edge at 0.006015250000000001, twice at 0.00601525;
    the two boxes are within the tolerance of each other. *)
Example scale_twice_last_place :
  exists w1 w2 fm1 fm2,
    dispatchAll gridProjection emptyOnly [ScaleInput (3 # 2)] worldZ = Ok w1 /\
    dispatchAll gridProjection emptyOnly [ScaleInput (3 # 2); ScaleInput (3 # 2)] worldZ
      = Ok w2 /\
    floorMap (state w1) = Some fm1 /\
    floorMap (state w2) = Some fm2 /\
    getNorth (bounds fm1) = literal (6015250000000001 # 1000000000000000000) /\
    getNorth (bounds fm2) = literal (601525 # 100000000) /\
    ~ getNorth (bounds fm1) == getNorth (bounds fm2) /\
    close (tolerance 180) (bounds fm1) (bounds fm2).
Proof.
  eexists; eexists; eexists; eexists.
  split; [ vm_compute; reflexivity | ].
  split; [ vm_compute; reflexivity | ].
  split; [ vm_compute; reflexivity | ].
  split; [ vm_compute; reflexivity | ].
  split; [ vm_compute; reflexivity | ].
  split; [ vm_compute; reflexivity | ].
  split; [ vm_compute; discriminate | ].
  repeat split; vm_compute; discriminate.
Qed.


(** Scale 2 and then scale 1 on the overlay of scenario B, in numbers:
    the south edge ends at 40.709999999999994, where scale 1 alone
    leaves it too, one unit in the last place below the footprint's
    40.71; the other three edges are the footprint's. *)
Example scenario_restore :
  exists w' fm',
    dispatchAll gridProjection emptyOnly [ScaleInput 2; ScaleInput 1] worldB = Ok w' /\
    floorMap (state w') = Some fm' /\
    bounds fm' =
      {| southWest := {| lat := literal (40709999999999994 # 1000000000000000);
                         lng := literal (- (74010 # 1000)) |};
         northEast := {| lat := literal (40712 # 1000);
                         lng := literal (- (74008 # 1000)) |} |} /\
    bounds fm' <> layer_getBounds footprintB /\
    close (tolerance 180) (bounds fm') (layer_getBounds footprintB).
Proof.
  eexists; eexists.
  split; [ vm_compute; reflexivity | ].
  split; [ vm_compute; reflexivity | ].
  split; [ vm_compute; reflexivity | ].
  split; [ vm_compute; discriminate | ].
  repeat split; vm_compute; discriminate.
Qed.
